(** * SIM7600 MQTT client (ESP32, FreeRTOS edition): a shallow embedding

    The development follows [SIM7600-MQTT-ESP32/src/main.cpp]:

    - [Str]       the Arduino [String] operations the firmware uses;
    - [Executor]  [sendATCommand], the command/response executor, and
                  [waitForResponse], over a script of clock readings and
                  received bytes;
    - [Receive]   [checkIncomingMessages], the notification reader, over
                  a line-buffered view of the modem UART;
    - [Firmware]  the four FreeRTOS tasks as programs of a small free
                  monad, a sequential interpreter, and the interleaved
                  execution of the four tasks over the shared mutex and
                  the shared flag [mqttConnected];
    - [Boot]      [setup], which creates the mutex and the tasks;
    - [ExecutorFacts], [ReceiveFacts], [FirmwareFacts], [BootFacts]
                  what is proved of them;

    and [SIM7600-AT-BASICS-ESP32/src/main.cpp]:

    - [Sms]       the program that sends one SMS, as programs of a free
                  monad of its own calls;
    - [SmsFacts]  what is proved of it.

    Texts sent to the diagnostic console are kept without the pictographs
    of the source. *)

From Stdlib Require Import ZArith Bool List String Ascii Lia.
From Stdlib Require Import DecimalString.
Import ListNotations.

Local Open Scope list_scope.
Local Open Scope string_scope.
Local Open Scope Z_scope.

(* ===================================================================== *)
(** ** Arduino [String] helpers *)
(* ===================================================================== *)

Module Str.

(** A [String] keeps its length beside its bytes, so that [+=] appends a
    NUL byte like any other; [indexOf] searches with [strstr], which takes
    the buffer for a C string.  [c_str s] is what the C library sees of
    [s]: the bytes before the first NUL. *)
Fixpoint c_str (s : string) : string :=
  match s with
  | EmptyString => EmptyString
  | String c s' =>
      if Ascii.eqb c Ascii.zero then EmptyString else String c (c_str s')
  end.

(** [strstr]: the position, counted from [i], of the first occurrence of
    [pat] in [s], or [-1]. *)
Fixpoint strstr (s pat : string) (i : Z) : Z :=
  if String.prefix pat s then i
  else match s with
       | EmptyString => -1
       | String _ s' => strstr s' pat (i + 1)
       end.

(** [String::indexOf(const String&)], that is [indexOf(s2, 0)]:
    [if (fromIndex >= len()) return -1;] and then [strstr] on the two
    buffers.  The pattern is made from a [const char*]. *)
Definition indexOf (s pat : string) : Z :=
  match s with
  | EmptyString => -1
  | String _ _ => strstr (c_str s) (c_str pat) 0
  end.

(** The idiom [s.indexOf(pat) != -1]. *)
Definition found (s pat : string) : bool := negb (indexOf s pat =? -1).

(** [%d] / [%lu] of a number. *)
Definition dec (z : Z) : string := NilZero.string_of_int (Z.to_int z).

(** [strlen]. *)
Definition strlen (s : string) : Z := Z.of_nat (String.length s).

(** Carriage return, line feed. *)
Definition crlf : string := String (ascii_of_nat 13) (String (ascii_of_nat 10) EmptyString).

Fixpoint concat_all (l : list string) : string :=
  match l with
  | [] => EmptyString
  | s :: l' => s ++ concat_all l'
  end.

End Str.

(** 32-bit unsigned arithmetic ([unsigned long], [TickType_t]). *)
Definition two32 : Z := 2 ^ 32.
Definition u32 (z : Z) : Z := z mod two32.

(* ===================================================================== *)
(** ** The command/response executor: [sendATCommand] *)
(* ===================================================================== *)

Module Executor.
Import Str.

(** One evaluation of the loop condition [millis() - startTime < timeout]
    together with what the body finds if it runs: [at_ms] is the time in
    milliseconds since boot at which [millis()] is read (the firmware sees
    it modulo 2^32), [rx] the bytes the inner loop
    [while (SIM7600.available())] drains in that iteration. *)
Record Poll : Type := mkPoll { at_ms : Z; rx : string }.

Definition millis (p : Poll) : Z := u32 (at_ms p).

(** [response.indexOf("OK") != -1 || response.indexOf("ERROR") != -1] *)
Definition terminal (response : string) : bool :=
  found response "OK" || found response "ERROR".

(** How a call ended. *)
Inductive Exit : Type := ByToken | ByTimeout.

Record Result : Type := mkResult
  { response : string;   (* the global [response], also the return value *)
    tests : nat;         (* evaluations of the loop condition *)
    last_read : Z;       (* time of the last reading of millis() *)
    exit : Exit }.

(** The number of times the loop body ran. *)
Definition iterations (r : Result) : nat :=
  match exit r with
  | ByToken => tests r
  | ByTimeout => Nat.pred (tests r)
  end.

(** The [while (millis() - startTime < timeout)] loop.  [None]: the script
    of polls is used up before the loop ends. *)
Fixpoint wait_loop (startTime timeout : Z) (response : string) (n : nat)
                   (env : list Poll) : option Result :=
  match env with
  | [] => None
  | p :: env' =>
      if u32 (millis p - startTime) <? timeout then
        let response := response ++ rx p in
        if terminal response
        then Some (mkResult response (S n) (at_ms p) ByToken)
        else wait_loop startTime timeout response (S n) env'
      else Some (mkResult response (S n) (at_ms p) ByTimeout)
  end.

(** [String sendATCommand(const char* command, unsigned long timeout)].
    [t0] is the time at which [startTime = millis()] is taken; the line
    written to the modem is the command itself. *)
Definition sendATCommand (command : string) (timeout : Z) (t0 : Z)
                         (env : list Poll) : option Result :=
  let response := EmptyString in
  let startTime := u32 t0 in
  wait_loop startTime timeout response 0 env.

(** The bytes drained by the first [n] iterations. *)
Definition received (n : nat) (env : list Poll) : string :=
  concat_all (map rx (firstn n env)).

(** Successive clock readings, starting after [t], never go back and are
    at most [eps] apart. *)
Fixpoint paced (eps t : Z) (env : list Poll) : Prop :=
  match env with
  | [] => True
  | p :: env' => t <= at_ms p <= t + eps /\ paced eps (at_ms p) env'
  end.

(** The clock reaches the deadline of a call started at [t0]. *)
Definition reaches (t0 timeout : Z) (env : list Poll) : Prop :=
  exists p, In p env /\ t0 + timeout <= at_ms p.

(** A modem that stays silent until the deadline of a 2 s call started at
    1000 ms has passed. *)
Definition silent_line : list Poll :=
  [ mkPoll 1000 EmptyString; mkPoll 1900 EmptyString; mkPoll 2950 EmptyString;
    mkPoll 3001 EmptyString; mkPoll 3002 "OK" ].

(** A subscription whose acknowledgement and result code arrive after an
    unsolicited notification that carries the payload [OK]. *)
Definition notification_OK : string :=
  crlf ++ "+CMQTTRXSTART: 0,20,2" ++ crlf ++
  "+CMQTTRXTOPIC: 0,20" ++ crlf ++ "test/sim7600/command" ++ crlf ++
  "+CMQTTRXPAYLOAD: 0,2" ++ crlf ++ "OK" ++ crlf ++
  "+CMQTTRXEND: 0" ++ crlf.

Definition busy_line : list Poll :=
  [ mkPoll 1001 EmptyString;
    mkPoll 1002 notification_OK;
    mkPoll 1350 (crlf ++ "OK" ++ crlf ++ crlf ++ "+CMQTTSUB: 0,0" ++ crlf) ].

(** The time of the [k]-th reading of the clock by a call, counted from
    1. *)
Definition reading (k : nat) (env : list Poll) : Z :=
  at_ms (nth (Nat.pred k) env (mkPoll 0 EmptyString)).

(** The [k]-th test of the loop condition [millis() - startTime < timeout]
    lets the body run. *)
Definition in_time (startTime timeout : Z) (k : nat) (env : list Poll) : bool :=
  u32 (u32 (reading k env) - startTime) <? timeout.

(** A silent modem and a clock that is read every [step] ms: [n] readings
    after [t]. *)
Fixpoint ticking (step t : Z) (n : nat) : list Poll :=
  match n with
  | O => []
  | S n' => mkPoll (t + step) EmptyString :: ticking step (t + step) n'
  end.

(** The byte 0.  A modem that sends one, then OK, and nothing after. *)
Definition NUL : ascii := Ascii.zero.

Definition nul_line : list Poll :=
  [ mkPoll 1001 (String NUL ("OK" ++ crlf)); mkPoll 2000 EmptyString;
    mkPoll 3001 EmptyString ].

(** *** [waitForResponse] *)

(** What a call of [waitForResponse] leaves: its result, and the local
    [buffer], the number of tests of the loop condition and the time of
    the last reading of [millis()]. *)
Record Waited : Type := mkWaited
  { matched : bool;
    buffer : string;
    checks : nat;
    last_check : Z }.

(** The [while (millis() - startTime < timeout)] loop of
    [waitForResponse]. *)
Fixpoint wait_for (expected : string) (startTime timeout : Z) (buffer : string)
                  (n : nat) (env : list Poll) : option Waited :=
  match env with
  | [] => None
  | p :: env' =>
      if u32 (millis p - startTime) <? timeout then
        let buffer := buffer ++ rx p in
        if found buffer expected
        then Some (mkWaited true buffer (S n) (at_ms p))
        else wait_for expected startTime timeout buffer (S n) env'
      else Some (mkWaited false buffer (S n) (at_ms p))
  end.

(** [bool waitForResponse(const char* expected, unsigned long timeout)] *)
Definition waitForResponse (expected : string) (timeout : Z) (t0 : Z)
                           (env : list Poll) : option Waited :=
  let startTime := u32 t0 in
  let buffer := EmptyString in
  wait_for expected startTime timeout buffer 0 env.

(** The text accumulated at the end of each of the first [n] iterations
    lacks [expected]. *)
Definition never_seen (expected : string) (n : nat) (env : list Poll) : Prop :=
  forall k, (1 <= k <= n)%nat -> found (received k env) expected = false.

(** A modem that answers ERROR at once and nothing after. *)
Definition error_line : list Poll :=
  [ mkPoll 1000 (crlf ++ "ERROR" ++ crlf); mkPoll 1900 EmptyString;
    mkPoll 2950 EmptyString; mkPoll 3001 EmptyString ].

End Executor.

(* ===================================================================== *)
(** ** The notification reader: [checkIncomingMessages] *)
(* ===================================================================== *)

Module Receive.
Import Str.

(** The UART receive buffer is seen line by line: [readStringUntil('\n')]
    removes the first line.  A poll is given the buffer as it is when the
    call starts and the lines that arrive while it sleeps in
    [vTaskDelay(pdMS_TO_TICKS(100))]. *)

Definition header : string := "Incoming MQTT message:".

Definition isNotification (incoming : string) : bool :=
  found incoming "+CMQTTRXTOPIC:" ||
  found incoming "+CMQTTRXPAYLOAD:" ||
  found incoming "+CMQTTRXSTART:".

Definition isEnd (line : string) : bool := found line "+CMQTTRXEND:".

(** [while (SIM7600.available()) { line = readStringUntil('\n');
     Serial.println(line); if (line.indexOf("+CMQTTRXEND:") != -1) break; }]
    returns the lines printed and the lines left in the buffer. *)
Fixpoint read_related (buf : list string) : list string * list string :=
  match buf with
  | [] => ([], [])
  | line :: rest =>
      if isEnd line then ([line], rest)
      else let (printed, left) := read_related rest in (line :: printed, left)
  end.

(** [void checkIncomingMessages()]: the lines printed on the console and
    the receive buffer afterwards. *)
Definition checkIncomingMessages (buf arriving : list string)
  : list string * list string :=
  match buf with
  | [] => ([], arriving)
  | incoming :: rest =>
      if isNotification incoming then
        let (printed, left) := read_related (rest ++ arriving)%list in
        (header :: incoming :: printed ++ [EmptyString], left)%list
      else ([], rest ++ arriving)%list
  end.

(** A sequence of polls.  Each poll is described by the lines that reached
    the buffer since the previous poll and the lines that arrive during
    its 100 ms sleep. *)
Fixpoint polls (buf : list string) (ps : list (list string * list string))
  : list string * list string :=
  match ps with
  | [] => ([], buf)
  | (before, during) :: ps' =>
      let (out, buf') := checkIncomingMessages (buf ++ before)%list during in
      let (outs, final) := polls buf' ps' in
      ((out ++ outs)%list, final)
  end.

(** The six lines of a notification. *)
Definition frame (topic payload : string) : list string :=
  [ "+CMQTTRXSTART: 0," ++ dec (strlen topic) ++ "," ++ dec (strlen payload);
    "+CMQTTRXTOPIC: 0," ++ dec (strlen topic);
    topic;
    "+CMQTTRXPAYLOAD: 0," ++ dec (strlen payload);
    payload;
    "+CMQTTRXEND: 0" ].

(** Slow arrival: one line per poll, nothing arriving during the sleep. *)
Definition one_line_per_poll (lines : list string)
  : list (list string * list string) :=
  map (fun l => ([l], [])) lines.

(** *** Whole notifications *)

(** A notification as the modem sends it: the line that opens it, the
    lines that follow, the line that closes it. *)
Record Notification : Type := mkNotification
  { opening : string;
    inner : list string;
    closing : string }.

Definition lines_of (f : Notification) : list string :=
  (opening f :: inner f ++ [closing f])%list.

(** The opening line carries one of the markers [checkIncomingMessages]
    looks for, the closing line is the first to carry the end marker. *)
Definition well_formed (f : Notification) : bool :=
  isNotification (opening f) &&
  forallb (fun l => negb (isEnd l)) (inner f) &&
  isEnd (closing f).

(** What [checkIncomingMessages] prints for a notification. *)
Definition report (f : Notification) : list string :=
  (header :: lines_of f ++ [EmptyString])%list.

(** Polls during which nothing arrives. *)
Definition quiet_polls (n : nat) : list (list string * list string) :=
  repeat ([], []) n.

End Receive.

(* ===================================================================== *)
(** ** The firmware: tasks, mutex and readiness flag *)
(* ===================================================================== *)

Module Firmware.
Import Str.

Inductive TaskId : Type := InitTask | PublishTask | ReceiveTask | WatchdogTask.

Definition TaskId_eqb (a b : TaskId) : bool :=
  match a, b with
  | InitTask, InitTask | PublishTask, PublishTask
  | ReceiveTask, ReceiveTask | WatchdogTask, WatchdogTask => true
  | _, _ => false
  end.

(** *** The calls a task makes *)

(** Calls without a result. *)
Inductive Cmd : Type :=
| Serial_println (s : string)
| vTaskDelay (ticks : Z)
| delay (ms : Z)
| vTaskDelayUntil (pxPreviousWakeTime xTimeIncrement : Z)
| xSemaphoreGive                      (* xSemaphoreGive(xSIM7600Mutex) *)
| SIM7600_begin                       (* SIM7600.begin(SIM7600_BAUD, ...) *)
| SIM7600_println (s : string)
| set_mqttConnected (b : bool)        (* mqttConnected = b *)
| checkIncomingMessages               (* see [Receive.checkIncomingMessages] *)
| mcp_pinMode (pin : Z)
| mcp_digitalWrite (pin : Z) (high : bool).

(** Calls with a boolean result. *)
Inductive AskBool : Type :=
| xSemaphoreTake (ticks : Z)          (* xSemaphoreTake(xSIM7600Mutex, ticks) == pdTRUE *)
| get_mqttConnected                   (* reading mqttConnected *)
| mcp_begin_I2C
| has_handle (t : TaskId).            (* xPublishTaskHandle != NULL, ... *)

(** Calls with a text result. *)
Inductive AskString : Type :=
| sendATCommand (command : string) (timeout : Z).  (* see [Executor.sendATCommand] *)

(** Calls with a numeric result. *)
Inductive AskNum : Type :=
| millis
| xTaskGetTickCount
| getFreeHeap
| uxTaskGetStackHighWaterMark (t : TaskId).

(** Programs: trees of calls.  [vTaskDelete] is [vTaskDelete(NULL)], after
    which the calling task never runs again. *)
Inductive prog (A : Type) : Type :=
| Ret (a : A)
| vTaskDelete
| Do (c : Cmd) (k : prog A)
| AskB (q : AskBool) (k : bool -> prog A)
| AskS (q : AskString) (k : string -> prog A)
| AskN (q : AskNum) (k : Z -> prog A).

Arguments Ret {A} a.
Arguments vTaskDelete {A}.
Arguments Do {A} c k.
Arguments AskB {A} q k.
Arguments AskS {A} q k.
Arguments AskN {A} q k.

Fixpoint bind {A B : Type} (p : prog A) (f : A -> prog B) : prog B :=
  match p with
  | Ret a => f a
  | vTaskDelete => vTaskDelete
  | Do c k => Do c (bind k f)
  | AskB q k => AskB q (fun b => bind (k b) f)
  | AskS q k => AskS q (fun s => bind (k s) f)
  | AskN q k => AskN q (fun z => bind (k z) f)
  end.

Declare Scope prog_scope.
Delimit Scope prog_scope with prog.
Notation "x <- p ;; k" := (bind p (fun x => k))
  (at level 61, p at next level, right associativity) : prog_scope.
Notation "p ;; k" := (bind p (fun _ => k))
  (at level 61, right associativity) : prog_scope.
Local Open Scope prog_scope.

Definition call (c : Cmd) : prog unit := Do c (Ret tt).
Definition askB (q : AskBool) : prog bool := AskB q Ret.
Definition askS (q : AskString) : prog string := AskS q Ret.
Definition askN (q : AskNum) : prog Z := AskN q Ret.

(** What a call was and what it returned. *)
Inductive Ev : Type :=
| EDo (c : Cmd)
| EB (q : AskBool) (b : bool)
| ES (q : AskString) (s : string)
| EN (q : AskNum) (z : Z).

(** *** Sequential execution

    A piece of code is run to its end against an oracle that answers the
    [i]-th call of the run. *)
Record Oracle : Type := mkOracle
  { ans_bool : nat -> AskBool -> bool;
    ans_string : nat -> AskString -> string;
    ans_num : nat -> AskNum -> Z }.

Inductive Outcome (A : Type) : Type :=
| Returned (a : A)
| Deleted.                      (* the task called vTaskDelete(NULL) *)

Arguments Returned {A} a.
Arguments Deleted {A}.

Fixpoint exec {A : Type} (o : Oracle) (i : nat) (p : prog A)
  : list Ev * Outcome A :=
  match p with
  | Ret a => ([], Returned a)
  | vTaskDelete => ([], Deleted)
  | Do c k =>
      let (tr, r) := exec o (S i) k in (EDo c :: tr, r)
  | AskB q k =>
      let b := ans_bool o i q in
      let (tr, r) := exec o (S i) (k b) in (EB q b :: tr, r)
  | AskS q k =>
      let s := ans_string o i q in
      let (tr, r) := exec o (S i) (k s) in (ES q s :: tr, r)
  | AskN q k =>
      let z := ans_num o i q in
      let (tr, r) := exec o (S i) (k z) in (EN q z :: tr, r)
  end.

(** *** Constants of [main.cpp] *)

Definition dq : string := String (ascii_of_nat 34) EmptyString.
Definition quoted (s : string) : string := dq ++ s ++ dq.

Definition mqtt_broker : string := "khamisembeddedtests.cloud.shiftr.io".
Definition mqtt_port : Z := 1883.
Definition mqtt_user : string := "khamisembeddedtests".
Definition mqtt_password : string := "EoYhF6hrBs1FGzFT".
Definition mqtt_client_id : string := "SIM7600_ESP32_Client".
Definition test_topic_pub : string := "test/sim7600/status".
Definition test_topic_sub : string := "test/sim7600/command".

Section Tasks.

(** The FreeRTOS macro converting milliseconds to ticks; it depends on the
    tick rate of the port, which is not part of the sources. *)
Variable pdMS_TO_TICKS : Z -> Z.

Definition println (s : string) : prog unit := call (Serial_println s).
Definition AT (command : string) (timeout : Z) : prog string :=
  askS (sendATCommand command timeout).
Definition sleep (ms : Z) : prog unit := call (vTaskDelay (pdMS_TO_TICKS ms)).
Definition take (ms : Z) : prog bool := askB (xSemaphoreTake (pdMS_TO_TICKS ms)).
Definition give : prog unit := call xSemaphoreGive.

(** *** Functions of [main.cpp] *)

(** [for (int i = 0; i < 16; i++) { pinMode(i, OUTPUT); digitalWrite(i, LOW); }] *)
Fixpoint configure_pins (n : nat) (i : Z) : prog unit :=
  match n with
  | O => Ret tt
  | S n' => call (mcp_pinMode i) ;; call (mcp_digitalWrite i false) ;;
            configure_pins n' (i + 1)
  end.

Definition initMCP23017 : prog bool :=
  println "--- Initializing MCP23017 ---" ;;
  ok <- askB mcp_begin_I2C ;;
  if negb ok then
    println "Failed to initialize MCP23017 at 0x27" ;; Ret false
  else
    println "MCP23017 at 0x27 initialized" ;;
    configure_pins 16 0 ;;
    println "All outputs configured" ;;
    Ret true.

(** The registration loop of [setupNetwork]:
    [for (int i = 0; i < 20; i++) { ... }], [n] iterations left. *)
Fixpoint wait_registration (n : nat) (i : Z) : prog bool :=
  match n with
  | O => Ret false
  | S n' =>
      response <- AT "AT+CREG?" 1000 ;;
      if found response ",1" || found response ",5" then
        println "Registered on network" ;; Ret true
      else
        println ("Waiting for network... (" ++ dec (i + 1) ++ "/20)") ;;
        call (delay 2000) ;;
        wait_registration n' (i + 1)
  end.

Definition setupNetwork : prog bool :=
  println "--- Setting Up Network Connection ---" ;;
  println "Checking SIM card..." ;;
  response <- AT "AT+CPIN?" 2000 ;;
  if negb (found response "READY") then
    println "SIM card not ready!" ;; Ret false
  else
    println "Checking network registration..." ;;
    registered <- wait_registration 20 0 ;;
    if negb registered then
      println "Failed to register on network!" ;; Ret false
    else
      AT "AT+CSQ" 2000 ;;
      println "Configuring Safaricom APN..." ;;
      AT ("AT+CGDCONT=1," ++ quoted "IP" ++ "," ++ quoted "safaricom") 2000 ;;
      println "Setting APN authentication..." ;;
      AT ("AT+CGAUTH=1,1," ++ quoted "saf" ++ "," ++ quoted "data") 2000 ;;
      println "Waiting for network to stabilize..." ;;
      sleep 5000 ;;
      println "Network connection established" ;;
      Ret true.

Definition setupMQTT : prog bool :=
  println "--- Setting Up MQTT Configuration ---" ;;
  println "Stopping any existing MQTT service..." ;;
  AT "AT+CMQTTSTOP" 3000 ;;
  sleep 1000 ;;
  println "Releasing any existing MQTT client..." ;;
  AT "AT+CMQTTREL=0" 2000 ;;
  sleep 1000 ;;
  println "Starting MQTT service..." ;;
  AT "AT+CMQTTSTART" 5000 ;;
  sleep 2000 ;;
  println "MQTT service initialized" ;;
  sleep 1000 ;;
  println "Acquiring MQTT client..." ;;
  response <- AT ("AT+CMQTTACCQ=0," ++ quoted mqtt_client_id) 5000 ;;
  sleep 500 ;;
  (if found response "OK"
   then println "MQTT client acquired successfully!"
   else println "Client acquisition response unclear, continuing...") ;;
  println "MQTT configuration complete" ;;
  Ret true.

Definition connect_command : string :=
  let broker_url := "tcp://" ++ mqtt_broker ++ ":" ++ dec mqtt_port in
  "AT+CMQTTCONNECT=0," ++ quoted broker_url ++ ",90,1," ++
  quoted mqtt_user ++ "," ++ quoted mqtt_password.

Definition subscribe_command : string :=
  "AT+CMQTTSUB=0," ++ quoted test_topic_sub ++ ",1".

Definition connectMQTT : prog bool :=
  println "--- Connecting to MQTT Broker ---" ;;
  println ("Broker: " ++ mqtt_broker ++ ":" ++ dec mqtt_port) ;;
  println ("Client ID: " ++ mqtt_client_id) ;;
  println "Opening MQTT connection..." ;;
  response <- AT connect_command 30000 ;;
  sleep 5000 ;;
  (if found response "+CMQTTCONNECT: 0,0"
   then println "MQTT CONNECTED SUCCESSFULLY!"
   else println "Connection response unclear, but continuing...") ;;
  sleep 2000 ;;
  println ("Subscribing to: " ++ test_topic_sub) ;;
  response <- AT subscribe_command 5000 ;;
  sleep 2000 ;;
  (if found response "+CMQTTSUB: 0,0" then
     println "Subscribed successfully!"
   else if found response "+CMQTTSUB: 0,12" then
     println "Subscription error 12 (topic format issue?), but continuing..."
   else Ret tt) ;;
  println "MQTT setup complete" ;;
  Ret true.

Definition publishMessage (topic message : string) : prog unit :=
  let topicLen := strlen topic in
  let msgLen := strlen message in
  call (SIM7600_println ("AT+CMQTTTOPIC=0," ++ dec topicLen)) ;;
  sleep 200 ;;
  call (SIM7600_println topic) ;;
  sleep 200 ;;
  call (SIM7600_println ("AT+CMQTTPAYLOAD=0," ++ dec msgLen)) ;;
  sleep 200 ;;
  call (SIM7600_println message) ;;
  sleep 200 ;;
  call (SIM7600_println "AT+CMQTTPUB=0,1,60") ;;
  sleep 200 ;;
  println ("Published: " ++ topic ++ " -> " ++ message).

(** *** The tasks

    A task is cut at its loop heads.  [Local] names the loop head a task
    is at, together with the local variables that are live there;
    [code t l] is the code of task [t] from loop head [l] to the next one
    (or to [vTaskDelete]). *)
Inductive Local : Type :=
| Entry                                           (* the task function starts *)
| Gate                                            (* while (!mqttConnected) *)
| PublishLoop (xLastWakeTime messageCount : Z)    (* while (1) of vPublishTask *)
| ReceiveLoop                                     (* while (1) of vReceiveTask *)
| WatchdogLoop (xLastWakeTime lastHeartbeat : Z). (* while (1) of vWatchdogTask *)

(** [void vInitTask(void *pvParameters)] *)
Definition vInitTask : prog Local :=
  println "InitTask started on Core 1" ;;
  sleep 500 ;;
  ok <- initMCP23017 ;;
  if negb ok then
    println "Failed to initialize MCP23017! Halting..." ;;
    call (set_mqttConnected false) ;;
    vTaskDelete
  else
  call SIM7600_begin ;;
  println "UART initialized on RX:19, TX:20 at 115200 baud" ;;
  println "Skipping PWRKEY sequence (module should already be on)..." ;;
  println "Waiting for module to stabilize..." ;;
  sleep 3000 ;;
  println "--- Testing Module Communication ---" ;;
  (* Acquire mutex before using SIM7600 UART *)
  taken <- take 5000 ;;
  if negb taken then
    println "Failed to acquire mutex for AT commands!" ;;
    vTaskDelete
  else
  response <- AT "AT" 2000 ;;
  if negb (found response "OK") && negb (found response "AT") then
    println "Module not responding! Check connections." ;;
    give ;;
    call (set_mqttConnected false) ;;
    vTaskDelete
  else
  println "Module responding!" ;;
  AT "ATE0" 2000 ;;
  AT "ATI" 2000 ;;
  give ;;
  (* Setup network connection *)
  taken <- take 30000 ;;
  if negb taken then
    println "Failed to acquire mutex for network setup!" ;;
    vTaskDelete
  else
  ok <- setupNetwork ;;
  if negb ok then
    println "Network setup failed! Check SIM card and signal." ;;
    give ;;
    call (set_mqttConnected false) ;;
    vTaskDelete
  else
  give ;;
  (* Setup MQTT *)
  taken <- take 30000 ;;
  if negb taken then
    println "Failed to acquire mutex for MQTT setup!" ;;
    vTaskDelete
  else
  ok <- setupMQTT ;;
  if negb ok then
    println "MQTT setup failed!" ;;
    give ;;
    call (set_mqttConnected false) ;;
    vTaskDelete
  else
  give ;;
  (* Connect to MQTT broker *)
  taken <- take 30000 ;;
  if negb taken then
    println "Failed to acquire mutex for MQTT connect!" ;;
    vTaskDelete
  else
  ok <- connectMQTT ;;
  if negb ok then
    println "MQTT connection failed!" ;;
    give ;;
    call (set_mqttConnected false) ;;
    vTaskDelete
  else
  give ;;
  (* Success! *)
  call (set_mqttConnected true) ;;
  println "System ready! MQTT connected." ;;
  (* Publish initial status message *)
  taken <- take 10000 ;;
  (if taken then
     println "Publishing initial status message..." ;;
     publishMessage test_topic_pub "SIM7600 online! [FreeRTOS]" ;;
     give
   else Ret tt) ;;
  println "InitTask completed successfully - deleting self" ;;
  vTaskDelete.

(** [while (!mqttConnected) { vTaskDelay(pdMS_TO_TICKS(1000)); }]: one
    evaluation of the loop condition; [after] is the code that follows the
    loop. *)
Definition wait_for_init (after : prog Local) : prog Local :=
  connected <- askB get_mqttConnected ;;
  if negb connected then sleep 1000 ;; Ret Gate
  else after.

(** [void vPublishTask(void *pvParameters)] *)
Definition vPublishTask (l : Local) : prog Local :=
  match l with
  | Entry =>
      println "PublishTask started on Core 1" ;;
      Ret Gate
  | Gate =>
      wait_for_init
        (println "PublishTask active - will publish every 1 second (HIGH FREQUENCY TEST)" ;;
         xLastWakeTime <- askN xTaskGetTickCount ;;
         let messageCount := 0 in
         Ret (PublishLoop xLastWakeTime messageCount))
  | PublishLoop xLastWakeTime messageCount =>
      let xFrequency := pdMS_TO_TICKS 1000 in
      (* Wait for next cycle *)
      call (vTaskDelayUntil xLastWakeTime xFrequency) ;;
      let xLastWakeTime := u32 (xLastWakeTime + xFrequency) in
      connected <- askB get_mqttConnected ;;
      if negb connected then
        println "MQTT not connected, skipping publish" ;;
        Ret (PublishLoop xLastWakeTime messageCount)
      else
        let messageCount := u32 (messageCount + 1) in
        now <- askN millis ;;
        let uptime := now / 1000 in
        let msg := "Msg#" ++ dec messageCount ++ " | Uptime:" ++ dec uptime ++ "s" in
        (* Acquire mutex before publishing *)
        taken <- take 10000 ;;
        (if taken then
           println ("Publishing: " ++ msg) ;;
           publishMessage test_topic_pub msg ;;
           give
         else
           println "Failed to acquire mutex for publish!") ;;
        Ret (PublishLoop xLastWakeTime messageCount)
  | _ => vTaskDelete
  end.

(** [void vReceiveTask(void *pvParameters)] *)
Definition vReceiveTask (l : Local) : prog Local :=
  match l with
  | Entry =>
      println "ReceiveTask started on Core 1" ;;
      Ret Gate
  | Gate =>
      wait_for_init
        (println "ReceiveTask active - monitoring incoming messages" ;;
         Ret ReceiveLoop)
  | ReceiveLoop =>
      connected <- askB get_mqttConnected ;;
      (if connected then
         (* Acquire mutex before checking messages *)
         taken <- take 500 ;;
         if taken then
           call checkIncomingMessages ;;
           give
         else Ret tt
       else Ret tt) ;;
      (* Check every 100ms *)
      sleep 100 ;;
      Ret ReceiveLoop
  | _ => vTaskDelete
  end.

(** [void vWatchdogTask(void *pvParameters)]; a task handle is [NULL]
    when [setup] could not create the task. *)
Definition vWatchdogTask (l : Local) : prog Local :=
  match l with
  | Entry =>
      println "WatchdogTask started on Core 1" ;;
      Ret Gate
  | Gate =>
      wait_for_init
        (println "WatchdogTask active - monitoring every 60 seconds" ;;
         xLastWakeTime <- askN xTaskGetTickCount ;;
         lastHeartbeat <- askN millis ;;
         Ret (WatchdogLoop xLastWakeTime lastHeartbeat))
  | WatchdogLoop xLastWakeTime lastHeartbeat =>
      let xFrequency := pdMS_TO_TICKS 60000 in
      (* Wait for next cycle *)
      call (vTaskDelayUntil xLastWakeTime xFrequency) ;;
      let xLastWakeTime := u32 (xLastWakeTime + xFrequency) in
      connected <- askB get_mqttConnected ;;
      if negb connected then
        println "Watchdog: MQTT disconnected!" ;;
        Ret (WatchdogLoop xLastWakeTime lastHeartbeat)
      else
        taken <- take 5000 ;;
        (if taken then
           now <- askN millis ;;
           let uptime := now / 1000 in
           heap <- askN getFreeHeap ;;
           println ("Watchdog: System healthy | Uptime: " ++ dec uptime ++
                    " sec | Free heap: " ++ dec heap ++ " bytes") ;;
           (* Report task high water marks (minimum free stack) *)
           publisher <- askB (has_handle PublishTask) ;;
           (if publisher then
              stackLeft <- askN (uxTaskGetStackHighWaterMark PublishTask) ;;
              println ("PublishTask stack: " ++ dec stackLeft ++ " words remaining")
            else Ret tt) ;;
           receiver <- askB (has_handle ReceiveTask) ;;
           (if receiver then
              stackLeft <- askN (uxTaskGetStackHighWaterMark ReceiveTask) ;;
              println ("ReceiveTask stack: " ++ dec stackLeft ++ " words remaining")
            else Ret tt) ;;
           give
         else
           println "Watchdog: Failed to acquire mutex!") ;;
        lastHeartbeat <- askN millis ;;
        Ret (WatchdogLoop xLastWakeTime lastHeartbeat)
  | _ => vTaskDelete
  end.

(** The code of each task, from a loop head to the next. *)
Definition code (t : TaskId) (l : Local) : prog Local :=
  match t with
  | InitTask => vInitTask
  | PublishTask => vPublishTask l
  | ReceiveTask => vReceiveTask l
  | WatchdogTask => vWatchdogTask l
  end.

(** [cycles] passes of task [t] from loop head [l]. *)
Fixpoint run (o : Oracle) (t : TaskId) (cycles : nat) (i : nat) (l : Local)
  : list Ev * Outcome Local :=
  match cycles with
  | O => ([], Returned l)
  | S n =>
      let (tr, r) := exec o i (code t l) in
      match r with
      | Deleted => (tr, Deleted)
      | Returned l' =>
          let (tr', r') := run o t n (i + List.length tr)%nat l' in
          ((tr ++ tr')%list, r')
      end
  end.

(** *** Interleaved execution of the four tasks

    The shared state is the flag [mqttConnected] and the holder of
    [xSIM7600Mutex].  A schedule picks the task that makes the next call;
    the environment supplies what the modem, the clock and the hardware
    answer, whether a task was created, and whether a task waiting for
    the mutex has timed out. *)
Record World : Type := mkWorld
  { mqttConnected : bool;
    xSIM7600Mutex : option TaskId;
    tasks : TaskId -> prog Local;
    trace : list (TaskId * Ev) }.

Record Input : Type := mkInput
  { in_bool : bool;
    in_string : string;
    in_num : Z;
    in_timeout : bool }.

Definition boot : World :=
  mkWorld false None (fun _ => Ret Entry) [].

Definition set_task (ts : TaskId -> prog Local) (t : TaskId) (p : prog Local)
  : TaskId -> prog Local :=
  fun t' => if TaskId_eqb t' t then p else ts t'.

(** A task standing at a loop head continues with the code of that loop. *)
Definition resume (t : TaskId) (p : prog Local) : prog Local :=
  match p with
  | Ret l => code t l
  | _ => p
  end.

Definition holds (w : World) (t : TaskId) : bool :=
  match xSIM7600Mutex w with
  | Some t' => TaskId_eqb t' t
  | None => false
  end.

Definition record (w : World) (t : TaskId) (e : Ev) (k : prog Local)
                  (flag : bool) (mutex : option TaskId) : World :=
  mkWorld flag mutex (set_task (tasks w) t k) (trace w ++ [(t, e)])%list.

Definition step (w : World) (t : TaskId) (x : Input) : World :=
  let flag := mqttConnected w in
  let mutex := xSIM7600Mutex w in
  match resume t (tasks w t) with
  | Ret _ => w
  | vTaskDelete => w
  | Do c k =>
      match c with
      | set_mqttConnected b => record w t (EDo c) k b mutex
      | xSemaphoreGive =>
          record w t (EDo c) k flag (if holds w t then None else mutex)
      | _ => record w t (EDo c) k flag mutex
      end
  | AskB q k =>
      match q with
      | get_mqttConnected => record w t (EB q flag) (k flag) flag mutex
      | xSemaphoreTake _ =>
          match mutex with
          | None => record w t (EB q true) (k true) flag (Some t)
          | Some _ =>
              if in_timeout x
              then record w t (EB q false) (k false) flag mutex
              else w                       (* still blocked *)
          end
      | mcp_begin_I2C | has_handle _ =>
          record w t (EB q (in_bool x)) (k (in_bool x)) flag mutex
      end
  | AskS q k => record w t (ES q (in_string x)) (k (in_string x)) flag mutex
  | AskN q k => record w t (EN q (in_num x)) (k (in_num x)) flag mutex
  end.

Fixpoint run_system (sched : nat -> TaskId) (env : nat -> Input) (n : nat)
  : World :=
  match n with
  | O => boot
  | S n' => step (run_system sched env n') (sched n') (env n')
  end.

(** What a call leaves in the shared state, and which answers the shared
    state allows. *)
Definition flag_after (w : World) (e : Ev) : bool :=
  match e with
  | EDo (set_mqttConnected b) => b
  | _ => mqttConnected w
  end.

Definition mutex_after (w : World) (t : TaskId) (e : Ev) : option TaskId :=
  match e with
  | EDo xSemaphoreGive => if holds w t then None else xSIM7600Mutex w
  | EB (xSemaphoreTake _) true => Some t
  | _ => xSIM7600Mutex w
  end.

Definition answer_fits (w : World) (e : Ev) : Prop :=
  match e with
  | EB get_mqttConnected b => b = mqttConnected w
  | EB (xSemaphoreTake _) b =>
      b = match xSIM7600Mutex w with None => true | Some _ => false end
  | _ => True
  end.

(** The calls of one task in a trace of the system. *)
Fixpoint calls_of (t : TaskId) (tr : list (TaskId * Ev)) : list Ev :=
  match tr with
  | [] => []
  | (t', e) :: tr' =>
      if TaskId_eqb t' t then e :: calls_of t tr' else calls_of t tr'
  end.

(** A task is at rest when it stands at a loop head or has been deleted. *)
Definition at_rest (p : prog Local) : bool :=
  match p with
  | Ret _ | vTaskDelete => true
  | _ => false
  end.

End Tasks.

(** *** Observers of a task's calls *)

(** Use of the UART towards the modem. *)
Definition is_transport (e : Ev) : bool :=
  match e with
  | EDo (SIM7600_println _) | EDo checkIncomingMessages | EDo SIM7600_begin => true
  | ES (sendATCommand _ _) _ => true
  | _ => false
  end.

Definition is_executor_call (e : Ev) : bool :=
  match e with
  | ES (sendATCommand _ _) _ => true
  | _ => false
  end.

Definition is_flag_write (e : Ev) : bool :=
  match e with
  | EDo (set_mqttConnected _) => true
  | _ => false
  end.

(** A call of a periodic task (not of the Initializer) that satisfies [f]. *)
Definition by_periodic (f : Ev -> bool) (te : TaskId * Ev) : bool :=
  negb (TaskId_eqb (fst te) InitTask) && f (snd te).

Definition is_report (e : Ev) : bool :=
  match e with
  | EDo (Serial_println _) => true
  | _ => false
  end.

Record Monitor : Type := mkMonitor
  { MState : Type;
    m_init : MState;
    m_step : MState -> Ev -> MState }.

Definition observe (M : Monitor) (m : MState M) (tr : list Ev) : MState M :=
  fold_left (m_step M) tr m.

(** The mutex as one task sees it. *)
Record LockView : Type := mkLockView
  { held : bool;          (* the task is between a successful take and its give *)
    misuse : bool;        (* a take while holding, or a give while not holding *)
    taken : nat;          (* successful acquisitions so far *)
    given : nat }.        (* releases so far *)

Definition lock_step (v : LockView) (e : Ev) : LockView :=
  match e with
  | EB (xSemaphoreTake _) true =>
      if held v then mkLockView true true (S (taken v)) (given v)
      else mkLockView true (misuse v) (S (taken v)) (given v)
  | EDo xSemaphoreGive =>
      if held v then mkLockView false (misuse v) (taken v) (S (given v))
      else mkLockView false true (taken v) (S (given v))
  | _ => v
  end.

Definition LockMonitor : Monitor :=
  mkMonitor LockView (mkLockView false false 0 0) lock_step.

(** What a periodic task has seen of the flag, and what it has done to the
    UART and to the flag. *)
Record GateView : Type := mkGateView
  { seen_ready : bool;    (* a read of mqttConnected returned true *)
    early : bool;         (* the UART was used before that *)
    wrote : bool }.       (* the task assigned mqttConnected *)

Definition gate_step (v : GateView) (e : Ev) : GateView :=
  match e with
  | EB get_mqttConnected true => mkGateView true (early v) (wrote v)
  | EDo (set_mqttConnected _) => mkGateView (seen_ready v) (early v) true
  | _ => if is_transport e && negb (seen_ready v)
         then mkGateView (seen_ready v) true (wrote v)
         else v
  end.

Definition GateMonitor : Monitor :=
  mkMonitor GateView (mkGateView false false false) gate_step.

(** The progress of the bring-up as the Initializer's calls show it. *)
Record BringUp : Type := mkBringUp
  { probed : bool;         (* sendATCommand("AT") answered with OK or AT *)
    sim_ready : bool;      (* AT+CPIN? answered READY *)
    registered : bool;     (* some AT+CREG? answered ,1 or ,5 *)
    configured : bool;     (* AT+CMQTTACCQ was sent *)
    connected : bool;      (* AT+CMQTTCONNECT was sent *)
    subscribed : bool;     (* AT+CMQTTSUB was sent *)
    released : nat;        (* gives so far *)
    writes : list bool;    (* values assigned to mqttConnected, oldest first *)
    premature : bool;      (* true was assigned before the steps above *)
    published : bool;      (* AT+CMQTTPUB was written to the modem *)
    late_transport : bool }. (* sendATCommand was called after an
                                assignment of true *)

Definition bringup_complete (v : BringUp) : bool :=
  probed v && sim_ready v && registered v && configured v && connected v &&
  subscribed v && (4 <=? released v)%nat.

Definition bringup_step (v : BringUp) (e : Ev) : BringUp :=
  match e with
  | ES (sendATCommand command _) response =>
      let sent c := String.eqb command c in
      mkBringUp
        ((sent "AT" && (found response "OK" || found response "AT")) || probed v)
        ((sent "AT+CPIN?" && found response "READY") || sim_ready v)
        ((sent "AT+CREG?" && (found response ",1" || found response ",5"))
         || registered v)
        (String.prefix "AT+CMQTTACCQ=" command || configured v)
        (String.prefix "AT+CMQTTCONNECT=" command || connected v)
        (String.prefix "AT+CMQTTSUB=" command || subscribed v)
        (released v) (writes v) (premature v) (published v)
        (existsb (fun b => b) (writes v) || late_transport v)
  | EDo xSemaphoreGive =>
      mkBringUp (probed v) (sim_ready v) (registered v) (configured v)
        (connected v) (subscribed v) (S (released v)) (writes v)
        (premature v) (published v) (late_transport v)
  | EDo (set_mqttConnected b) =>
      mkBringUp (probed v) (sim_ready v) (registered v) (configured v)
        (connected v) (subscribed v) (released v) (writes v ++ [b])%list
        ((b && negb (bringup_complete v)) || premature v)
        (published v) (late_transport v)
  | EDo (SIM7600_println s) =>
      mkBringUp (probed v) (sim_ready v) (registered v) (configured v)
        (connected v) (subscribed v) (released v) (writes v)
        (premature v) (String.prefix "AT+CMQTTPUB=" s || published v)
        (late_transport v)
  | _ => v
  end.

Definition BringUpMonitor : Monitor :=
  mkMonitor BringUp
    (mkBringUp false false false false false false 0 [] false false false)
    bringup_step.

(** What holds of these views at every call. *)

Definition lock_ok (v : LockView) : Prop :=
  misuse v = false /\
  taken v = (given v + (if held v then 1 else 0))%nat.

Definition lock_free (v : LockView) : Prop := held v = false.

Definition lock_rest (l : Local) (v : LockView) : Prop :=
  lock_ok v /\ lock_free v.

Definition gate_ok (v : GateView) : Prop :=
  early v = false /\ wrote v = false.

Definition gate_rest (l : Local) (v : GateView) : Prop :=
  gate_ok v /\
  match l with
  | PublishLoop _ _ | ReceiveLoop | WatchdogLoop _ _ => seen_ready v = true
  | _ => True
  end.

Definition bringup_ok (v : BringUp) : Prop :=
  premature v = false /\
  late_transport v = false /\
  (writes v = [] \/ writes v = [false] \/
   (writes v = [true] /\ bringup_complete v = true)) /\
  (published v = false \/ writes v = [true]).

Definition with_registered (v : BringUp) (r : bool) : BringUp :=
  mkBringUp (probed v) (sim_ready v) r (configured v) (connected v)
    (subscribed v) (released v) (writes v) (premature v) (published v)
    (late_transport v).

(** *** A logic of call trees

    [wp M I D p Q m]: from monitor state [m], every way of running [p]
    keeps [I] at every call, ends in [D] if the task is deleted and in
    [Q a] if [p] returns [a]. *)
Fixpoint wp (M : Monitor) (I D : MState M -> Prop) {A : Type} (p : prog A)
            (Q : A -> MState M -> Prop) (m : MState M) : Prop :=
  I m /\
  match p with
  | Ret a => Q a m
  | vTaskDelete => D m
  | Do c k => wp M I D k Q (m_step M m (EDo c))
  | AskB q k => forall b, wp M I D (k b) Q (m_step M m (EB q b))
  | AskS q k => forall s, wp M I D (k s) Q (m_step M m (ES q s))
  | AskN q k => forall z, wp M I D (k z) Q (m_step M m (EN q z))
  end.


(** *** Particular runs and what is read off a trace *)

(** The calls of [publishMessage]. *)
Definition publish_calls (pdMS_TO_TICKS : Z -> Z) (topic message : string)
  : list Ev :=
  [ EDo (SIM7600_println ("AT+CMQTTTOPIC=0," ++ dec (strlen topic)));
    EDo (vTaskDelay (pdMS_TO_TICKS 200));
    EDo (SIM7600_println topic);
    EDo (vTaskDelay (pdMS_TO_TICKS 200));
    EDo (SIM7600_println ("AT+CMQTTPAYLOAD=0," ++ dec (strlen message)));
    EDo (vTaskDelay (pdMS_TO_TICKS 200));
    EDo (SIM7600_println message);
    EDo (vTaskDelay (pdMS_TO_TICKS 200));
    EDo (SIM7600_println "AT+CMQTTPUB=0,1,60");
    EDo (vTaskDelay (pdMS_TO_TICKS 200));
    EDo (Serial_println ("Published: " ++ topic ++ " -> " ++ message)) ].

(** The text the Publisher sends in a cycle. *)
Definition status_message (messageCount now : Z) : string :=
  "Msg#" ++ dec messageCount ++ " | Uptime:" ++ dec (now / 1000) ++ "s".

Definition is_delay_until (e : Ev) : bool :=
  match e with
  | EDo (vTaskDelayUntil _ _) => true
  | _ => false
  end.

Definition is_delay (e : Ev) : bool :=
  match e with
  | EDo (vTaskDelay _) => true
  | _ => false
  end.

(** The values assigned to [mqttConnected], oldest first. *)
Fixpoint assigned (tr : list Ev) : list bool :=
  match tr with
  | [] => []
  | EDo (set_mqttConnected b) :: tr' => b :: assigned tr'
  | _ :: tr' => assigned tr'
  end.

(** A port with one tick per millisecond. *)
Definition one_kHz (ms : Z) : Z := ms.

(** A modem that answers every command favourably. *)
Definition modem_ok (command : string) : string :=
  if String.prefix "AT+CPIN" command then crlf ++ "+CPIN: READY" ++ crlf ++ crlf ++ "OK" ++ crlf
  else if String.prefix "AT+CREG" command then crlf ++ "+CREG: 0,1" ++ crlf ++ crlf ++ "OK" ++ crlf
  else crlf ++ "OK" ++ crlf.


Definition answers (take_succeeds : nat -> bool) (i2c : bool)
           (modem : string -> string) : Oracle :=
  mkOracle
    (fun i q => match q with
                | xSemaphoreTake _ => take_succeeds i
                | get_mqttConnected => true
                | mcp_begin_I2C => i2c
                | has_handle _ => true
                end)
    (fun _ q => match q with sendATCommand command _ => modem command end)
    (fun _ _ => 0).

(** Everything works. *)
Definition all_well : Oracle := answers (fun _ => true) true modem_ok.

(** The GPIO expander does not answer. *)
Definition expander_down : Oracle := answers (fun _ => true) false modem_ok.


(** The mutex is never obtained. *)
Definition mutex_busy : Oracle := answers (fun _ => false) true modem_ok.

(** The mutex is obtained except at the call number [6]. *)
Definition mutex_busy_once : Oracle :=
  answers (fun i => negb (Nat.eqb i 6)) true modem_ok.

(** The Initializer runs alone until it is deleted, then the
    ReceivePoller runs. *)
Definition init_then_receive (n : nat) : TaskId :=
  if (n <? 116)%nat then InitTask else ReceiveTask.

Definition friendly (n : nat) : Input :=
  mkInput true (crlf ++ "+CPIN: READY +CREG: 0,1" ++ crlf ++ "OK" ++ crlf) 0 true.

(** The four tasks take turns. *)
Definition round_robin (n : nat) : TaskId :=
  match Nat.modulo n 4 with
  | 0%nat => InitTask
  | 1%nat => PublishTask
  | 2%nat => ReceiveTask
  | _ => WatchdogTask
  end.

(** Nothing answers: the GPIO expander is absent, the modem is silent,
    and waiting for the mutex times out. *)
Definition dead_hardware (n : nat) : Input :=
  mkInput false EmptyString 0 true.

(** **** Time

    The tick at which a call ends when it starts at tick [now]; [d] is
    the time the call takes beyond what it asks for (waiting for the
    mutex, talking to the modem, being kept from the processor).  Tick
    counts are taken without wrap-around here. *)
Definition finish (now : Z) (e : Ev) (d : Z) : Z :=
  match e with
  | EDo (vTaskDelay ticks) => now + ticks + d
  | EDo (vTaskDelayUntil previousWakeTime increment) =>
      Z.max now (previousWakeTime + increment) + d
  | _ => now + d
  end.

(** The ticks at which the task wakes from [vTaskDelay] or
    [vTaskDelayUntil]; [durations i] is the extra time of the [i]-th call. *)
Fixpoint wake_times (now : Z) (i : nat) (tr : list Ev) (durations : nat -> Z)
  : list Z :=
  match tr with
  | [] => []
  | e :: tr' =>
      let now' := finish now e (durations i) in
      if is_delay e || is_delay_until e
      then now' :: wake_times now' (S i) tr' durations
      else wake_times now' (S i) tr' durations
  end.

(** The extra time of a call when each wait for the mutex takes [wait]
    ticks and nothing else takes any. *)
Definition lock_wait (wait : Z) (e : Ev) : Z :=
  match e with
  | EB (xSemaphoreTake _) _ => wait
  | _ => 0
  end.

(** The tick at which a trace ends that starts at tick [now], and the
    ticks at which the task is back from [vTaskDelayUntil]; [extra] is
    the extra time of each call. *)
Definition ends_at (extra : Ev -> Z) (now : Z) (tr : list Ev) : Z :=
  fold_left (fun t e => finish t e (extra e)) tr now.

Fixpoint wakes_from_delay_until (extra : Ev -> Z) (now : Z) (tr : list Ev)
  : list Z :=
  match tr with
  | [] => []
  | e :: tr' =>
      let now' := finish now e (extra e) in
      if is_delay_until e
      then now' :: wakes_from_delay_until extra now' tr'
      else wakes_from_delay_until extra now' tr'
  end.

(** The wake time a call of [vTaskDelayUntil] asks for. *)
Definition scheduled (e : Ev) : Z :=
  match e with
  | EDo (vTaskDelayUntil previousWakeTime increment) =>
      previousWakeTime + increment
  | _ => 0
  end.

(** A piece of code none of whose calls changes the monitor, and which
    returns. *)
Fixpoint neutral (M : Monitor) {A : Type} (p : prog A) : Prop :=
  match p with
  | Ret _ => True
  | vTaskDelete => False
  | Do c k => (forall m, m_step M m (EDo c) = m) /\ neutral M k
  | AskB q k => forall b, (forall m, m_step M m (EB q b) = m) /\ neutral M (k b)
  | AskS q k => forall s, (forall m, m_step M m (ES q s) = m) /\ neutral M (k s)
  | AskN q k => forall z, (forall m, m_step M m (EN q z) = m) /\ neutral M (k z)
  end.

(** What the logic says of a run against an oracle. *)
Definition ends_well (M : Monitor) (D : MState M -> Prop) {A : Type}
           (Q : A -> MState M -> Prop) (m : MState M)
           (res : list Ev * Outcome A) : Prop :=
  match snd res with
  | Returned a => Q a (observe M m (fst res))
  | Deleted => D (observe M m (fst res))
  end.

(** The view a monitor has of task [t] in a state of the system. *)
Definition view (M : Monitor) (t : TaskId) (w : World) : MState M :=
  observe M (m_init M) (calls_of t (trace w)).

(** *** The conduct of a task towards the shared hardware *)

(** Reading from or writing to the modem UART ([SIM7600.begin], which
    opens it, apart). *)
Definition uses_uart (e : Ev) : bool :=
  match e with
  | EDo (SIM7600_println _) | EDo checkIncomingMessages => true
  | ES (sendATCommand _ _) _ => true
  | _ => false
  end.

(** [mcpDO_1.digitalWrite(pin, HIGH)] *)
Definition drives_high (e : Ev) : bool :=
  match e with
  | EDo (mcp_digitalWrite _ true) => true
  | _ => false
  end.

(** How one task behaves towards the shared hardware. *)
Record Conduct : Type := mkConduct
  { holding : bool;       (* between a successful take and the give *)
    unguarded : bool;     (* the UART was used while not holding the mutex *)
    raised : bool;        (* an output of the expander was driven HIGH *)
    on_uart : bool }.     (* the UART was opened or used *)

Definition conduct_step (v : Conduct) (e : Ev) : Conduct :=
  match v with
  | mkConduct h u r o =>
      mkConduct
        (match e with
         | EB (xSemaphoreTake _) true => true
         | EDo xSemaphoreGive => false
         | _ => h
         end)
        (if uses_uart e && negb h then true else u)
        (if drives_high e then true else r)
        (if is_transport e then true else o)
  end.

Definition ConductMonitor : Monitor :=
  mkMonitor Conduct (mkConduct false false false false) conduct_step.

(** The loop heads of each task. *)
Definition belongs (t : TaskId) (l : Local) : bool :=
  match t, l with
  | InitTask, Entry => true
  | PublishTask, (Entry | Gate | PublishLoop _ _) => true
  | ReceiveTask, (Entry | Gate | ReceiveLoop) => true
  | WatchdogTask, (Entry | Gate | WatchdogLoop _ _) => true
  | _, _ => false
  end.

Definition conduct_ok (t : TaskId) (v : Conduct) : Prop :=
  unguarded v = false /\ raised v = false /\
  match t with
  | WatchdogTask => on_uart v = false
  | _ => True
  end.

Definition conduct_rest (t : TaskId) (l : Local) (v : Conduct) : Prop :=
  conduct_ok t v /\ holding v = false /\ belongs t l = true.

(** Only the Initializer may delete itself. *)
Definition may_end (t : TaskId) (v : Conduct) : Prop :=
  match t with
  | InitTask => True
  | _ => False
  end.

(** *** More views of the bring-up *)

(** An answer that keeps the Initializer from the modem: the mutex is not
    obtained in time, or the GPIO expander does not answer. *)
Definition is_refusal (e : Ev) : bool :=
  match e with
  | EB (xSemaphoreTake _) false | EB mcp_begin_I2C false => true
  | _ => false
  end.

(** The reached of the bring-up together with the refusals met. *)
Record Verdict : Type := mkVerdict
  { reached : BringUp;
    refused : bool }.

Definition verdict_step (v : Verdict) (e : Ev) : Verdict :=
  match v with
  | mkVerdict p r =>
      mkVerdict (bringup_step p e) (if is_refusal e then true else r)
  end.

Definition VerdictMonitor : Monitor :=
  mkMonitor Verdict (mkVerdict (m_init BringUpMonitor) false) verdict_step.

(** What holds when the Initializer deletes itself. *)
Definition verdict_end (v : Verdict) : Prop :=
  refused v = false ->
  probed (reached v) = true ->
  sim_ready (reached v) = true ->
  registered (reached v) = true ->
  writes (reached v) = [true] /\ published (reached v) = true.

(** The commands handed to the executor, in order. *)
Fixpoint commands (tr : list Ev) : list string :=
  match tr with
  | [] => []
  | ES (sendATCommand command _) _ :: tr' => command :: commands tr'
  | _ :: tr' => commands tr'
  end.

(** What [setupNetwork] has asked and heard. *)
Record Network : Type := mkNetwork
  { pin_ready : bool;      (* AT+CPIN? answered READY *)
    creg_polls : nat;      (* AT+CREG? commands sent *)
    creg_ok : bool;        (* an AT+CREG? was answered ,1 or ,5 *)
    apn_set : bool;        (* AT+CGDCONT was sent *)
    auth_set : bool }.     (* AT+CGAUTH was sent *)

Definition network_step (v : Network) (e : Ev) : Network :=
  match e with
  | ES (sendATCommand command _) response =>
      if String.eqb command "AT+CPIN?" then
        mkNetwork (found response "READY" || pin_ready v) (creg_polls v)
                  (creg_ok v) (apn_set v) (auth_set v)
      else if String.eqb command "AT+CREG?" then
        mkNetwork (pin_ready v) (S (creg_polls v))
                  ((found response ",1" || found response ",5") || creg_ok v)
                  (apn_set v) (auth_set v)
      else if String.prefix "AT+CGDCONT=" command then
        mkNetwork (pin_ready v) (creg_polls v) (creg_ok v) true (auth_set v)
      else if String.prefix "AT+CGAUTH=" command then
        mkNetwork (pin_ready v) (creg_polls v) (creg_ok v) (apn_set v) true
      else v
  | _ => v
  end.

Definition NetworkMonitor : Monitor :=
  mkMonitor Network (mkNetwork false 0 false false false) network_step.

(** What [setupNetwork] returns against what it has asked and heard. *)
Definition network_end (result : bool) (v : Network) : Prop :=
  result = pin_ready v && creg_ok v /\
  apn_set v = result /\ auth_set v = result /\
  (creg_polls v <= 20)%nat /\
  (pin_ready v = true -> creg_ok v = false -> creg_polls v = 20%nat) /\
  (pin_ready v = false -> creg_polls v = 0%nat).

(** Configuring a pin of the expander. *)
Definition is_pin_call (e : Ev) : bool :=
  match e with
  | EDo (mcp_pinMode _) | EDo (mcp_digitalWrite _ _) => true
  | _ => false
  end.

(** [pinMode(i, OUTPUT); digitalWrite(i, LOW)] for the pins [i], ..., [i + n - 1]. *)
Fixpoint pins_low (n : nat) (i : Z) : list Ev :=
  match n with
  | O => []
  | S n' => EDo (mcp_pinMode i) :: EDo (mcp_digitalWrite i false) :: pins_low n' (i + 1)
  end.

(** A reading of [mqttConnected] that found it [false]. *)
Definition reads_false (e : Ev) : bool :=
  match e with
  | EB get_mqttConnected false => true
  | _ => false
  end.

(** A modem whose SIM is ready and which keeps searching for a network. *)
Definition modem_searching (command : string) : string :=
  if String.prefix "AT+CREG" command
  then crlf ++ "+CREG: 0,2" ++ crlf ++ crlf ++ "OK" ++ crlf
  else modem_ok command.

Definition searching : Oracle := answers (fun _ => true) true modem_searching.

(** *** The order of the commands *)

(** The commands of the bring-up in the order of the code: the probe and
    the two settings of [vInitTask], then those of [setupNetwork],
    [setupMQTT] and [connectMQTT].  The registration poll stands once for
    its repetitions. *)
Definition bring_up_sequence : list string :=
  [ "AT"; "ATE0"; "ATI";
    "AT+CPIN?"; "AT+CREG?"; "AT+CSQ";
    "AT+CGDCONT=1," ++ quoted "IP" ++ "," ++ quoted "safaricom";
    "AT+CGAUTH=1,1," ++ quoted "saf" ++ "," ++ quoted "data";
    "AT+CMQTTSTOP"; "AT+CMQTTREL=0"; "AT+CMQTTSTART";
    "AT+CMQTTACCQ=0," ++ quoted mqtt_client_id;
    connect_command; subscribe_command ].

(** Adds a command at the end of a list of commands; a registration poll
    that follows a registration poll is not added again. *)
Definition push (cs : list string) (c : string) : list string :=
  if String.eqb c "AT+CREG?" && String.eqb (last cs EmptyString) "AT+CREG?"
  then cs
  else (cs ++ [c])%list.

(** A list of commands with each run of registration polls counted as
    one. *)
Definition squeeze (cs : list string) : list string := fold_left push cs [].

(** The number of registration polls. *)
Definition polls_in (cs : list string) : nat :=
  List.length (filter (String.eqb "AT+CREG?") cs).

Fixpoint prefixb (a b : list string) : bool :=
  match a, b with
  | [], _ => true
  | x :: a', y :: b' => String.eqb x y && prefixb a' b'
  | _ :: _, [] => false
  end.

(** The commands a task has handed to the executor, runs of registration
    polls counted as one, and the number of registration polls. *)
Record Order : Type := mkOrder
  { issued : list string;
    polled : nat }.

Definition order_step (v : Order) (e : Ev) : Order :=
  match v with
  | mkOrder cs n =>
      match e with
      | ES (sendATCommand command _) _ =>
          mkOrder (push cs command)
                  (if String.eqb "AT+CREG?" command then S n else n)
      | _ => mkOrder cs n
      end
  end.

Definition OrderMonitor : Monitor :=
  mkMonitor Order (mkOrder [] 0) order_step.

(** The Initializer keeps to the sequence; the other tasks hand nothing
    to the executor. *)
Definition order_ok (t : TaskId) (v : Order) : Prop :=
  match t with
  | InitTask =>
      prefixb (issued v) bring_up_sequence = true /\ (polled v <= 20)%nat
  | _ => issued v = []
  end.

Definition order_rest (t : TaskId) (l : Local) (v : Order) : Prop :=
  v = mkOrder [] 0.

End Firmware.

(* ===================================================================== *)
(** ** Start-up: [setup] *)
(* ===================================================================== *)

Module Boot.
Import Firmware.
Local Open Scope list_scope.

(** What FreeRTOS grants: [xSemaphoreCreateMutex() != NULL],
    [xQueueCreate(...) != NULL], and for each task
    [xTaskCreatePinnedToCore(...) == pdPASS]. *)
Record Grants : Type := mkGrants
  { mutex_granted : bool;
    queue_granted : bool;
    task_granted : TaskId -> bool }.

(** The arguments of [xTaskCreatePinnedToCore]. *)
Definition name (t : TaskId) : string :=
  match t with
  | InitTask => "InitTask"
  | PublishTask => "PublishTask"
  | ReceiveTask => "ReceiveTask"
  | WatchdogTask => "WatchdogTask"
  end.

Definition stack_size (t : TaskId) : Z :=
  match t with
  | InitTask => 8192          (* STACK_SIZE_INIT *)
  | PublishTask => 4096       (* STACK_SIZE_PUBLISH *)
  | ReceiveTask => 4096       (* STACK_SIZE_RECEIVE *)
  | WatchdogTask => 2048      (* STACK_SIZE_WATCHDOG *)
  end.

Definition priority (t : TaskId) : Z :=
  match t with
  | InitTask => 4             (* PRIORITY_INIT *)
  | WatchdogTask => 3         (* PRIORITY_WATCHDOG *)
  | ReceiveTask => 2          (* PRIORITY_RECEIVE *)
  | PublishTask => 1          (* PRIORITY_PUBLISH *)
  end.

Inductive Request : Type :=
| xSemaphoreCreateMutex
| xQueueCreate (uxQueueLength uxItemSize : Z)
| xTaskCreatePinnedToCore (pvTaskCode : TaskId) (pcName : string)
                          (usStackDepth uxPriority xCoreID : Z).

Definition create (t : TaskId) : Request :=
  xTaskCreatePinnedToCore t (name t) (stack_size t) (priority t) 1.

(** How [setup] ends: it returns, or it stays in [while(1) delay(1000)]. *)
Inductive Ending : Type := Returns | Halts.

Record Booted : Type := mkBooted
  { requests : list Request;      (* what was asked of FreeRTOS, in order *)
    serial : list string;         (* lines printed *)
    running : list TaskId;        (* the tasks that exist afterwards *)
    ending : Ending }.

(** The creation of one of the three tasks whose failure is reported and
    survived. *)
Definition optional (g : Grants) (t : TaskId) (failure : string) (b : Booted)
  : Booted :=
  if task_granted g t
  then mkBooted (requests b ++ [create t]) (serial b ++ [(name t ++ " created")%string])
                (running b ++ [t]) (ending b)
  else mkBooted (requests b ++ [create t]) (serial b ++ [failure])
                (running b) (ending b).

(** [void setup()]: what it asks of FreeRTOS and what it prints (of the
    banner, the line with the title); the items of the queue are two
    pointers, 8 bytes. *)
Definition setup (g : Grants) : Booted :=
  let banner := ["SIM7600 MQTT Client - FreeRTOS Edition"] in
  if negb (mutex_granted g) then
    mkBooted [xSemaphoreCreateMutex]
             (banner ++ ["Failed to create mutex! Halting..."]) [] Halts
  else
    let lines :=
      banner ++ ["Mutex created for UART protection"] ++
      (if queue_granted g then []
       else ["Failed to create publish queue (non-critical)"]) ++
      ["--- Creating FreeRTOS Tasks ---"] in
    let asked := [xSemaphoreCreateMutex; xQueueCreate 10 8; create InitTask] in
    if negb (task_granted g InitTask) then
      mkBooted asked (lines ++ ["Failed to create InitTask! Halting..."]) [] Halts
    else
      let b := mkBooted asked (lines ++ ["InitTask created"]) [InitTask] Returns in
      let b := optional g PublishTask "Failed to create PublishTask!" b in
      let b := optional g ReceiveTask "Failed to create ReceiveTask!" b in
      let b := optional g WatchdogTask
                 "Failed to create WatchdogTask (non-critical)" b in
      mkBooted (requests b) (serial b ++ ["FreeRTOS scheduler starting..."])
               (running b) (ending b).

Definition is_task_request (r : Request) : bool :=
  match r with
  | xTaskCreatePinnedToCore _ _ _ _ _ => true
  | _ => false
  end.

(** FreeRTOS has no memory left: nothing is granted. *)
Definition no_heap : Grants := mkGrants false false (fun _ => false).

End Boot.

(* ===================================================================== *)
(** ** The SMS program: [SIM7600-AT-BASICS-ESP32/src/main.cpp] *)
(* ===================================================================== *)

Module Sms.
Import Str.

Definition SIM7600_BAUD : Z := 115200.
Definition baudRates : list Z := [115200; 9600; 57600; 19200].

(** *** The two waiting loops *)

(** [void sendATCommand(String command, int timeout)]: the loop
    [while (millis() - startTime < timeout)] has no exit but its
    condition.  [startTime] is a [long] and [timeout] an [int]; in the
    comparison both are converted to [unsigned long] (32 bits), which is
    written out here.  The result is the global [response], the number of
    tests of the condition and the time of the last reading of
    [millis()]. *)
Fixpoint collect (startTime timeout : Z) (response : string) (n : nat)
                 (env : list Executor.Poll) : option (string * nat * Z) :=
  match env with
  | [] => None
  | p :: env' =>
      if u32 (Executor.millis p - startTime) <? u32 timeout
      then collect startTime timeout (response ++ Executor.rx p) (S n) env'
      else Some (response, S n, Executor.at_ms p)
  end.

Definition sendATCommand_loop (command : string) (timeout : Z) (t0 : Z)
                              (env : list Executor.Poll)
  : option (string * nat * Z) :=
  let startTime := u32 t0 in
  let response := EmptyString in
  collect startTime timeout response 0 env.

(** *** The calls of the program *)

Inductive Cmd : Type :=
| Serial_begin (baud : Z)
| Serial_println (s : string)
| SIM7600_begin (baud : Z)            (* SIM7600.begin(baud, SERIAL_8N1, 19, 20) *)
| SIM7600_end
| SIM7600_println (s : string)
| SIM7600_print (s : string)
| SIM7600_write (byte : Z)
| delay (ms : Z)
| set_smsSent (b : bool)              (* smsSent = b *)
| mcp_pinMode (pin : Z)
| mcp_digitalWrite (pin : Z) (high : bool).

(** Calls that answer with a text: [sendATCommand] leaves it in the
    global [response], [waitForResponse] returns it. *)
Inductive AskString : Type :=
| sendATCommand (command : string) (timeout : Z)
| waitForResponse (timeout : Z).

Inductive prog (A : Type) : Type :=
| Ret (a : A)
| Do (c : Cmd) (k : prog A)
| AskS (q : AskString) (k : string -> prog A)
| begin_I2C (k : bool -> prog A).    (* mcpDO_1.begin_I2C(DO_1_ADDR) *)

Arguments Ret {A} a.
Arguments Do {A} c k.
Arguments AskS {A} q k.
Arguments begin_I2C {A} k.

Fixpoint bind {A B : Type} (p : prog A) (f : A -> prog B) : prog B :=
  match p with
  | Ret a => f a
  | Do c k => Do c (bind k f)
  | AskS q k => AskS q (fun s => bind (k s) f)
  | begin_I2C k => begin_I2C (fun b => bind (k b) f)
  end.

Declare Scope sms_scope.
Delimit Scope sms_scope with sms.
Notation "x <- p ;; k" := (bind p (fun x => k))
  (at level 61, p at next level, right associativity) : sms_scope.
Notation "p ;; k" := (bind p (fun _ => k))
  (at level 61, right associativity) : sms_scope.
Local Open Scope sms_scope.

Definition call (c : Cmd) : prog unit := Do c (Ret tt).
Definition ask (q : AskString) : prog string := AskS q Ret.
Definition println (s : string) : prog unit := call (Serial_println s).

Inductive Ev : Type :=
| EDo (c : Cmd)
| ES (q : AskString) (s : string)
| EB (b : bool).

(** What the modem and the expander answer to the [i]-th call. *)
Record Oracle : Type := mkOracle
  { ans_string : nat -> AskString -> string;
    ans_bool : nat -> bool }.

Fixpoint exec {A : Type} (o : Oracle) (i : nat) (p : prog A) : list Ev * A :=
  match p with
  | Ret a => ([], a)
  | Do c k => let (tr, a) := exec o (S i) k in (EDo c :: tr, a)
  | AskS q k =>
      let s := ans_string o i q in
      let (tr, a) := exec o (S i) (k s) in (ES q s :: tr, a)
  | begin_I2C k =>
      let b := ans_bool o i in
      let (tr, a) := exec o (S i) (k b) in (EB b :: tr, a)
  end.

(** *** Functions of [main.cpp] *)

(** [for (int i = 0; i < 16; i++) { pinMode(i, OUTPUT); digitalWrite(i, LOW); }] *)
Fixpoint configure_pins (n : nat) (i : Z) : prog unit :=
  match n with
  | O => Ret tt
  | S n' => call (mcp_pinMode i) ;; call (mcp_digitalWrite i false) ;;
            configure_pins n' (i + 1)
  end.

Definition initDOModules : prog bool :=
  println "Initializing MCP23017 modules..." ;;
  ok <- begin_I2C Ret ;;
  if negb ok then
    println "Failed to initialize MCP23017 at 0x27" ;; Ret false
  else
    println "MCP23017 at 0x27 initialized (mcpDO_1 = DRV0-DRV15)" ;;
    configure_pins 16 0 ;;
    call (delay 100) ;;
    println "Testing MCP23017 communication..." ;;
    call (mcp_digitalWrite 0 true) ;;
    call (delay 10) ;;
    call (mcp_digitalWrite 0 false) ;;
    call (delay 10) ;;
    println "All 16 outputs configured and set to LOW" ;;
    Ret true.

Definition sendSMS (number message : string) : prog unit :=
  println "Setting SMS text mode..." ;;
  call (SIM7600_println "AT+CMGF=1") ;;
  resp1 <- ask (waitForResponse 2000) ;;
  if negb (found resp1 "OK") then
    println "ERROR: Failed to set text mode"
  else
  call (delay 500) ;;
  println "Setting character set..." ;;
  call (SIM7600_println ("AT+CSCS=" ++ Firmware.quoted "GSM")) ;;
  resp2 <- ask (waitForResponse 2000) ;;
  if negb (found resp2 "OK") then
    println "ERROR: Failed to set character set"
  else
  call (delay 500) ;;
  println ("Setting recipient: " ++ number) ;;
  call (SIM7600_print ("AT+CMGS=" ++ Firmware.dq)) ;;
  call (SIM7600_print number) ;;
  call (SIM7600_println Firmware.dq) ;;
  resp3 <- ask (waitForResponse 5000) ;;
  if negb (found resp3 ">") then
    println "ERROR: Did not receive '>' prompt"
  else
  println "Got '>' prompt, sending message..." ;;
  call (delay 500) ;;
  call (SIM7600_print message) ;;
  call (delay 100) ;;
  call (SIM7600_write 26) ;;
  println "Sent Ctrl+Z, waiting for confirmation..." ;;
  resp4 <- ask (waitForResponse 10000) ;;
  if found resp4 "OK" || found resp4 "+CMGS" then
    println "SUCCESS: SMS sent successfully!"
  else if found resp4 "ERROR" then
    println "ERROR: Failed to send SMS"
  else
    println "WARNING: Unclear response - SMS may or may not have been sent".

(** The loop of [setup] that looks for the baud rate of the module:
    [for (int i = 0; i < numBaudRates && !moduleResponding; i++)], over
    the rates that are left; the result is [moduleResponding]. *)
Fixpoint probe (rates : list Z) : prog bool :=
  match rates with
  | [] => Ret false
  | baud :: rest =>
      (if negb (baud =? SIM7600_BAUD) then
         println ("Trying baud rate: " ++ dec baud) ;;
         call SIM7600_end ;;
         call (delay 100) ;;
         call (SIM7600_begin baud) ;;
         call (delay 500)
       else
         println ("Testing current baud rate: " ++ dec SIM7600_BAUD)) ;;
      response <- ask (sendATCommand "AT" 2000) ;;
      if found response "OK" || found response "AT" then
        println ("Module is responding at " ++ dec baud ++ " baud!") ;;
        Ret true
      else probe rest
  end.

(** [void setup()], with [USE_PWRKEY_SEQUENCE] not defined. *)
Definition setup : prog unit :=
  call (Serial_begin 115200) ;;
  initDOModules ;;
  println "=== SIM7600 SMS & AT Command Bridge ===" ;;
  call (SIM7600_begin SIM7600_BAUD) ;;
  println "Initialized SIM7600 UART on RX:19, TX:20 at 115200 baud" ;;
  println "Skipping PWRKEY sequence (module should already be on)..." ;;
  println "Waiting for module to stabilize..." ;;
  call (delay 3000) ;;
  call (delay 2000) ;;
  println "=== Testing module communication ===" ;;
  moduleResponding <- probe baudRates ;;
  if negb moduleResponding then
    println "No response from module at any baud rate!" ;;
    println "Troubleshooting tips:" ;;
    println "1. Check UART connections (RX/TX might be swapped)" ;;
    println "2. Verify module is powered on (check LED_WWAN blinking)" ;;
    println "3. Check if PWRKEY is connected to correct pin" ;;
    println "4. Try manually powering module before starting ESP32" ;;
    println "5. Verify SIM card is inserted properly" ;;
    println "Entering bridge mode anyway for manual testing..." ;;
    println "Try sending: AT (to test), AT+IPR=115200 (to set baud)" ;;
    call (set_smsSent true)
  else
    println "Disabling echo..." ;;
    ask (sendATCommand "ATE0" 1000) ;;
    println "Checking network registration..." ;;
    ask (sendATCommand "AT+CREG?" 2000) ;;
    println "Checking signal quality..." ;;
    ask (sendATCommand "AT+CSQ" 1000) ;;
    println "=== Sending SMS ===" ;;
    sendSMS "+254729399246" "Hello from ESP32-S3 and SIM7600!" ;;
    call (set_smsSent true) ;;
    println "=== SMS Sent! ===" ;;
    println "=== Now entering AT Command Bridge Mode ===" ;;
    println "You can now type AT commands in the Serial Monitor" ;;
    println "Commands will be forwarded to SIM7600 and responses printed".

(** *** What is read off a trace *)

(** What was written to the modem, in order: the writes the program makes
    itself, and the line [sendATCommand] writes,
    [SIM7600.println(command)]. *)
Fixpoint to_modem (tr : list Ev) : list Cmd :=
  match tr with
  | [] => []
  | EDo (SIM7600_println s) :: tr' => SIM7600_println s :: to_modem tr'
  | EDo (SIM7600_print s) :: tr' => SIM7600_print s :: to_modem tr'
  | EDo (SIM7600_write b) :: tr' => SIM7600_write b :: to_modem tr'
  | ES (sendATCommand command _) _ :: tr' =>
      SIM7600_println command :: to_modem tr'
  | _ :: tr' => to_modem tr'
  end.

(** What the calls of [waitForResponse] returned, in order. *)
Fixpoint heard (tr : list Ev) : list string :=
  match tr with
  | [] => []
  | ES (waitForResponse _) s :: tr' => s :: heard tr'
  | _ :: tr' => heard tr'
  end.

(** The lines the program prints on the console with [Serial.println], in
    order; what [sendATCommand] and [waitForResponse] print themselves is
    left out. *)
Fixpoint console (tr : list Ev) : list string :=
  match tr with
  | [] => []
  | EDo (Serial_println s) :: tr' => s :: console tr'
  | _ :: tr' => console tr'
  end.

(** The answers to the probes [sendATCommand("AT", 2000)], in order. *)
Fixpoint probes (tr : list Ev) : list string :=
  match tr with
  | [] => []
  | ES (sendATCommand command _) s :: tr' =>
      if String.eqb command "AT" then s :: probes tr' else probes tr'
  | _ :: tr' => probes tr'
  end.

(** The baud rates at which the UART was opened, in order. *)
Fixpoint opened (tr : list Ev) : list Z :=
  match tr with
  | [] => []
  | EDo (SIM7600_begin baud) :: tr' => baud :: opened tr'
  | _ :: tr' => opened tr'
  end.

(** The values assigned to [smsSent], in order. *)
Fixpoint assigned (tr : list Ev) : list bool :=
  match tr with
  | [] => []
  | EDo (set_smsSent b) :: tr' => b :: assigned tr'
  | _ :: tr' => assigned tr'
  end.

(** The level of each output after the calls of a trace; [None]: the pin
    was never written. *)
Fixpoint levels (tr : list Ev) (pins : Z -> option bool) : Z -> option bool :=
  match tr with
  | [] => pins
  | EDo (mcp_digitalWrite pin high) :: tr' =>
      levels tr' (fun p => if p =? pin then Some high else pins p)
  | _ :: tr' => levels tr' pins
  end.

(** The pins driven HIGH, in order. *)
Fixpoint driven_high (tr : list Ev) : list Z :=
  match tr with
  | [] => []
  | EDo (mcp_digitalWrite pin true) :: tr' => pin :: driven_high tr'
  | _ :: tr' => driven_high tr'
  end.

Definition answered (response : string) : bool :=
  found response "OK" || found response "AT".

(** The line [sendSMS] ends with when the last wait returned [resp4]. *)
Definition verdict (resp4 : string) : string :=
  if found resp4 "OK" || found resp4 "+CMGS" then
    "SUCCESS: SMS sent successfully!"
  else if found resp4 "ERROR" then
    "ERROR: Failed to send SMS"
  else
    "WARNING: Unclear response - SMS may or may not have been sent".

(** A modem that answers the probe and nothing else. *)
Definition echo_only : Oracle :=
  mkOracle (fun _ q => match q with
                       | sendATCommand _ _ => "AT"
                       | waitForResponse _ => EmptyString
                       end)
           (fun _ => true).

(** The whole dialogue of [sendSMS] with the modem. *)
Definition dialogue (number message : string) : list Cmd :=
  [ SIM7600_println "AT+CMGF=1";
    SIM7600_println ("AT+CSCS=" ++ Firmware.quoted "GSM");
    SIM7600_print ("AT+CMGS=" ++ Firmware.dq);
    SIM7600_print number;
    SIM7600_println Firmware.dq;
    SIM7600_print message;
    SIM7600_write 26 ].

(** A modem that answers every wait with the prompt and OK. *)
Definition obliging : Oracle :=
  mkOracle (fun _ _ => "> OK") (fun _ => true).

(** Nothing answers: the modem is silent and the expander absent; and
    the same with the expander present. *)
Definition silent : Oracle := mkOracle (fun _ _ => EmptyString) (fun _ => false).
Definition silent_modem : Oracle := mkOracle (fun _ _ => EmptyString) (fun _ => true).

End Sms.

(* ===================================================================== *)
(** * Facts *)
(* ===================================================================== *)

Module ExecutorFacts.
Import Str Executor.

Lemma two32_pos : 0 < two32.
Proof. reflexivity. Qed.

(** The unsigned difference of two clock readings is the time between
    them, as long as that is less than 2^32 ms. *)
Lemma elapsed_exact (t t0 : Z) :
  0 <= t - t0 < two32 -> u32 (u32 t - u32 t0) = t - t0.
Proof.
  intros H. unfold u32.
  rewrite <- Zminus_mod. apply Z.mod_small. exact H.
Qed.

Lemma append_assoc3 (a b c : string) : ((a ++ b) ++ c)%string = (a ++ (b ++ c))%string.
Proof. induction a as [|ch a IH]; simpl; [reflexivity | now rewrite IH]. Qed.

Lemma append_empty_r (a : string) : (a ++ EmptyString)%string = a.
Proof. induction a as [|ch a IH]; simpl; [reflexivity | now rewrite IH]. Qed.

Lemma reading_next (p : Poll) (env : list Poll) (j : nat) :
  (1 <= j)%nat -> reading (S j) (p :: env) = reading j env.
Proof. intros H. destruct j; [lia | reflexivity]. Qed.

Lemma received_next (p : Poll) (env : list Poll) (j : nat) :
  received (S j) (p :: env) = (rx p ++ received j env)%string.
Proof. reflexivity. Qed.

Lemma received_one (acc : string) (p : Poll) (env : list Poll) :
  (acc ++ received 1 (p :: env))%string = (acc ++ rx p)%string.
Proof. unfold received. cbn. now rewrite append_empty_r. Qed.

Lemma received_more (acc : string) (p : Poll) (env : list Poll) (j : nat) :
  (acc ++ received (S j) (p :: env))%string =
  ((acc ++ rx p) ++ received j env)%string.
Proof. rewrite received_next. now rewrite append_assoc3. Qed.

(** *** What [indexOf] finds *)

Lemma prefix_split (pat s : string) :
  String.prefix pat s = true <-> exists b, s = (pat ++ b)%string.
Proof.
  revert s. induction pat as [|c pat IH]; intros s.
  - split; [intros _; exists s; reflexivity | intros _; destruct s; reflexivity].
  - destruct s as [|d s]; cbn.
    + split; [discriminate | intros [b Hb]; discriminate].
    + destruct (Ascii.ascii_dec c d) as [->|Hne].
      * rewrite IH. split; intros [b Hb]; exists b.
        -- now rewrite Hb.
        -- now inversion Hb.
      * split; [discriminate|]. intros [b Hb]. inversion Hb. congruence.
Qed.

Lemma strstr_from (s pat : string) :
  forall i, 0 <= i -> strstr s pat i = -1 \/ i <= strstr s pat i.
Proof.
  induction s as [|c s IH]; intros i Hi; cbn [strstr].
  - destruct (String.prefix pat EmptyString); [right; lia | left; reflexivity].
  - destruct (String.prefix pat (String c s)); [right; lia|].
    destruct (IH (i + 1)) as [H | H]; [lia | left; exact H | right; lia].
Qed.

Lemma strstr_occurs (s pat : string) :
  forall i, 0 <= i ->
    (strstr s pat i <> -1 <-> exists a b, s = (a ++ pat ++ b)%string).
Proof.
  induction s as [|c s IH]; intros i Hi; cbn [strstr].
  - destruct (String.prefix pat EmptyString) eqn:E.
    + split; [intros _ | lia].
      apply prefix_split in E. destruct E as [b Hb].
      exists EmptyString, b. exact Hb.
    + split; [intros H; now contradiction H|].
      intros [a [b H]]. destruct a; cbn in H; [|discriminate].
      assert (String.prefix pat EmptyString = true)
        by (apply prefix_split; exists b; exact H).
      congruence.
  - destruct (String.prefix pat (String c s)) eqn:E.
    + split; [intros _ | lia].
      apply prefix_split in E. destruct E as [b Hb].
      exists EmptyString, b. exact Hb.
    + rewrite (IH (i + 1)) by lia. split.
      * intros [a [b H]]. exists (String c a), b. cbn. now rewrite H.
      * intros [a [b H]]. destruct a as [|d a]; cbn in H.
        -- assert (String.prefix pat (String c s) = true)
             by (apply prefix_split; exists b; exact H).
           congruence.
        -- inversion H. exists a, b. reflexivity.
Qed.

(** [indexOf] finds a text that is not empty exactly when it occurs among
    the bytes before the first NUL. *)
Lemma found_occurs (s pat : string) :
  c_str pat <> EmptyString ->
  (found s pat = true <-> exists a b, c_str s = (a ++ c_str pat ++ b)%string).
Proof.
  intros Hpat. unfold found, indexOf.
  destruct s as [|c s].
  - cbn. split; [discriminate|].
    intros [a [b H]]. destruct a; cbn in H.
    + destruct (c_str pat); [contradiction | discriminate].
    + discriminate.
  - rewrite negb_true_iff, Z.eqb_neq. apply strstr_occurs. lia.
Qed.

(** What follows a NUL byte is not searched. *)
Lemma c_str_nul (a b : string) :
  c_str (a ++ String NUL b) = c_str a.
Proof.
  induction a as [|c a IH]; cbn; [reflexivity|].
  destruct (Ascii.eqb c Ascii.zero); [reflexivity | now rewrite IH].
Qed.

Lemma found_nul (a b pat : string) :
  found (a ++ String NUL b) pat = found (a ++ String NUL EmptyString) pat.
Proof.
  unfold found, indexOf.
  destruct a as [|c a]; cbn [append].
  - reflexivity.
  - change (String c (a ++ String NUL b))
      with (String c a ++ String NUL b)%string.
    change (String c (a ++ String NUL EmptyString))
      with (String c a ++ String NUL EmptyString)%string.
    now rewrite !c_str_nul.
Qed.

(** *** [sendATCommand] *)

(** The loop, from any iteration on, when the clock is read often
    enough. *)
Lemma wait_loop_ends (timeout t0 eps : Z) :
  0 <= timeout -> 0 <= eps -> timeout + eps < two32 ->
  forall (env : list Poll) (acc : string) (n : nat) (t : Z),
    t0 <= t <= t0 + timeout ->
    paced eps t env ->
    reaches t0 timeout env ->
    exists (r : Result) (k : nat),
      wait_loop (u32 t0) timeout acc n env = Some r /\
      (1 <= k <= List.length env)%nat /\
      tests r = (n + k)%nat /\
      last_read r = reading k env /\
      last_read r <= t0 + timeout + eps /\
      (forall j, (1 <= j < k)%nat ->
         reading j env < t0 + timeout /\
         terminal (acc ++ received j env) = false) /\
      match exit r with
      | ByToken =>
          reading k env < t0 + timeout /\
          terminal (acc ++ received k env) = true /\
          response r = (acc ++ received k env)%string
      | ByTimeout =>
          t0 + timeout <= reading k env /\
          response r = (acc ++ received (Nat.pred k) env)%string
      end.
Proof.
  intros Hto Heps Hfit env.
  induction env as [|p env IH]; intros acc n t Ht Hpaced Hreach.
  - destruct Hreach as [p [[] _]].
  - cbn [paced] in Hpaced. destruct Hpaced as [Hp Hrest].
    cbn [wait_loop]. unfold millis.
    rewrite elapsed_exact by lia.
    destruct (at_ms p - t0 <? timeout) eqn:Hin.
    + apply Z.ltb_lt in Hin.
      destruct (terminal (acc ++ rx p)) eqn:Hterm.
      * exists (mkResult (acc ++ rx p) (S n) (at_ms p) ByToken), 1%nat.
        cbn [tests last_read exit response List.length].
        rewrite received_one.
        change (reading 1 (p :: env)) with (at_ms p).
        repeat split; try lia; auto.
        all: intros; lia.
      * destruct (IH (acc ++ rx p)%string (S n) (at_ms p))
          as [r [k [Hr [Hk [Htests [Hlast [Hbound [Hbefore Hexit]]]]]]]].
        -- lia.
        -- exact Hrest.
        -- destruct Hreach as [q [[Hq | Hq] Hdead]].
           ++ subst q. lia.
           ++ exists q. split; assumption.
        -- exists r, (S k). cbn [List.length].
           rewrite reading_next by lia.
           split; [exact Hr|]. split; [lia|]. split; [lia|].
           split; [exact Hlast|]. split; [exact Hbound|].
           split.
           ++ intros j Hj. destruct j as [|j]; [lia|].
              destruct j as [|j].
              ** rewrite received_one.
                 change (reading 1 (p :: env)) with (at_ms p).
                 split; [lia | exact Hterm].
              ** rewrite reading_next by lia. rewrite received_more.
                 apply Hbefore. lia.
           ++ destruct (exit r).
              ** rewrite received_more. exact Hexit.
              ** destruct k as [|k]; [lia|].
                 cbn [Nat.pred] in *. rewrite received_more. exact Hexit.
    + apply Z.ltb_ge in Hin.
      exists (mkResult acc (S n) (at_ms p) ByTimeout), 1%nat.
      cbn [tests last_read exit response List.length Nat.pred].
      change (reading 1 (p :: env)) with (at_ms p).
      change (received 0 (p :: env)) with EmptyString.
      rewrite append_empty_r.
      repeat split; try lia; auto.
      all: intros; lia.
Qed.

(** C5, as the code has it.  Whatever the command, and for every timeout
    that leaves room for the pace of the clock readings below 2^32 ms
    ([timeout + eps < 2^32], readings at most [eps] apart that reach the
    deadline), [sendATCommand] returns, and what it returns is determined:
    it ends at the first reading [k] of the clock at which either the
    deadline has passed, or the body runs and [indexOf] finds OK or ERROR
    in the text accumulated; that reading is at most [timeout + eps]
    after the start, also when no token ever arrives; the text returned
    is, verbatim, what the iterations of the loop received. *)
Theorem sendATCommand_returns_in_time
  (command : string) (timeout t0 eps : Z) (env : list Poll) :
  0 <= timeout -> 0 <= eps -> timeout + eps < two32 ->
  paced eps t0 env ->
  reaches t0 timeout env ->
  exists (r : Result) (k : nat),
    sendATCommand command timeout t0 env = Some r /\
    (1 <= k <= List.length env)%nat /\
    tests r = k /\
    last_read r = reading k env /\
    last_read r <= t0 + timeout + eps /\
    (forall j, (1 <= j < k)%nat ->
       reading j env < t0 + timeout /\ terminal (received j env) = false) /\
    match exit r with
    | ByToken =>
        reading k env < t0 + timeout /\
        terminal (received k env) = true /\
        response r = received k env
    | ByTimeout =>
        t0 + timeout <= reading k env /\
        response r = received (Nat.pred k) env
    end.
Proof.
  intros Hto Heps Hfit Hpaced Hreach.
  destruct (wait_loop_ends timeout t0 eps Hto Heps Hfit env EmptyString 0%nat t0)
    as [r [k H]]; try assumption; try lia.
  exists r, k. exact H.
Qed.

Lemma sendATCommand_returns_in_time_witness :
  exists (r : Result) (k : nat),
    sendATCommand "AT" 2000 1000 silent_line = Some r /\
    (1 <= k <= List.length silent_line)%nat /\
    tests r = k /\
    last_read r = reading k silent_line /\
    last_read r <= 1000 + 2000 + 1100 /\
    (forall j, (1 <= j < k)%nat ->
       reading j silent_line < 1000 + 2000 /\
       terminal (received j silent_line) = false) /\
    match exit r with
    | ByToken =>
        reading k silent_line < 1000 + 2000 /\
        terminal (received k silent_line) = true /\
        response r = received k silent_line
    | ByTimeout =>
        1000 + 2000 <= reading k silent_line /\
        response r = received (Nat.pred k) silent_line
    end.
Proof.
  apply (sendATCommand_returns_in_time "AT" 2000 1000 1100 silent_line).
  - lia.
  - lia.
  - reflexivity.
  - cbn. lia.
  - exists (mkPoll 3001 EmptyString). split; [cbn; tauto | cbn; lia].
Defined.

Lemma even_u32 (m : Z) : u32 (2 * m) < 4294967295.
Proof.
  unfold u32, two32. change (2 ^ 32) with (2 * 2147483648).
  rewrite Z.mul_mod_distr_l by lia.
  pose proof (Z.mod_pos_bound m 2147483648). lia.
Qed.

Lemma ticking_never_ends (n : nat) :
  forall (m : Z) (k : nat),
    wait_loop 0 4294967295 EmptyString k (ticking 2 (2 * m) n) = None.
Proof.
  induction n as [|n IH]; intros m k; [reflexivity|].
  cbn [ticking wait_loop]. unfold millis. cbn [at_ms rx].
  replace (2 * m + 2) with (2 * (m + 1)) by lia.
  assert (H : (u32 (u32 (2 * (m + 1)) - 0) <? 4294967295) = true).
  { apply Z.ltb_lt. rewrite Z.sub_0_r.
    unfold u32 at 1. rewrite Z.mod_small.
    - apply even_u32.
    - apply Z.mod_pos_bound. reflexivity. }
  rewrite H. cbn [append]. 
  change (terminal EmptyString) with false. cbv iota.
  apply IH.
Qed.

Lemma ticking_reading (n : nat) :
  forall (t : Z), (1 <= n)%nat ->
    reading n (ticking 2 t n) = t + 2 * Z.of_nat n.
Proof.
  induction n as [|n IH]; intros t Hn; [lia|].
  destruct n as [|n].
  - cbn. lia.
  - change (ticking 2 t (S (S n)))
      with (mkPoll (t + 2) EmptyString :: ticking 2 (t + 2) (S n)).
    rewrite reading_next by lia.
    rewrite IH by lia. lia.
Qed.

Lemma ticking_paced (n : nat) :
  forall (t : Z), paced 2 t (ticking 2 t n).
Proof.
  induction n as [|n IH]; intros t; cbn; [exact I|].
  split; [lia | apply IH].
Qed.

(** C5 as stated fails for timeouts at the top of the 32-bit range: the
    deadline is one value of the unsigned difference, which the readings
    can step over.  With the timeout 4294967295, a silent modem and the
    clock read every 2 ms, the call has not returned after any number of
    readings, the [n]-th of which is [2 n] ms after the start: so not
    after 2147483649 readings, the last of which is past the deadline by
    more than the 2 ms between two readings. *)
Lemma full_timeout_is_stepped_over :
  (forall n : nat, paced 2 0 (ticking 2 0 n)) /\
  (forall n : nat, (1 <= n)%nat -> reading n (ticking 2 0 n) = 2 * Z.of_nat n) /\
  (forall n : nat, sendATCommand "AT" 4294967295 0 (ticking 2 0 n) = None) /\
  (let n := Z.to_nat 2147483649 in
   0 + 4294967295 + 2 < reading n (ticking 2 0 n) /\
   sendATCommand "AT" 4294967295 0 (ticking 2 0 n) = None).
Proof.
  assert (Hnone : forall n : nat,
             sendATCommand "AT" 4294967295 0 (ticking 2 0 n) = None).
  { intros n. unfold sendATCommand. change (u32 0) with 0.
    apply (ticking_never_ends n 0). }
  split; [|split; [|split]].
  - intros n. apply ticking_paced.
  - intros n Hn. now rewrite ticking_reading.
  - exact Hnone.
  - cbv zeta. split; [|apply Hnone].
    rewrite ticking_reading by lia. rewrite Z2Nat.id by lia. lia.
Qed.

(** The loop stops at the first token. *)
Lemma wait_loop_stops (startTime timeout : Z) :
  forall (env : list Poll) (acc : string) (n k : nat),
    (1 <= k <= List.length env)%nat ->
    (forall j, (1 <= j <= k)%nat -> in_time startTime timeout j env = true) ->
    (forall j, (1 <= j < k)%nat -> terminal (acc ++ received j env) = false) ->
    terminal (acc ++ received k env) = true ->
    wait_loop startTime timeout acc n env =
      Some (mkResult (acc ++ received k env) (n + k) (reading k env) ByToken).
Proof.
  induction env as [|p env IH]; intros acc n k Hk Hin Hnot Hterm.
  - cbn in Hk. lia.
  - cbn [wait_loop]. unfold millis.
    pose proof (Hin 1%nat) as H1. unfold in_time in H1.
    change (reading 1 (p :: env)) with (at_ms p) in H1.
    rewrite H1 by lia.
    destruct k as [|k]; [lia|]. destruct k as [|k].
    + rewrite received_one in *. rewrite Hterm.
      change (reading 1 (p :: env)) with (at_ms p).
      replace (n + 1)%nat with (S n) by lia. reflexivity.
    + pose proof (Hnot 1%nat) as H2. rewrite received_one in H2.
      rewrite H2 by lia.
      rewrite received_more, reading_next by lia.
      replace (n + S (S k))%nat with (S n + S k)%nat by lia.
      apply IH.
      * cbn [List.length] in Hk. lia.
      * intros j Hj. specialize (Hin (S j)). unfold in_time in *.
        rewrite reading_next in Hin by lia. apply Hin. lia.
      * intros j Hj. rewrite <- received_more. apply Hnot. lia.
      * rewrite <- received_more. exact Hterm.
Qed.

(** C10, as the code has it.  A call stops at the end of the first
    iteration at which [indexOf] finds OK or ERROR in the text accumulated
    so far, returns that text and reads nothing of what follows; and
    [indexOf] finds them exactly when they occur anywhere among the bytes
    before the first NUL: in an echo, in an unsolicited line, in the
    answer itself.  So there are inputs on which the call returns text
    without the result of the command: a subscription is cut short by a
    notification whose payload is OK and never sees its own
    [+CMQTTSUB: 0,0].  What follows a NUL byte is not searched. *)
Theorem sendATCommand_stops_at_first_token :
  (forall (command : string) (timeout t0 : Z) (env : list Poll) (k : nat),
     (1 <= k <= List.length env)%nat ->
     (forall j, (1 <= j <= k)%nat -> in_time (u32 t0) timeout j env = true) ->
     (forall j, (1 <= j < k)%nat -> terminal (received j env) = false) ->
     terminal (received k env) = true ->
     sendATCommand command timeout t0 env =
       Some (mkResult (received k env) k (reading k env) ByToken)) /\
  (forall text : string,
     terminal text = true <->
     exists a b, c_str text = (a ++ "OK" ++ b)%string \/
                 c_str text = (a ++ "ERROR" ++ b)%string) /\
  (forall a b : string,
     terminal (a ++ String NUL b) = terminal (a ++ String NUL EmptyString)) /\
  (exists r : Result,
     sendATCommand Firmware.subscribe_command 5000 1000 busy_line = Some r /\
     exit r = ByToken /\
     response r = notification_OK /\
     found (response r) "+CMQTTSUB: 0,0" = false /\
     found (received 3 busy_line) "+CMQTTSUB: 0,0" = true).
Proof.
  split; [|split; [|split]].
  - intros command timeout t0 env k Hk Hin Hnot Hterm.
    unfold sendATCommand.
    apply (wait_loop_stops (u32 t0) timeout env EmptyString 0%nat k);
      assumption.
  - intros text. unfold terminal. rewrite orb_true_iff.
    rewrite (found_occurs text "OK") by discriminate.
    rewrite (found_occurs text "ERROR") by discriminate.
    cbn [c_str Ascii.eqb Bool.eqb]. split.
    + intros [[a [b H]] | [a [b H]]]; exists a, b; [left | right]; exact H.
    + intros [a [b [H | H]]]; [left | right]; exists a, b; exact H.
  - intros a b. unfold terminal. now rewrite !(found_nul a b).
  - eexists. split; [reflexivity|]. cbn [exit response].
    repeat split; reflexivity.
Qed.

Lemma sendATCommand_stops_at_first_token_witness :
  sendATCommand "AT+COPS?" 5000 1000
    [ mkPoll 1001 "AT+COPS?"; mkPoll 1002 " +COPS: 0,0,TOKYO NET,7";
      mkPoll 1003 " OK" ] =
  Some (mkResult "AT+COPS? +COPS: 0,0,TOKYO NET,7" 2%nat 1002 ByToken).
Proof.
  apply (proj1 sendATCommand_stops_at_first_token "AT+COPS?" 5000 1000
           [ mkPoll 1001 "AT+COPS?"; mkPoll 1002 " +COPS: 0,0,TOKYO NET,7";
             mkPoll 1003 " OK" ] 2%nat).
  - cbn. lia.
  - intros j Hj. assert (H : j = 1%nat \/ j = 2%nat) by lia.
    destruct H as [-> | ->]; vm_compute; reflexivity.
  - intros j Hj. assert (H : j = 1%nat) by lia. subst j. vm_compute. reflexivity.
  - vm_compute. reflexivity.
Defined.

(** C10 as stated fails when a NUL byte has been received: OK occurs in
    the bytes accumulated, [indexOf] does not look that far, and the call
    runs to its deadline. *)
Lemma nul_byte_hides_the_token :
  sendATCommand "AT" 2000 1000 nul_line =
    Some (mkResult (String NUL ("OK" ++ crlf)) 3 3001 ByTimeout) /\
  received 1 nul_line = (String NUL EmptyString ++ "OK" ++ crlf)%string /\
  terminal (received 1 nul_line) = false.
Proof.
  repeat split; vm_compute; reflexivity.
Qed.

(** *** How and when the waiting loops end *)

Lemma wait_loop_exit (startTime timeout : Z) :
  forall (env : list Poll) (acc : string) (n : nat) (r : Result),
    terminal acc = false ->
    wait_loop startTime timeout acc n env = Some r ->
    exists k : nat,
      (1 <= k <= List.length env)%nat /\
      tests r = (n + k)%nat /\
      last_read r = reading k env /\
      (forall j, (1 <= j < k)%nat ->
         in_time startTime timeout j env = true /\
         terminal (acc ++ received j env) = false) /\
      match exit r with
      | ByToken =>
          response r = (acc ++ received k env)%string /\
          terminal (response r) = true /\
          u32 (u32 (last_read r) - startTime) < timeout
      | ByTimeout =>
          response r = (acc ++ received (Nat.pred k) env)%string /\
          terminal (response r) = false /\
          timeout <= u32 (u32 (last_read r) - startTime)
      end.
Proof.
  induction env as [|p env IH]; intros acc n r Hacc Hr; [discriminate|].
  cbn [wait_loop] in Hr. unfold millis in Hr.
  destruct (u32 (u32 (at_ms p) - startTime) <? timeout) eqn:Hin.
  - destruct (terminal (acc ++ rx p)) eqn:Hterm.
    + inversion Hr; subst; clear Hr. exists 1%nat.
      cbn [tests last_read exit response List.length].
      rewrite received_one. change (reading 1 (p :: env)) with (at_ms p).
      apply Z.ltb_lt in Hin.
      repeat split; try lia; auto.
      all: intros; lia.
    + destruct (IH _ _ _ Hterm Hr) as [k [Hk [Htests [Hlast [Hbefore Hexit]]]]].
      exists (S k). cbn [List.length]. rewrite reading_next by lia.
      split; [lia|]. split; [lia|]. split; [exact Hlast|]. split.
      * intros j Hj. destruct j as [|j]; [lia|]. destruct j as [|j].
        -- rewrite received_one. unfold in_time.
           change (reading 1 (p :: env)) with (at_ms p).
           split; [exact Hin | exact Hterm].
        -- unfold in_time. rewrite reading_next by lia. rewrite received_more.
           apply Hbefore. lia.
      * destruct (exit r).
        -- rewrite received_more. exact Hexit.
        -- destruct k as [|k]; [lia|].
           cbn [Nat.pred] in *. rewrite received_more. exact Hexit.
  - inversion Hr; subst; clear Hr. exists 1%nat.
    cbn [tests last_read exit response List.length Nat.pred].
    change (reading 1 (p :: env)) with (at_ms p).
    change (received 0 (p :: env)) with EmptyString.
    rewrite append_empty_r. apply Z.ltb_ge in Hin.
    repeat split; try lia; auto.
    all: intros; lia.
Qed.

(** X1. Whatever the clock and the modem do, a call of [sendATCommand]
    that returns has ended in one of two ways, at the first test of the
    loop condition at which either holds: on a token, when the deadline
    had not passed at the last reading of the clock and [indexOf] finds
    OK or ERROR in the text returned, which is all that was received up
    to that iteration; or on the deadline, and then [indexOf] finds
    neither OK nor ERROR in the text returned, which is all that was
    received in the iterations before. *)
Theorem sendATCommand_token_or_deadline
  (command : string) (timeout t0 : Z) (env : list Poll) (r : Result) :
  sendATCommand command timeout t0 env = Some r ->
  (1 <= tests r <= List.length env)%nat /\
  last_read r = reading (tests r) env /\
  response r = received (iterations r) env /\
  (forall j, (1 <= j < tests r)%nat ->
     in_time (u32 t0) timeout j env = true /\
     terminal (received j env) = false) /\
  match exit r with
  | ByToken =>
      terminal (response r) = true /\
      u32 (u32 (last_read r) - u32 t0) < timeout
  | ByTimeout =>
      terminal (response r) = false /\
      timeout <= u32 (u32 (last_read r) - u32 t0)
  end.
Proof.
  unfold sendATCommand. intros Hr.
  destruct (wait_loop_exit (u32 t0) timeout env EmptyString 0%nat r eq_refl Hr)
    as [k [Hk [Htests [Hlast [Hbefore Hexit]]]]].
  cbn [Nat.add] in Htests. rewrite Htests. unfold iterations. rewrite Htests.
  split; [exact Hk|]. split; [exact Hlast|].
  split; [destruct (exit r); apply Hexit|].
  split; [exact Hbefore|].
  destruct (exit r); split; apply Hexit.
Qed.

Lemma sendATCommand_token_or_deadline_witness :
  terminal (response (mkResult (String NUL ("OK" ++ crlf)) 3 3001 ByTimeout)) = false /\
  2000 <= u32 (u32 (last_read (mkResult (String NUL ("OK" ++ crlf)) 3 3001 ByTimeout))
               - u32 1000).
Proof.
  apply (sendATCommand_token_or_deadline "AT" 2000 1000 nul_line
           (mkResult (String NUL ("OK" ++ crlf)) 3 3001 ByTimeout)).
  vm_compute. reflexivity.
Defined.

(** The loop of [waitForResponse], from any iteration on. *)
Lemma wait_for_ends (expected : string) (timeout t0 eps : Z) :
  0 <= timeout -> 0 <= eps -> timeout + eps < two32 ->
  forall (env : list Poll) (acc : string) (n : nat) (t : Z),
    t0 <= t <= t0 + timeout ->
    paced eps t env ->
    reaches t0 timeout env ->
    exists (w : Waited) (k : nat),
      wait_for expected (u32 t0) timeout acc n env = Some w /\
      (1 <= k <= List.length env)%nat /\
      checks w = (n + k)%nat /\
      last_check w = reading k env /\
      (forall j, (1 <= j < k)%nat ->
         reading j env < t0 + timeout /\
         found (acc ++ received j env) expected = false) /\
      (if matched w
       then reading k env < t0 + timeout /\
            found (acc ++ received k env) expected = true /\
            buffer w = (acc ++ received k env)%string
       else t0 + timeout <= reading k env <= t0 + timeout + eps /\
            buffer w = (acc ++ received (Nat.pred k) env)%string).
Proof.
  intros Hto Heps Hfit env.
  induction env as [|p env IH]; intros acc n t Ht Hpaced Hreach.
  - destruct Hreach as [p [[] _]].
  - cbn [paced] in Hpaced. destruct Hpaced as [Hp Hrest].
    cbn [wait_for]. unfold millis.
    rewrite elapsed_exact by lia.
    destruct (at_ms p - t0 <? timeout) eqn:Hin.
    + apply Z.ltb_lt in Hin.
      destruct (found (acc ++ rx p) expected) eqn:Hfound.
      * exists (mkWaited true (acc ++ rx p) (S n) (at_ms p)), 1%nat.
        cbn [matched checks buffer last_check List.length].
        rewrite received_one.
        change (reading 1 (p :: env)) with (at_ms p).
        repeat split; try lia; auto.
        all: intros; lia.
      * destruct (IH (acc ++ rx p)%string (S n) (at_ms p))
          as [w [k [Hw [Hk [Hchecks [Hlast [Hbefore Hres]]]]]]].
        -- lia.
        -- exact Hrest.
        -- destruct Hreach as [q [[Hq | Hq] Hdead]].
           ++ subst q. lia.
           ++ exists q. split; assumption.
        -- exists w, (S k). cbn [List.length].
           rewrite reading_next by lia.
           split; [exact Hw|]. split; [lia|]. split; [lia|].
           split; [exact Hlast|].
           split.
           ++ intros j Hj. destruct j as [|j]; [lia|].
              destruct j as [|j].
              ** rewrite received_one.
                 change (reading 1 (p :: env)) with (at_ms p).
                 split; [lia | exact Hfound].
              ** rewrite reading_next by lia. rewrite received_more.
                 apply Hbefore. lia.
           ++ destruct (matched w).
              ** rewrite received_more. exact Hres.
              ** destruct k as [|k]; [lia|].
                 cbn [Nat.pred] in *. rewrite received_more. exact Hres.
    + apply Z.ltb_ge in Hin.
      exists (mkWaited false acc (S n) (at_ms p)), 1%nat.
      cbn [matched checks buffer last_check List.length Nat.pred].
      change (reading 1 (p :: env)) with (at_ms p).
      change (received 0 (p :: env)) with EmptyString.
      rewrite append_empty_r.
      repeat split; try lia; auto.
      all: intros; lia.
Qed.

(** X2. [waitForResponse] always ends when the clock is read often
    enough, and what it answers is determined: it ends at the first
    reading [k] of the clock at which either the deadline has passed, and
    then it answers [false], at most [eps] after the deadline; or the body
    runs and [indexOf] finds [expected] in the text received so far, and
    then it answers [true], before the deadline.  Until then [indexOf] has
    not found [expected] at the end of any iteration: OK, ERROR or
    anything else that is not [expected] does not end the wait. *)
Theorem waitForResponse_answers_by_the_deadline
  (expected : string) (timeout t0 eps : Z) (env : list Poll) :
  0 <= timeout -> 0 <= eps -> timeout + eps < two32 ->
  paced eps t0 env ->
  reaches t0 timeout env ->
  exists (w : Waited) (k : nat),
    waitForResponse expected timeout t0 env = Some w /\
    (1 <= k <= List.length env)%nat /\
    checks w = k /\
    last_check w = reading k env /\
    never_seen expected (Nat.pred k) env /\
    (forall j, (1 <= j < k)%nat -> reading j env < t0 + timeout) /\
    (if matched w
     then reading k env < t0 + timeout /\
          found (received k env) expected = true /\
          buffer w = received k env
     else t0 + timeout <= reading k env <= t0 + timeout + eps /\
          buffer w = received (Nat.pred k) env).
Proof.
  intros Hto Heps Hfit Hpaced Hreach.
  destruct (wait_for_ends expected timeout t0 eps Hto Heps Hfit env
              EmptyString 0%nat t0)
    as [w [k [Hw [Hk [Hchecks [Hlast [Hbefore Hres]]]]]]];
    try assumption; try lia.
  exists w, k. split; [exact Hw|]. split; [exact Hk|].
  split; [exact Hchecks|]. split; [exact Hlast|].
  split; [intros j Hj; apply (Hbefore j); lia|].
  split; [intros j Hj; apply (Hbefore j); lia|].
  exact Hres.
Qed.

Lemma waitForResponse_answers_by_the_deadline_witness :
  exists (w : Waited) (k : nat),
    waitForResponse "OK" 2000 1000 error_line = Some w /\
    (1 <= k <= List.length error_line)%nat /\
    checks w = k /\
    last_check w = reading k error_line /\
    never_seen "OK" (Nat.pred k) error_line /\
    (forall j, (1 <= j < k)%nat -> reading j error_line < 1000 + 2000) /\
    (if matched w
     then reading k error_line < 1000 + 2000 /\
          found (received k error_line) "OK" = true /\
          buffer w = received k error_line
     else 1000 + 2000 <= reading k error_line <= 1000 + 2000 + 1100 /\
          buffer w = received (Nat.pred k) error_line).
Proof.
  apply (waitForResponse_answers_by_the_deadline "OK" 2000 1000 1100 error_line).
  - lia.
  - lia.
  - reflexivity.
  - cbn. lia.
  - exists (mkPoll 3001 EmptyString). split; [cbn; tauto | cbn; lia].
Defined.

End ExecutorFacts.

Module ReceiveFacts.
Import Str Receive.

Lemma read_related_until_end (body : list string) (endl : string)
      (tail : list string) :
  forallb (fun l => negb (isEnd l)) body = true ->
  isEnd endl = true ->
  read_related (body ++ endl :: tail) = ((body ++ [endl])%list, tail).
Proof.
  intros Hbody Hend. induction body as [|l body IH]; cbn.
  - now rewrite Hend.
  - cbn in Hbody. apply andb_true_iff in Hbody. destruct Hbody as [Hl Hbody].
    apply negb_true_iff in Hl. rewrite Hl, (IH Hbody). reflexivity.
Qed.

(** C4, as the code has it.  When the first line of a notification is in
    the buffer at the start of a poll and its other lines are there by the
    time the poll reads on, this one poll prints the lines of the
    notification once and in order, topic and payload as they were sent,
    and leaves what follows the end marker in the buffer. *)
Theorem checkIncomingMessages_whole_frame
  (start tm topic pm payload endl : string) (rest arriving tail : list string) :
  isNotification start = true ->
  isEnd tm = false -> isEnd topic = false ->
  isEnd pm = false -> isEnd payload = false ->
  isEnd endl = true ->
  (rest ++ arriving)%list = ([tm; topic; pm; payload; endl] ++ tail)%list ->
  checkIncomingMessages (start :: rest) arriving =
    ([header; start; tm; topic; pm; payload; endl; EmptyString], tail).
Proof.
  intros Hs Htm Htopic Hpm Hpayload Hend Hbuf.
  unfold checkIncomingMessages. rewrite Hs, Hbuf.
  change ([tm; topic; pm; payload; endl] ++ tail)%list
    with ([tm; topic; pm; payload] ++ endl :: tail)%list.
  rewrite read_related_until_end.
  - reflexivity.
  - cbn. now rewrite Htm, Htopic, Hpm, Hpayload.
  - exact Hend.
Qed.

Lemma checkIncomingMessages_whole_frame_witness :
  checkIncomingMessages
    ["+CMQTTRXSTART: 0,20,5"; "+CMQTTRXTOPIC: 0,20"]
    ["test/sim7600/command"; "+CMQTTRXPAYLOAD: 0,5"; "hello";
     "+CMQTTRXEND: 0"; "+CMQTTRXSTART: 0,20,3"] =
  ([header; "+CMQTTRXSTART: 0,20,5"; "+CMQTTRXTOPIC: 0,20";
    "test/sim7600/command"; "+CMQTTRXPAYLOAD: 0,5"; "hello";
    "+CMQTTRXEND: 0"; EmptyString],
   ["+CMQTTRXSTART: 0,20,3"]).
Proof.
  apply (checkIncomingMessages_whole_frame
           "+CMQTTRXSTART: 0,20,5" "+CMQTTRXTOPIC: 0,20" "test/sim7600/command"
           "+CMQTTRXPAYLOAD: 0,5" "hello" "+CMQTTRXEND: 0");
    reflexivity.
Defined.

(** C4 as stated fails: a notification arriving one line per poll is
    reported three times, each time as a bare marker line, and neither its
    topic nor its payload is ever printed. *)
Lemma slow_frame_is_not_reassembled :
  let topic := "test/sim7600/command" in
  let payload := "hello" in
  let printed := fst (polls [] (one_line_per_poll (frame topic payload))) in
  existsb (String.eqb topic) printed = false /\
  existsb (String.eqb payload) printed = false /\
  List.length (filter (String.eqb header) printed) = 3%nat.
Proof. vm_compute. repeat split; reflexivity. Qed.

(** *** What a poll does with the lines *)

Local Open Scope list_scope.

Lemma read_related_split (buf : list string) :
  fst (read_related buf) ++ snd (read_related buf) = buf.
Proof.
  induction buf as [|line rest IH]; [reflexivity|].
  cbn [read_related]. destruct (isEnd line); [reflexivity|].
  destruct (read_related rest) as [printed left]. cbn in *. now rewrite IH.
Qed.

Lemma read_related_no_end (buf : list string) :
  forallb (fun l => negb (isEnd l)) buf = true ->
  read_related buf = (buf, []).
Proof.
  induction buf as [|line rest IH]; [reflexivity|].
  cbn. intros H. apply andb_true_iff in H. destruct H as [Hl Hrest].
  apply negb_true_iff in Hl. rewrite Hl, (IH Hrest). reflexivity.
Qed.

(** X3. A poll loses at most one line.  When the first line in the buffer
    carries a notification marker, the lines printed between the header
    and the closing blank line, followed by the lines left in the buffer,
    are the lines the poll had, in their order; when it does not, that
    one line is taken from the buffer and printed nowhere, and all others
    stay. *)
Theorem checkIncomingMessages_keeps_the_lines
  (incoming : string) (rest arriving : list string) :
  let out := checkIncomingMessages (incoming :: rest) arriving in
  if isNotification incoming
  then exists shown,
         fst out = header :: shown ++ [EmptyString] /\
         shown ++ snd out = incoming :: rest ++ arriving
  else fst out = [] /\ snd out = rest ++ arriving.
Proof.
  cbn zeta. unfold checkIncomingMessages.
  destruct (isNotification incoming); [|split; reflexivity].
  pose proof (read_related_split (rest ++ arriving)) as Hs.
  destruct (read_related (rest ++ arriving)) as [printed left]. cbn in *.
  exists (incoming :: printed). split; [reflexivity|].
  cbn. now rewrite Hs.
Qed.

(** X4. A notification whose end marker is not in the buffer when the
    poll reads on takes every buffered line with it: all of them are
    printed as part of this one message and nothing is left for the next
    poll. *)
Theorem unfinished_notification_drains_the_buffer
  (incoming : string) (rest arriving : list string) :
  isNotification incoming = true ->
  forallb (fun l => negb (isEnd l)) (rest ++ arriving) = true ->
  checkIncomingMessages (incoming :: rest) arriving =
    (header :: incoming :: (rest ++ arriving) ++ [EmptyString], []).
Proof.
  intros Hn Hno. unfold checkIncomingMessages.
  rewrite Hn, (read_related_no_end _ Hno). reflexivity.
Qed.

Lemma unfinished_notification_drains_the_buffer_witness :
  checkIncomingMessages
    ["+CMQTTRXSTART: 0,20,5"; "+CMQTTRXTOPIC: 0,20"]
    ["test/sim7600/command"; "+CMQTTRXPAYLOAD: 0,5"] =
  ([header; "+CMQTTRXSTART: 0,20,5"; "+CMQTTRXTOPIC: 0,20";
    "test/sim7600/command"; "+CMQTTRXPAYLOAD: 0,5"; EmptyString], []).
Proof.
  apply (unfinished_notification_drains_the_buffer
           "+CMQTTRXSTART: 0,20,5" ["+CMQTTRXTOPIC: 0,20"]
           ["test/sim7600/command"; "+CMQTTRXPAYLOAD: 0,5"]);
    reflexivity.
Defined.

Lemma poll_of_a_frame (f : Notification) (tail : list string) :
  well_formed f = true ->
  checkIncomingMessages (lines_of f ++ tail) [] = (report f, tail).
Proof.
  unfold well_formed. intros H.
  apply andb_true_iff in H. destruct H as [H Hend].
  apply andb_true_iff in H. destruct H as [Hopen Hinner].
  unfold lines_of, report, checkIncomingMessages. cbn [app].
  rewrite Hopen, app_nil_r, <- app_assoc. cbn [app].
  rewrite (read_related_until_end _ _ _ Hinner Hend).
  reflexivity.
Qed.

(** X5. Notifications that are complete in the buffer are reported one
    per poll, in their order: a poll stops at the first end marker and
    leaves what follows for the next poll, so [n] notifications need [n]
    polls. *)
Theorem one_notification_per_poll (frames : list Notification) :
  forallb well_formed frames = true ->
  polls (List.concat (map lines_of frames)) (quiet_polls (List.length frames)) =
    (List.concat (map report frames), []).
Proof.
  induction frames as [|f frames IH]; [reflexivity|].
  cbn [forallb]. intros H. apply andb_true_iff in H. destruct H as [Hf Hrest].
  cbn [map List.concat List.length quiet_polls repeat polls].
  rewrite app_nil_r, (poll_of_a_frame _ _ Hf).
  change (repeat ([], []) (List.length frames)) with (quiet_polls (List.length frames)).
  rewrite (IH Hrest). reflexivity.
Qed.

Lemma one_notification_per_poll_witness :
  polls (List.concat (map lines_of
                   [ mkNotification "+CMQTTRXSTART: 0,1,1"
                       ["+CMQTTRXTOPIC: 0,1"; "a"; "+CMQTTRXPAYLOAD: 0,1"; "1"]
                       "+CMQTTRXEND: 0";
                     mkNotification "+CMQTTRXSTART: 0,1,1"
                       ["+CMQTTRXTOPIC: 0,1"; "b"; "+CMQTTRXPAYLOAD: 0,1"; "2"]
                       "+CMQTTRXEND: 0" ]))
        (quiet_polls 2) =
  (List.concat (map report
             [ mkNotification "+CMQTTRXSTART: 0,1,1"
                 ["+CMQTTRXTOPIC: 0,1"; "a"; "+CMQTTRXPAYLOAD: 0,1"; "1"]
                 "+CMQTTRXEND: 0";
               mkNotification "+CMQTTRXSTART: 0,1,1"
                 ["+CMQTTRXTOPIC: 0,1"; "b"; "+CMQTTRXPAYLOAD: 0,1"; "2"]
                 "+CMQTTRXEND: 0" ]), []).
Proof.
  apply (one_notification_per_poll
           [ mkNotification "+CMQTTRXSTART: 0,1,1"
               ["+CMQTTRXTOPIC: 0,1"; "a"; "+CMQTTRXPAYLOAD: 0,1"; "1"]
               "+CMQTTRXEND: 0";
             mkNotification "+CMQTTRXSTART: 0,1,1"
               ["+CMQTTRXTOPIC: 0,1"; "b"; "+CMQTTRXPAYLOAD: 0,1"; "2"]
               "+CMQTTRXEND: 0" ]).
  vm_compute. reflexivity.
Defined.

End ReceiveFacts.

Module FirmwareFacts.
Import Str Firmware.
Local Open Scope list_scope.
Local Open Scope Z_scope.

Lemma TaskId_eqb_eq (a b : TaskId) : TaskId_eqb a b = true <-> a = b.
Proof. destruct a, b; cbn; split; intros H; try reflexivity; discriminate. Qed.

Lemma TaskId_eqb_refl (a : TaskId) : TaskId_eqb a a = true.
Proof. now destruct a. Qed.

Lemma TaskId_eqb_neq (a b : TaskId) : TaskId_eqb a b = false <-> a <> b.
Proof.
  split.
  - intros H E. subst. rewrite TaskId_eqb_refl in H. discriminate.
  - intros H. destruct (TaskId_eqb a b) eqn:E; [|reflexivity].
    apply TaskId_eqb_eq in E. contradiction.
Qed.

Lemma observe_snoc (M : Monitor) (m : MState M) (tr : list Ev) (e : Ev) :
  observe M m (tr ++ [e]) = m_step M (observe M m tr) e.
Proof. unfold observe. now rewrite fold_left_app. Qed.

Lemma observe_app (M : Monitor) (m : MState M) (tr tr' : list Ev) :
  observe M m (tr ++ tr') = observe M (observe M m tr) tr'.
Proof. unfold observe. now rewrite fold_left_app. Qed.

Lemma calls_of_snoc (t t' : TaskId) (tr : list (TaskId * Ev)) (e : Ev) :
  calls_of t (tr ++ [(t', e)]) =
  if TaskId_eqb t' t then calls_of t tr ++ [e] else calls_of t tr.
Proof.
  induction tr as [|[t'' e'] tr IH]; cbn.
  - now destruct (TaskId_eqb t' t).
  - rewrite IH. destruct (TaskId_eqb t'' t), (TaskId_eqb t' t); reflexivity.
Qed.

Section Logic.

Variable M : Monitor.
Variables I D : MState M -> Prop.

Lemma wp_inv {A : Type} (p : prog A) (Q : A -> MState M -> Prop) (m : MState M) :
  wp M I D p Q m -> I m.
Proof. destruct p; cbn; tauto. Qed.

Lemma wp_bind {A B : Type} (p : prog A) (f : A -> prog B)
      (Q : B -> MState M -> Prop) :
  forall m,
    wp M I D p (fun a m' => wp M I D (f a) Q m') m ->
    wp M I D (bind p f) Q m.
Proof.
  induction p as [a| |c k IH|q k IH|q k IH|q k IH]; intros m H; cbn in *.
  - tauto.
  - tauto.
  - split; [tauto|]. apply IH. tauto.
  - split; [tauto|]. intros b. apply IH. now apply H.
  - split; [tauto|]. intros s. apply IH. now apply H.
  - split; [tauto|]. intros z. apply IH. now apply H.
Qed.

Lemma wp_mono {A : Type} (p : prog A) (Q Q' : A -> MState M -> Prop) :
  (forall a m, Q a m -> Q' a m) ->
  forall m, wp M I D p Q m -> wp M I D p Q' m.
Proof.
  intros HQ.
  induction p as [a| |c k IH|q k IH|q k IH|q k IH]; intros m H; cbn in *.
  - split; [tauto|]. apply HQ. tauto.
  - tauto.
  - split; [tauto|]. apply IH. tauto.
  - split; [tauto|]. intros b. apply IH. now apply H.
  - split; [tauto|]. intros s. apply IH. now apply H.
  - split; [tauto|]. intros z. apply IH. now apply H.
Qed.

Lemma wp_Ret {A : Type} (a : A) (Q : A -> MState M -> Prop) (m : MState M) :
  I m -> Q a m -> wp M I D (Ret a) Q m.
Proof. cbn. tauto. Qed.

Lemma wp_Delete {A : Type} (Q : A -> MState M -> Prop) (m : MState M) :
  I m -> D m -> wp M I D vTaskDelete Q m.
Proof. cbn. tauto. Qed.

Lemma wp_Do {A : Type} (c : Cmd) (k : prog A) (Q : A -> MState M -> Prop)
      (m : MState M) :
  I m -> wp M I D k Q (m_step M m (EDo c)) -> wp M I D (Do c k) Q m.
Proof. cbn. tauto. Qed.

Lemma wp_AskB {A : Type} (q : AskBool) (k : bool -> prog A)
      (Q : A -> MState M -> Prop) (m : MState M) :
  I m -> (forall b, wp M I D (k b) Q (m_step M m (EB q b))) ->
  wp M I D (AskB q k) Q m.
Proof. cbn. tauto. Qed.

Lemma wp_AskS {A : Type} (q : AskString) (k : string -> prog A)
      (Q : A -> MState M -> Prop) (m : MState M) :
  I m -> (forall s, wp M I D (k s) Q (m_step M m (ES q s))) ->
  wp M I D (AskS q k) Q m.
Proof. cbn. tauto. Qed.

Lemma wp_AskN {A : Type} (q : AskNum) (k : Z -> prog A)
      (Q : A -> MState M -> Prop) (m : MState M) :
  I m -> (forall z, wp M I D (k z) Q (m_step M m (EN q z))) ->
  wp M I D (AskN q k) Q m.
Proof. cbn. tauto. Qed.

Lemma wp_if_true {A : Type} (c : bool) (p p' : prog A)
      (Q : A -> MState M -> Prop) (m : MState M) :
  c = true -> wp M I D p Q m -> wp M I D (if c then p else p') Q m.
Proof. intros ->. exact (fun H => H). Qed.

Lemma wp_if_false {A : Type} (c : bool) (p p' : prog A)
      (Q : A -> MState M -> Prop) (m : MState M) :
  c = false -> wp M I D p' Q m -> wp M I D (if c then p else p') Q m.
Proof. intros ->. exact (fun H => H). Qed.

Lemma neutral_bind {A B : Type} (p : prog A) (f : A -> prog B) :
  neutral M p -> (forall a, neutral M (f a)) -> neutral M (bind p f).
Proof.
  intros Hp Hf.
  induction p as [a| |c k IH|q k IH|q k IH|q k IH]; cbn in *.
  - apply Hf.
  - exact Hp.
  - split; [tauto|]. apply IH. tauto.
  - intros b. split; [apply Hp|]. apply IH. apply Hp.
  - intros s. split; [apply Hp|]. apply IH. apply Hp.
  - intros z. split; [apply Hp|]. apply IH. apply Hp.
Qed.

Lemma wp_neutral {A : Type} (p : prog A) (Q : A -> MState M -> Prop)
      (m : MState M) :
  neutral M p -> I m -> (forall a, Q a m) -> wp M I D p Q m.
Proof.
  intros Hp Hi HQ.
  induction p as [a| |c k IH|q k IH|q k IH|q k IH]; cbn in *.
  - split; [exact Hi | apply HQ].
  - contradiction.
  - split; [exact Hi|]. destruct Hp as [Hc Hk]. rewrite Hc. now apply IH.
  - split; [exact Hi|]. intros b. destruct (Hp b) as [Hc Hk]. rewrite Hc. now apply IH.
  - split; [exact Hi|]. intros s. destruct (Hp s) as [Hc Hk]. rewrite Hc. now apply IH.
  - split; [exact Hi|]. intros z. destruct (Hp z) as [Hc Hk]. rewrite Hc. now apply IH.
Qed.

Lemma exec_sound {A : Type} (o : Oracle) (p : prog A)
      (Q : A -> MState M -> Prop) :
  forall (i : nat) (m : MState M),
    wp M I D p Q m ->
    ends_well M D Q m (exec o i p) /\ I (observe M m (fst (exec o i p))).
Proof.
  unfold ends_well.
  induction p as [a| |c k IH|q k IH|q k IH|q k IH]; intros i m H; cbn in *.
  - tauto.
  - tauto.
  - destruct H as [_ H]. specialize (IH (S i) _ H).
    destruct (exec o (S i) k) as [tr r]. exact IH.
  - destruct H as [_ H]. specialize (IH _ (S i) _ (H (ans_bool o i q))).
    destruct (exec o (S i) (k (ans_bool o i q))) as [tr r]. exact IH.
  - destruct H as [_ H]. specialize (IH _ (S i) _ (H (ans_string o i q))).
    destruct (exec o (S i) (k (ans_string o i q))) as [tr r]. exact IH.
  - destruct H as [_ H]. specialize (IH _ (S i) _ (H (ans_num o i q))).
    destruct (exec o (S i) (k (ans_num o i q))) as [tr r]. exact IH.
Qed.

Section Loop.

Variable pdMS_TO_TICKS : Z -> Z.
Variable t : TaskId.
Variable L : Local -> MState M -> Prop.

Hypothesis code_ok :
  forall l m, L l m -> wp M I D (code pdMS_TO_TICKS t l) L m.

Lemma L_inv (l : Local) (m : MState M) : L l m -> I m.
Proof. intros H. exact (wp_inv _ _ _ (code_ok l m H)). Qed.

Lemma run_sound (o : Oracle) :
  forall (cycles i : nat) (l : Local) (m : MState M),
    L l m ->
    ends_well M D L m (run pdMS_TO_TICKS o t cycles i l) /\
    I (observe M m (fst (run pdMS_TO_TICKS o t cycles i l))).
Proof.
  unfold ends_well.
  induction cycles as [|n IH]; intros i l m HL; cbn.
  - split; [exact HL | exact (L_inv l m HL)].
  - pose proof (exec_sound o (code pdMS_TO_TICKS t l) L i m (code_ok l m HL)) as [He Hi].
    unfold ends_well in He.
    destruct (exec o i (code pdMS_TO_TICKS t l)) as [tr r]. cbn [fst snd] in *.
    destruct r as [l'|]; cbn [fst snd].
    + specialize (IH (i + List.length tr)%nat l' _ He).
      destruct (run pdMS_TO_TICKS o t n (i + List.length tr) l') as [tr' r'].
      cbn [fst snd] in *. rewrite observe_app. exact IH.
    + split; assumption.
Qed.

Hypothesis entry_ok : L Entry (m_init M).

Lemma wp_resume (p : prog Local) (m : MState M) :
  wp M I D p L m -> wp M I D (resume pdMS_TO_TICKS t p) L m.
Proof.
  destruct p; cbn; try tauto.
  intros [_ H]. now apply code_ok.
Qed.

Lemma set_task_same ts (p : prog Local) : set_task ts t p t = p.
Proof. unfold set_task. now rewrite TaskId_eqb_refl. Qed.

Lemma set_task_other ts (t' : TaskId) (p : prog Local) :
  t' <> t -> set_task ts t' p t = ts t.
Proof.
  intros H. unfold set_task.
  destruct (TaskId_eqb t t') eqn:E; [|reflexivity].
  apply TaskId_eqb_eq in E. congruence.
Qed.

Lemma step_other (w : World) (t' : TaskId) (x : Input) :
  t' <> t ->
  tasks (step pdMS_TO_TICKS w t' x) t = tasks w t /\
  calls_of t (trace (step pdMS_TO_TICKS w t' x)) = calls_of t (trace w).
Proof.
  intros Hne.
  assert (Hrec : forall e k f mu,
             tasks (record w t' e k f mu) t = tasks w t /\
             calls_of t (trace (record w t' e k f mu)) = calls_of t (trace w)).
  { intros e k f mu. unfold record; cbn [tasks trace]. rewrite calls_of_snoc.
    rewrite set_task_other by exact Hne.
    apply TaskId_eqb_neq in Hne. now rewrite Hne. }
  unfold step.
  destruct (resume pdMS_TO_TICKS t' (tasks w t')) as [l| |c k|q k|q k|q k];
    try (split; reflexivity); try apply Hrec.
  - destruct c; apply Hrec.
  - destruct q; try apply Hrec.
    destruct (xSIM7600Mutex w); [destruct (in_timeout x)|];
      try (split; reflexivity); apply Hrec.
Qed.

Lemma step_self (w : World) (x : Input) :
  wp M I D (tasks w t) L (view M t w) ->
  wp M I D (tasks (step pdMS_TO_TICKS w t x) t) L
     (view M t (step pdMS_TO_TICKS w t x)).
Proof.
  intros H. pose proof (wp_resume _ _ H) as Hr.
  assert (Hrec : forall e k f mu,
             wp M I D k L (m_step M (view M t w) e) ->
             wp M I D (tasks (record w t e k f mu) t) L
                (view M t (record w t e k f mu))).
  { intros e k f mu Hk. unfold view, record; cbn [tasks trace].
    rewrite calls_of_snoc, TaskId_eqb_refl, observe_snoc, set_task_same.
    exact Hk. }
  unfold step.
  destruct (resume pdMS_TO_TICKS t (tasks w t)) as [l| |c k|q k|q k|q k];
    try exact H; cbn in Hr; destruct Hr as [_ Hr].
  - destruct c; apply Hrec; exact Hr.
  - destruct q; try (apply Hrec; apply Hr).
    destruct (xSIM7600Mutex w); [destruct (in_timeout x)|];
      try exact H; apply Hrec; apply Hr.
  - apply Hrec; apply Hr.
  - apply Hrec; apply Hr.
Qed.

Lemma system_sound (sched : nat -> TaskId) (env : nat -> Input) (n : nat) :
  let w := run_system pdMS_TO_TICKS sched env n in
  wp M I D (tasks w t) L (view M t w).
Proof.
  induction n as [|n IH]; cbn.
  - split; [exact (L_inv _ _ entry_ok) | exact entry_ok].
  - cbn in IH.
    destruct (TaskId_eqb (sched n) t) eqn:E.
    + apply TaskId_eqb_eq in E. rewrite E. apply step_self. exact IH.
    + apply TaskId_eqb_neq in E.
      destruct (step_other (run_system pdMS_TO_TICKS sched env n) (sched n) (env n) E)
        as [Ht Hc].
      unfold view. rewrite Ht, Hc. exact IH.
Qed.

Lemma system_inv (sched : nat -> TaskId) (env : nat -> Input) (n : nat) :
  I (view M t (run_system pdMS_TO_TICKS sched env n)).
Proof. exact (wp_inv _ _ _ (system_sound sched env n)). Qed.

End Loop.
End Logic.



(** Walking a call tree node by node: the monitor state is simplified,
    tests on answers are decided by cases; [inv] proves the side
    conditions and [loop] deals with the loops of the code. *)
Ltac wp_state :=
  lazymatch goal with
  | |- wp ?M ?I ?D ?p ?Q ?m =>
      let m' := eval cbn in m in change (wp M I D p Q m')
  end.

Ltac wp_node inv loop :=
  lazymatch goal with
  | |- wp _ _ _ (bind _ _) _ _ => apply wp_bind
  | |- wp _ _ _ (Ret _) _ _ => apply wp_Ret; [inv | cbv beta]
  | |- wp _ _ _ vTaskDelete _ _ => apply wp_Delete; [inv | inv]
  | |- wp _ _ _ (Do _ _) _ _ => apply wp_Do; [inv | wp_state]
  | |- wp _ _ _ (AskB _ _) _ _ =>
      apply wp_AskB; [inv | intros [|]; cbv beta; wp_state]
  | |- wp _ _ _ (AskS _ _) _ _ =>
      apply wp_AskS; [inv | intros ?response; cbv beta; wp_state]
  | |- wp _ _ _ (AskN _ _) _ _ =>
      apply wp_AskN; [inv | intros ?z; cbv beta; wp_state]
  | |- wp ?M ?I ?D (if ?c then ?a else ?b) ?Q ?m =>
      let c' := eval cbn in c in
      lazymatch c' with
      | true => apply wp_if_true; [reflexivity|]
      | false => apply wp_if_false; [reflexivity|]
      | context [found ?r ?p] => destruct (found r p) eqn:?
      end
  | |- wp _ _ _ _ _ _ => loop
  end.

Ltac wp_walk inv loop := repeat (wp_node inv loop); try inv.

Ltac unfold_code :=
  unfold code, vInitTask, vPublishTask, vReceiveTask, vWatchdogTask,
    wait_for_init, initMCP23017, setupNetwork, setupMQTT, connectMQTT,
    publishMessage, println, AT, sleep, take, give, call, askB, askS, askN.

(** *** The mutex *)

Ltac lock_tac :=
  unfold lock_rest, lock_ok, lock_free; cbn; repeat split; try lia.

Section Mutex.
Variable pdMS_TO_TICKS : Z -> Z.
Local Opaque found.

Lemma configure_pins_lock (n : nat) (i : Z) :
  neutral LockMonitor (configure_pins n i).
Proof.
  revert i. induction n as [|n IH]; intros i; cbn; auto.
Qed.

Lemma wait_registration_lock (n : nat) (i : Z) :
  neutral LockMonitor (wait_registration n i).
Proof.
  revert i. induction n as [|n IH]; intros i; cbn; auto.
  intros s. split; [reflexivity|].
  destruct (found s ",1" || found s ",5"); cbn; auto.
Qed.

Ltac lock_loop :=
  first [ apply wp_neutral; [apply configure_pins_lock | lock_tac | intros []; cbv beta]
        | apply wp_neutral; [apply wait_registration_lock | lock_tac | intros [|]; cbv beta] ].

Lemma code_lock (t : TaskId) (l : Local) (v : LockView) :
  lock_rest l v ->
  wp LockMonitor lock_ok lock_free (code pdMS_TO_TICKS t l) lock_rest v.
Proof.
  destruct v as [h mis tk gv]. unfold lock_rest, lock_ok, lock_free. cbn.
  intros [[Hm Ht] Hh]. subst h mis. rewrite Nat.add_0_r in Ht. subst tk.
  destruct t.
  - unfold_code. wp_walk lock_tac lock_loop.
  - destruct l; unfold_code; wp_walk lock_tac lock_loop.
  - destruct l; unfold_code; wp_walk lock_tac lock_loop.
  - destruct l; unfold_code; wp_walk lock_tac lock_loop.
Qed.

End Mutex.

(** *** The readiness gate of the periodic tasks *)

Ltac gate_tac := unfold gate_rest, gate_ok; cbn; repeat split; auto.

Section GateOfPeriodicTasks.
Variable pdMS_TO_TICKS : Z -> Z.
Local Opaque found.

Lemma code_gate (t : TaskId) (l : Local) (v : GateView) :
  t <> InitTask ->
  gate_rest l v ->
  wp GateMonitor gate_ok (fun _ => True) (code pdMS_TO_TICKS t l) gate_rest v.
Proof.
  intros Ht. destruct v as [seen e w]. unfold gate_rest, gate_ok. cbn.
  intros [[He Hw] Hseen]. subst e w.
  destruct t; [congruence| | |]; destruct l; try subst seen;
    unfold_code; wp_walk gate_tac fail.
Qed.

End GateOfPeriodicTasks.

(** *** The bring-up *)

Ltac bringup_tac :=
  unfold bringup_ok; cbn;
  repeat split; auto;
  try first [ left; reflexivity
            | right; reflexivity
            | right; left; reflexivity
            | right; right; split; reflexivity ].

Section BringUpOfInitializer.
Variable pdMS_TO_TICKS : Z -> Z.
Local Opaque found.

Lemma configure_pins_bringup (n : nat) (i : Z) :
  neutral BringUpMonitor (configure_pins n i).
Proof.
  revert i. induction n as [|n IH]; intros i; cbn; auto.
Qed.

Lemma with_registered_same (v : BringUp) : with_registered v (registered v) = v.
Proof. now destruct v. Qed.

Lemma bringup_ok_with_registered (v : BringUp) (r : bool) :
  bringup_ok v -> writes v = [] -> bringup_ok (with_registered v r).
Proof.
  unfold bringup_ok. cbn. intros [Hp [Hl [_ Hpub]]] Hw.
  split; [exact Hp|]. split; [exact Hl|]. split; [now left|].
  destruct Hpub as [Hpub | Hpub]; [now left | congruence].
Qed.

(** The registration loop touches [registered] only. *)
Lemma wait_registration_bringup (Q : bool -> BringUp -> Prop) :
  forall (n : nat) (i : Z) (v : BringUp),
    bringup_ok v -> writes v = [] ->
    (forall b, Q b (with_registered v (b || registered v))) ->
    wp BringUpMonitor bringup_ok (fun _ => True) (wait_registration n i) Q v.
Proof.
  induction n as [|n IH]; intros i v Hok Hw HQ.
  - cbn. split; [exact Hok|].
    specialize (HQ false). cbn in HQ. now rewrite with_registered_same in HQ.
  - cbn [wait_registration]. unfold AT, askS, println, call.
    cbn [bind]. apply wp_AskS; [exact Hok|]. intros s.
    assert (Hstep : m_step BringUpMonitor v (ES (sendATCommand "AT+CREG?" 1000) s) =
                    with_registered v ((found s ",1" || found s ",5") || registered v)).
    { unfold with_registered. cbn. rewrite Hw. reflexivity. }
    rewrite Hstep. clear Hstep.
    destruct (found s ",1" || found s ",5") eqn:Hc.
    + cbn [orb]. cbn [bind].
      apply wp_Do; [now apply bringup_ok_with_registered|].
      apply wp_Ret; [now apply bringup_ok_with_registered|].
      apply (HQ true).
    + cbn [orb]. rewrite with_registered_same. cbn [bind].
      apply wp_Do; [exact Hok|].
      apply wp_Do; [exact Hok|].
      cbn [m_step BringUpMonitor bringup_step].
      apply IH; assumption.
Qed.

Ltac bringup_loop :=
  first [ apply wp_neutral;
          [apply configure_pins_bringup | bringup_tac | intros []; cbv beta]
        | apply wait_registration_bringup;
          [bringup_tac | reflexivity | intros [|]; cbv beta; wp_state] ].

Lemma init_bringup :
  wp BringUpMonitor bringup_ok (fun _ => True) (vInitTask pdMS_TO_TICKS)
     (fun _ _ => False) (m_init BringUpMonitor).
Proof.
  unfold_code. wp_walk bringup_tac bringup_loop.
Qed.

End BringUpOfInitializer.

(** *** The system of four tasks *)

Section System.
Variable pdMS_TO_TICKS : Z -> Z.
Variable sched : nat -> TaskId.
Variable env : nat -> Input.

Local Notation "'sys'" := (run_system pdMS_TO_TICKS sched env).

Lemma step_cases (w : World) (t : TaskId) (x : Input) :
  step pdMS_TO_TICKS w t x = w \/
  exists e k,
    step pdMS_TO_TICKS w t x =
      record w t e k (flag_after w e) (mutex_after w t e) /\
    answer_fits w e.
Proof.
  unfold step.
  destruct (resume pdMS_TO_TICKS t (tasks w t)) as [l| |c k|q k|q k|q k].
  - now left.
  - now left.
  - right. exists (EDo c), k. destruct c; cbn; auto.
  - destruct q as [ticks| | |created].
    + destruct (xSIM7600Mutex w) as [h|] eqn:Hm.
      * destruct (in_timeout x); [|now left].
        right. exists (EB (xSemaphoreTake ticks) false), (k false).
        cbn. rewrite Hm. auto.
      * right. exists (EB (xSemaphoreTake ticks) true), (k true).
        cbn. rewrite Hm. auto.
    + right. exists (EB get_mqttConnected (mqttConnected w)), (k (mqttConnected w)).
      cbn. auto.
    + right. exists (EB mcp_begin_I2C (in_bool x)), (k (in_bool x)). cbn. auto.
    + right. exists (EB (has_handle created) (in_bool x)), (k (in_bool x)).
      cbn. auto.
  - right. exists (ES q (in_string x)), (k (in_string x)). cbn. auto.
  - right. exists (EN q (in_num x)), (k (in_num x)). cbn. auto.
Qed.

Lemma view_record (M : Monitor) (t' : TaskId) (w : World) (t : TaskId) (e : Ev)
      (k : prog Local) (f : bool) (mu : option TaskId) :
  view M t' (record w t e k f mu) =
  if TaskId_eqb t t' then m_step M (view M t' w) e else view M t' w.
Proof.
  unfold view, record. cbn [trace]. rewrite calls_of_snoc.
  destruct (TaskId_eqb t t'); [apply observe_snoc | reflexivity].
Qed.

(** The three invariants, in every state of the system. *)
Lemma lock_always (n : nat) (t : TaskId) :
  wp LockMonitor lock_ok lock_free (tasks (sys n) t) lock_rest
     (view LockMonitor t (sys n)).
Proof.
  apply system_sound.
  - intros l m. apply code_lock.
  - unfold lock_rest, lock_ok, lock_free. cbn. auto.
Qed.

Lemma gate_always (n : nat) (t : TaskId) :
  t <> InitTask ->
  gate_ok (view GateMonitor t (sys n)).
Proof.
  intros Ht.
  apply (system_inv GateMonitor gate_ok (fun _ => True) pdMS_TO_TICKS t gate_rest).
  - intros l m. now apply code_gate.
  - unfold gate_rest, gate_ok. cbn. auto.
Qed.

Lemma bringup_always (n : nat) :
  bringup_ok (view BringUpMonitor InitTask (sys n)).
Proof.
  apply (system_inv BringUpMonitor bringup_ok (fun _ => True) pdMS_TO_TICKS InitTask
           (fun _ v => v = m_init BringUpMonitor)).
  - intros l m ->. cbn [code].
    apply (wp_mono _ _ _ _ (fun _ _ => False)); [tauto|].
    apply init_bringup.
  - reflexivity.
Qed.


Lemma sys_S (n : nat) : sys (S n) = step pdMS_TO_TICKS (sys n) (sched n) (env n).
Proof. reflexivity. Qed.

(** The mutex is held by the task whose calls say so. *)
Lemma holds_held (n : nat) (t : TaskId) :
  holds (sys n) t = held (view LockMonitor t (sys n)).
Proof.
  induction n as [|n IH] in t |- *; [reflexivity|].
  rewrite sys_S.
  destruct (step_cases (sys n) (sched n) (env n)) as [Hs | [e [k [Hs Hfit]]]];
    rewrite Hs; [apply IH|].
  rewrite view_record. clear Hs.
  revert e k Hfit. generalize (sched n). generalize dependent (sys n).
  intros w IH t' e k Hfit.
  unfold holds, record. cbn [xSIM7600Mutex].
  pose proof (IH t) as IHt. pose proof (IH t') as IHt'.
  unfold holds in IHt, IHt'.
  destruct (TaskId_eqb t' t) eqn:E.
  - apply TaskId_eqb_eq in E. subst t'.
    destruct e as [c|q b|q s|q z]; try exact IHt.
    + destruct c; try exact IHt. cbn.
      unfold holds. 
      destruct (xSIM7600Mutex w) as [h|]; cbn in *.
      * destruct (TaskId_eqb h t) eqn:Eh; rewrite <- IHt; cbn; [reflexivity|].
        now rewrite Eh.
      * now rewrite <- IHt.
    + destruct q; try exact IHt. cbn in Hfit. cbn.
      destruct (xSIM7600Mutex w) as [h|]; subst b; cbn.
      * exact IHt.
      * rewrite <- IHt. cbn. now rewrite TaskId_eqb_refl.
  - destruct e as [c|q b|q s|q z]; try exact IHt.
    + destruct c; try exact IHt. cbn. unfold holds.
      destruct (xSIM7600Mutex w) as [h|]; cbn in *; [|exact IHt].
      destruct (TaskId_eqb h t') eqn:Eh; [|exact IHt].
      apply TaskId_eqb_eq in Eh. subst h. rewrite E in IHt. exact IHt.
    + destruct q; try exact IHt. cbn in Hfit. cbn.
      destruct (xSIM7600Mutex w) as [h|]; subst b; cbn; [exact IHt|].
      rewrite E. exact IHt.
Qed.

(** A task at rest does not hold the mutex. *)
Lemma rest_free (n : nat) (t : TaskId) :
  at_rest (tasks (sys n) t) = true -> holds (sys n) t = false.
Proof.
  intros Hrest. rewrite holds_held.
  pose proof (lock_always n t) as H.
  destruct (tasks (sys n) t); try discriminate; cbn in H.
  - apply H.
  - apply H.
Qed.


(** **** The flag *)

Lemma writes_step (v : BringUp) (e : Ev) :
  writes (bringup_step v e) =
  writes v ++ match e with EDo (set_mqttConnected b) => [b] | _ => [] end.
Proof.
  destruct e as [c|q b|q s|q z]; cbn; try (now rewrite app_nil_r).
  - destruct c; cbn; try (now rewrite app_nil_r). reflexivity.
  - destruct q; cbn. now rewrite app_nil_r.
Qed.

Lemma wrote_step (v : GateView) (b : bool) :
  wrote (gate_step v (EDo (set_mqttConnected b))) = true.
Proof. reflexivity. Qed.

Lemma bringup_ok_writes (v : BringUp) :
  bringup_ok v ->
  writes v = [] \/ writes v = [false] \/ writes v = [true].
Proof. intros [_ [_ [[H | [H | [H _]]] _]]]; auto. Qed.

(** What one step does to the flag and to the Initializer's writes. *)
Lemma flag_step (n : nat) :
  let v := view BringUpMonitor InitTask (sys n) in
  let v' := view BringUpMonitor InitTask (sys (S n)) in
  (mqttConnected (sys (S n)) = mqttConnected (sys n) /\ writes v' = writes v) \/
  (exists b, mqttConnected (sys (S n)) = b /\ writes v' = writes v ++ [b]).
Proof.
  cbn zeta.
  pose proof (bringup_always (S n)) as Hb.
  pose proof (fun t => gate_always (S n) t) as Hg.
  rewrite sys_S in *.
  destruct (step_cases (sys n) (sched n) (env n)) as [Hs | [e [k [Hs Hfit]]]];
    rewrite Hs in *; [left; auto|].
  rewrite view_record in *.
  destruct e as [c|q b|q s|q z];
    try (left; split; [reflexivity|];
         destruct (TaskId_eqb (sched n) InitTask); [rewrite writes_step; apply app_nil_r | reflexivity]).
  destruct c;
    try (left; split; [reflexivity|];
         destruct (TaskId_eqb (sched n) InitTask); [rewrite writes_step; apply app_nil_r | reflexivity]).
  destruct (TaskId_eqb (sched n) InitTask) eqn:E.
  - right. exists b. split; [reflexivity|]. now rewrite writes_step.
  - apply TaskId_eqb_neq in E. specialize (Hg _ E).
    rewrite view_record, TaskId_eqb_refl in Hg.
    destruct Hg as [_ Hw]. rewrite wrote_step in Hw. discriminate.
Qed.

(** The flag is true exactly when the Initializer has assigned true. *)
Lemma flag_is_written (n : nat) :
  mqttConnected (sys n) =
  existsb (fun b => b) (writes (view BringUpMonitor InitTask (sys n))).
Proof.
  induction n as [|n IH]; [reflexivity|].
  pose proof (bringup_ok_writes _ (bringup_always (S n))) as Hok.
  destruct (flag_step n) as [[Hf Hw] | [b [Hf Hw]]].
  - rewrite Hf, Hw. exact IH.
  - rewrite Hf. rewrite Hw in *.
    destruct (writes (view BringUpMonitor InitTask (sys n))) as [|x [|y l]];
      cbn in *.
    + now rewrite orb_false_r.
    + destruct Hok as [H | [H | H]]; discriminate.
    + destruct Hok as [H | [H | H]]; discriminate.
Qed.

(** Once true, the flag stays true. *)
Lemma flag_stays (n : nat) :
  mqttConnected (sys n) = true -> mqttConnected (sys (S n)) = true.
Proof.
  intros Hflag.
  pose proof (bringup_ok_writes _ (bringup_always (S n))) as Hok.
  pose proof (flag_is_written n) as Hn. rewrite Hflag in Hn.
  destruct (flag_step n) as [[Hf Hw] | [b [Hf Hw]]].
  - now rewrite Hf.
  - rewrite Hw in Hok.
    destruct (writes (view BringUpMonitor InitTask (sys n))) as [|x [|y l]];
      cbn in *; try discriminate;
      destruct Hok as [H | [H | H]]; discriminate.
Qed.

(** A periodic task that has read true from the flag read it while the
    flag was true. *)
Lemma seen_flag (n : nat) (t : TaskId) :
  seen_ready (view GateMonitor t (sys n)) = true -> mqttConnected (sys n) = true.
Proof.
  induction n as [|n IH]; [discriminate|].
  intros Hseen.
  destruct (mqttConnected (sys n)) eqn:Hflag; [now apply flag_stays|].
  rewrite sys_S in *.
  destruct (step_cases (sys n) (sched n) (env n)) as [Hs | [e [k [Hs Hfit]]]];
    rewrite Hs in *; [discriminate (IH Hseen)|].
  rewrite view_record in Hseen.
  destruct (TaskId_eqb (sched n) t); [|discriminate (IH Hseen)].
  destruct (seen_ready (view GateMonitor t (sys n))) eqn:Hold;
    [discriminate (IH eq_refl)|].
  destruct e as [c|q b|q s|q z]; cbn in Hseen.
  - destruct c; cbn in Hseen; rewrite ?Hold in Hseen; cbn in Hseen;
      congruence.
  - destruct q; cbn in Hseen; rewrite ?Hold in Hseen; cbn in Hseen;
      try congruence;
      destruct b; cbn in Hseen, Hfit; congruence.
  - destruct q. cbn in Hseen. rewrite Hold in Hseen. cbn in Hseen. congruence.
  - rewrite ?Hold in Hseen. congruence.
Qed.


Lemma view_snoc (M : Monitor) (t' : TaskId) (n : nat) (t : TaskId) (e : Ev) :
  trace (sys (S n)) = trace (sys n) ++ [(t, e)] ->
  view M t' (sys (S n)) =
  if TaskId_eqb t t' then m_step M (view M t' (sys n)) e else view M t' (sys n).
Proof.
  intros H. unfold view. rewrite H, calls_of_snoc.
  destruct (TaskId_eqb t t'); [apply observe_snoc | reflexivity].
Qed.

(** A step adds at most one call to the trace. *)
Lemma trace_step (n : nat) :
  sys (S n) = sys n \/
  exists e k,
    sys (S n) = record (sys n) (sched n) e k (flag_after (sys n) e)
                       (mutex_after (sys n) (sched n) e) /\
    answer_fits (sys n) e /\
    trace (sys (S n)) = trace (sys n) ++ [(sched n, e)].
Proof.
  rewrite sys_S.
  destruct (step_cases (sys n) (sched n) (env n)) as [Hs | [e [k [Hs Hfit]]]].
  - now left.
  - right. exists e, k. rewrite Hs. auto.
Qed.

Lemma transport_seen (v : GateView) (e : Ev) :
  is_transport e = true -> early (gate_step v e) = false ->
  seen_ready v = true.
Proof.
  intros He Hearly.
  destruct e as [c|q b|q s|q z]; try discriminate.
  - destruct c; try discriminate; cbn in Hearly;
      destruct (seen_ready v); auto; discriminate.
  - destruct q. cbn in Hearly. destruct (seen_ready v); auto; discriminate.
Qed.

(** While the flag is false no periodic task has used the UART. *)
Lemma no_transport_before_flag (n : nat) :
  mqttConnected (sys n) = false ->
  existsb (by_periodic is_transport) (trace (sys n)) = false.
Proof.
  induction n as [|n IH]; [reflexivity|].
  intros Hflag.
  assert (Hprev : mqttConnected (sys n) = false).
  { destruct (mqttConnected (sys n)) eqn:E; [|reflexivity].
    rewrite (flag_stays n E) in Hflag. discriminate. }
  destruct (trace_step n) as [Hs | [e [k [Hs [Hfit Htr]]]]].
  - rewrite Hs. now apply IH.
  - rewrite Htr, existsb_app, (IH Hprev). cbn. rewrite orb_false_r.
    unfold by_periodic; cbn.
    destruct (TaskId_eqb (sched n) InitTask) eqn:E; [reflexivity|].
    apply TaskId_eqb_neq in E. cbn.
    destruct (is_transport e) eqn:He; [|reflexivity].
    pose proof (gate_always (S n) _ E) as [Hearly _].
    rewrite (view_snoc _ _ _ _ _ Htr), TaskId_eqb_refl in Hearly.
    pose proof (seen_flag n _ (transport_seen _ _ He Hearly)) as Hf.
    congruence.
Qed.

(** The flag is false at the start; if it is true there is a step at
    which it became true. *)
Lemma flag_origin (n : nat) :
  mqttConnected (sys n) = true ->
  exists j, (j < n)%nat /\
            mqttConnected (sys j) = false /\ mqttConnected (sys (S j)) = true.
Proof.
  induction n as [|n IH]; [discriminate|].
  intros Hflag.
  destruct (mqttConnected (sys n)) eqn:E.
  - destruct (IH eq_refl) as [j [Hj H]]. exists j. split; [lia | exact H].
  - exists n. split; [lia | split; assumption].
Qed.

(** The step at which the flag becomes true is the Initializer's
    assignment, made when the bring-up is complete. *)
Lemma flag_rise (j : nat) :
  mqttConnected (sys j) = false -> mqttConnected (sys (S j)) = true ->
  trace (sys (S j)) =
    trace (sys j) ++ [(InitTask, EDo (set_mqttConnected true))] /\
  bringup_complete (view BringUpMonitor InitTask (sys j)) = true.
Proof.
  intros Hlow Hhigh.
  destruct (trace_step j) as [Hs | [e [k [Hs [Hfit Htr]]]]].
  - rewrite Hs in Hhigh. congruence.
  - assert (He : e = EDo (set_mqttConnected true)).
    { rewrite Hs in Hhigh. unfold record in Hhigh. cbn in Hhigh.
      destruct e as [c|q b|q s|q z]; cbn in Hhigh; try congruence.
      destruct c; cbn in Hhigh; congruence. }
    subst e.
    destruct (TaskId_eqb (sched j) InitTask) eqn:E.
    + apply TaskId_eqb_eq in E. rewrite E in Htr. split; [exact Htr|].
      pose proof (bringup_always (S j)) as [Hpre _].
      rewrite (view_snoc _ _ _ _ _ Htr), TaskId_eqb_refl in Hpre.
      cbn in Hpre.
      destruct (bringup_complete (view BringUpMonitor InitTask (sys j)));
        [reflexivity | discriminate].
    + apply TaskId_eqb_neq in E.
      pose proof (gate_always (S j) _ E) as [_ Hw].
      rewrite (view_snoc _ _ _ _ _ Htr), TaskId_eqb_refl in Hw.
      discriminate.
Qed.

End System.

(** *** After the Initializer is gone *)

Section AfterDeletion.
Variable pdMS_TO_TICKS : Z -> Z.
Variable sched : nat -> TaskId.
Variable env : nat -> Input.

Local Notation "'sys'" := (run_system pdMS_TO_TICKS sched env).




End AfterDeletion.

(** *** Cycles of the periodic tasks *)

(** Runs a cycle against an oracle whose answers are decided by cases. *)
Ltac exec_walk :=
  repeat (cbn -[dec u32 String.append strlen Z.div status_message];
          match goal with
          | |- context [ans_bool ?o ?i ?q] => destruct (ans_bool o i q) eqn:?
          end);
  cbn -[dec u32 String.append strlen Z.div status_message].

Section Cycles.
Variable pdMS_TO_TICKS : Z -> Z.
Variable o : Oracle.

Lemma publish_cycle (i : nat) (lw mc : Z) :
  exists tr mc',
    exec o i (code pdMS_TO_TICKS PublishTask (PublishLoop lw mc)) =
      (EDo (vTaskDelayUntil lw (pdMS_TO_TICKS 1000)) :: tr,
       Returned (PublishLoop (u32 (lw + pdMS_TO_TICKS 1000)) mc')) /\
    filter is_delay_until tr = [].
Proof.
  exec_walk; eexists; eexists; (split; [reflexivity|]); reflexivity.
Qed.

Lemma watchdog_cycle (i : nat) (lw hb : Z) :
  exists tr hb',
    exec o i (code pdMS_TO_TICKS WatchdogTask (WatchdogLoop lw hb)) =
      (EDo (vTaskDelayUntil lw (pdMS_TO_TICKS 60000)) :: tr,
       Returned (WatchdogLoop (u32 (lw + pdMS_TO_TICKS 60000)) hb')) /\
    filter is_delay_until tr = [].
Proof.
  exec_walk; eexists; eexists; (split; [reflexivity|]); reflexivity.
Qed.

Lemma receive_cycle (i : nat) :
  exists tr,
    exec o i (code pdMS_TO_TICKS ReceiveTask ReceiveLoop) =
      (tr ++ [EDo (vTaskDelay (pdMS_TO_TICKS 100))], Returned ReceiveLoop) /\
    filter is_delay_until tr = [] /\ filter is_delay tr = [].
Proof.
  exec_walk.
  - exists [EB get_mqttConnected true; EB (xSemaphoreTake (pdMS_TO_TICKS 500)) true;
            EDo checkIncomingMessages; EDo xSemaphoreGive]. auto.
  - exists [EB get_mqttConnected true; EB (xSemaphoreTake (pdMS_TO_TICKS 500)) false]. auto.
  - exists [EB get_mqttConnected false]. auto.
Qed.

Lemma u32_range (z : Z) : 0 <= u32 z < two32.
Proof. unfold u32. apply Z.mod_pos_bound. reflexivity. Qed.

Lemma u32_small (z : Z) : 0 <= z < two32 -> u32 z = z.
Proof. intros H. unfold u32. now apply Z.mod_small. Qed.

Lemma u32_accumulate (lw f : Z) (j : nat) :
  u32 (u32 (lw + f) + Z.of_nat j * f) = u32 (lw + Z.of_nat (S j) * f).
Proof.
  unfold u32. rewrite Zplus_mod_idemp_l. f_equal. lia.
Qed.

(** The wake times handed to [vTaskDelayUntil] over [k] cycles. *)
Lemma delay_until_schedule (t : TaskId) (f : Z) (loop : Z -> Z -> Local) :
  (forall i lw x, exists tr x',
      exec o i (code pdMS_TO_TICKS t (loop lw x)) =
        (EDo (vTaskDelayUntil lw f) :: tr, Returned (loop (u32 (lw + f)) x')) /\
      filter is_delay_until tr = []) ->
  forall (k i : nat) (lw x : Z),
    0 <= lw < two32 ->
    exists x',
      snd (run pdMS_TO_TICKS o t k i (loop lw x)) =
        Returned (loop (u32 (lw + Z.of_nat k * f)) x') /\
      filter is_delay_until (fst (run pdMS_TO_TICKS o t k i (loop lw x))) =
        map (fun j => EDo (vTaskDelayUntil (u32 (lw + Z.of_nat j * f)) f))
            (seq 0 k).
Proof.
  intros Hcycle.
  induction k as [|k IH]; intros i lw x Hlw.
  - exists x. cbn. rewrite Z.add_0_r, u32_small by exact Hlw. auto.
  - cbn [run].
    destruct (Hcycle i lw x) as [tr [x1 [He Hf]]]. rewrite He.
    destruct (IH (i + List.length (EDo (vTaskDelayUntil lw f) :: tr))%nat
                 (u32 (lw + f)) x1 (u32_range _)) as [x' [Hr Hd]].
    destruct (run pdMS_TO_TICKS o t k
                (i + List.length (EDo (vTaskDelayUntil lw f) :: tr))
                (loop (u32 (lw + f)) x1)) as [tr' r'].
    cbn [fst snd] in *.
    exists x'. split.
    + rewrite Hr. now rewrite u32_accumulate.
    + cbn [app filter is_delay_until]. rewrite filter_app, Hf, Hd.
      cbn [app seq map]. f_equal.
      * now rewrite Z.mul_0_l, Z.add_0_r, u32_small.
      * rewrite <- seq_shift, map_map. apply map_ext. intros j.
        now rewrite u32_accumulate.
Qed.

Lemma receive_schedule :
  forall (k i : nat),
    snd (run pdMS_TO_TICKS o ReceiveTask k i ReceiveLoop) = Returned ReceiveLoop /\
    filter is_delay_until (fst (run pdMS_TO_TICKS o ReceiveTask k i ReceiveLoop)) = [] /\
    filter is_delay (fst (run pdMS_TO_TICKS o ReceiveTask k i ReceiveLoop)) =
      repeat (EDo (vTaskDelay (pdMS_TO_TICKS 100))) k.
Proof.
  induction k as [|k IH]; intros i; [cbn; auto|].
  cbn [run].
  destruct (receive_cycle i) as [tr [He [Hu Hd]]]. rewrite He.
  destruct (IH (i + List.length (tr ++ [EDo (vTaskDelay (pdMS_TO_TICKS 100))]))%nat)
    as [Hr [Hu' Hd']].
  destruct (run pdMS_TO_TICKS o ReceiveTask k
              (i + List.length (tr ++ [EDo (vTaskDelay (pdMS_TO_TICKS 100))]))
              ReceiveLoop) as [tr' r'].
  cbn [fst snd] in *.
  split; [exact Hr|]. split.
  - rewrite !filter_app, Hu, Hu'. reflexivity.
  - rewrite !filter_app, Hd, Hd'. reflexivity.
Qed.

Lemma wakes_app (extra : Ev -> Z) (a b : list Ev) :
  forall now,
    wakes_from_delay_until extra now (a ++ b) =
    wakes_from_delay_until extra now a ++
    wakes_from_delay_until extra (ends_at extra now a) b.
Proof.
  induction a as [|e a IH]; intros now; [reflexivity|].
  cbn [app wakes_from_delay_until ends_at fold_left].
  destruct (is_delay_until e); rewrite IH; reflexivity.
Qed.

(** A cycle of the Publisher when everything works: it asks to be woken
    at [lw + 1000], and ends 1000 ticks and the wait for the mutex after
    it woke. *)
Lemma publishing_cycle (i : nat) (lw mc : Z) :
  exists tr,
    exec all_well i (code one_kHz PublishTask (PublishLoop lw mc)) =
      (EDo (vTaskDelayUntil lw 1000) :: tr,
       Returned (PublishLoop (u32 (lw + 1000)) (u32 (mc + 1)))) /\
    filter is_delay_until tr = [] /\
    forall w t,
      wakes_from_delay_until (lock_wait w) t tr = [] /\
      ends_at (lock_wait w) t tr = t + w + 1000.
Proof.
  eexists. split; [reflexivity|]. split; [reflexivity|].
  intros w t. split; [reflexivity|].
  unfold ends_at. cbn [fold_left finish lock_wait]. unfold one_kHz. lia.
Qed.

(** A cycle of the Watchdog when everything works: it asks to be woken
    at [lw + 60000], and ends the wait for the mutex after it woke. *)
Lemma watching_cycle (i : nat) (lw hb : Z) :
  exists tr,
    exec all_well i (code one_kHz WatchdogTask (WatchdogLoop lw hb)) =
      (EDo (vTaskDelayUntil lw 60000) :: tr,
       Returned (WatchdogLoop (u32 (lw + 60000)) 0)) /\
    filter is_delay_until tr = [] /\
    forall w t,
      wakes_from_delay_until (lock_wait w) t tr = [] /\
      ends_at (lock_wait w) t tr = t + w.
Proof.
  eexists. split; [reflexivity|]. split; [reflexivity|].
  intros w t. split; [reflexivity|].
  unfold ends_at. cbn [fold_left finish lock_wait]. unfold one_kHz. lia.
Qed.

Lemma publisher_falls_behind (w : Z) :
  0 <= w ->
  forall (k i : nat) (lw mc now : Z),
    0 <= lw -> lw + 1000 * Z.of_nat k < two32 ->
    let tr := fst (run one_kHz all_well PublishTask k i (PublishLoop lw mc)) in
    let late := Z.max now (lw + 1000) - (lw + 1000) in
    map scheduled (filter is_delay_until tr) =
      map (fun j => lw + 1000 * (Z.of_nat j + 1)) (seq 0 k) /\
    wakes_from_delay_until (lock_wait w) now tr =
      map (fun j => lw + 1000 * (Z.of_nat j + 1) + late + w * Z.of_nat j)
          (seq 0 k).
Proof.
  intros Hw. induction k as [|k IH]; intros i lw mc now Hlw Hk; cbn zeta.
  - split; reflexivity.
  - cbn [run].
    destruct (publishing_cycle i lw mc) as [tr [He [Hf Ht]]]. rewrite He.
    specialize (IH (i + List.length (EDo (vTaskDelayUntil lw 1000) :: tr))%nat
                   (u32 (lw + 1000)) (u32 (mc + 1))
                   (Z.max now (lw + 1000) + w + 1000)).
    rewrite (u32_small (lw + 1000)) in IH |- * by lia.
    destruct IH as [IHs IHw]; [lia | lia |].
    destruct (run one_kHz all_well PublishTask k
                (i + List.length (EDo (vTaskDelayUntil lw 1000) :: tr))
                (PublishLoop (lw + 1000) (u32 (mc + 1)))) as [tr' r'].
    cbn [fst] in *.
    change ((EDo (vTaskDelayUntil lw 1000) :: tr) ++ tr')
      with (EDo (vTaskDelayUntil lw 1000) :: (tr ++ tr')).
    cbn [filter is_delay_until map scheduled wakes_from_delay_until finish
         lock_wait seq].
    rewrite filter_app, map_app, Hf, wakes_app.
    destruct (Ht w (Z.max now (lw + 1000) + 0)) as [Hnone Hend].
    rewrite Hnone, Hend. cbn [map app].
    replace (Z.max now (lw + 1000) + 0 + w + 1000)
      with (Z.max now (lw + 1000) + w + 1000) by lia.
    rewrite IHs, IHw, <- !seq_shift, !map_map.
    split; f_equal; try (apply map_ext; intros j);
      rewrite ?Nat2Z.inj_succ; lia.
Qed.

Lemma watchdog_keeps_up (w : Z) :
  0 <= w <= 60000 ->
  forall (k i : nat) (lw hb now : Z),
    0 <= lw -> lw + 60000 * Z.of_nat k < two32 -> now <= lw + 60000 ->
    let tr := fst (run one_kHz all_well WatchdogTask k i (WatchdogLoop lw hb)) in
    map scheduled (filter is_delay_until tr) =
      map (fun j => lw + 60000 * (Z.of_nat j + 1)) (seq 0 k) /\
    wakes_from_delay_until (lock_wait w) now tr =
      map (fun j => lw + 60000 * (Z.of_nat j + 1)) (seq 0 k).
Proof.
  intros Hw. induction k as [|k IH]; intros i lw hb now Hlw Hk Hnow; cbn zeta.
  - split; reflexivity.
  - cbn [run].
    destruct (watching_cycle i lw hb) as [tr [He [Hf Ht]]]. rewrite He.
    specialize (IH (i + List.length (EDo (vTaskDelayUntil lw 60000) :: tr))%nat
                   (u32 (lw + 60000)) 0 (lw + 60000 + w)).
    rewrite (u32_small (lw + 60000)) in IH |- * by lia.
    destruct IH as [IHs IHw]; [lia | lia | lia |].
    destruct (run one_kHz all_well WatchdogTask k
                (i + List.length (EDo (vTaskDelayUntil lw 60000) :: tr))
                (WatchdogLoop (lw + 60000) 0)) as [tr' r'].
    cbn [fst] in *.
    change ((EDo (vTaskDelayUntil lw 60000) :: tr) ++ tr')
      with (EDo (vTaskDelayUntil lw 60000) :: (tr ++ tr')).
    cbn [filter is_delay_until map scheduled wakes_from_delay_until finish
         lock_wait seq].
    rewrite filter_app, map_app, Hf, wakes_app.
    destruct (Ht w (Z.max now (lw + 60000) + 0)) as [Hnone Hend].
    rewrite Hnone, Hend. cbn [map app].
    replace (Z.max now (lw + 60000) + 0 + w) with (lw + 60000 + w) by lia.
    rewrite IHs, IHw, <- !seq_shift, !map_map.
    split; f_equal; try (apply map_ext; intros j);
      rewrite ?Nat2Z.inj_succ; lia.
Qed.

(** C8, as the code has it.  The Publisher and the Watchdog ask for an
    absolute schedule: over any number of cycles, whatever the mutex and
    the modem do, the wake time handed to [vTaskDelayUntil] in cycle [j]
    is the initial one plus [j] periods (modulo 2^32), and so is the one
    kept for the next cycle.  The ReceivePoller does not: it never calls
    [vTaskDelayUntil], and ends each cycle with a relative
    [vTaskDelay] of 100 ms.  The schedule asked for is not always kept.
    A cycle of the Publisher that publishes sleeps 5 x 200 ms, its whole
    period: with one tick per millisecond, when everything works and each
    wait for the mutex takes [w] ticks, the Publisher asks in cycle [j]
    for the tick [xLastWakeTime + 1000 (j + 1)] and wakes [w j] ticks
    after it, later and later.  The Watchdog, whose cycle is short, wakes
    at the ticks it asks for as long as a wait takes no more than its
    period. *)
Theorem wake_times_of_periodic_tasks :
  (forall (k i : nat) (xLastWakeTime messageCount : Z),
     0 <= xLastWakeTime < two32 ->
     let r := run pdMS_TO_TICKS o PublishTask k i
                  (PublishLoop xLastWakeTime messageCount) in
     let period := pdMS_TO_TICKS 1000 in
     (exists c, snd r =
        Returned (PublishLoop (u32 (xLastWakeTime + Z.of_nat k * period)) c)) /\
     filter is_delay_until (fst r) =
       map (fun j => EDo (vTaskDelayUntil
                            (u32 (xLastWakeTime + Z.of_nat j * period)) period))
           (seq 0 k)) /\
  (forall (k i : nat) (xLastWakeTime lastHeartbeat : Z),
     0 <= xLastWakeTime < two32 ->
     let r := run pdMS_TO_TICKS o WatchdogTask k i
                  (WatchdogLoop xLastWakeTime lastHeartbeat) in
     let period := pdMS_TO_TICKS 60000 in
     (exists h, snd r =
        Returned (WatchdogLoop (u32 (xLastWakeTime + Z.of_nat k * period)) h)) /\
     filter is_delay_until (fst r) =
       map (fun j => EDo (vTaskDelayUntil
                            (u32 (xLastWakeTime + Z.of_nat j * period)) period))
           (seq 0 k)) /\
  (forall (k i : nat),
     let r := run pdMS_TO_TICKS o ReceiveTask k i ReceiveLoop in
     snd r = Returned ReceiveLoop /\
     filter is_delay_until (fst r) = [] /\
     filter is_delay (fst r) = repeat (EDo (vTaskDelay (pdMS_TO_TICKS 100))) k) /\
  (forall (k i : nat) (w xLastWakeTime messageCount : Z),
     0 <= w -> 0 <= xLastWakeTime ->
     xLastWakeTime + 1000 * Z.of_nat k < two32 ->
     let tr := fst (run one_kHz all_well PublishTask k i
                        (PublishLoop xLastWakeTime messageCount)) in
     map scheduled (filter is_delay_until tr) =
       map (fun j => xLastWakeTime + 1000 * (Z.of_nat j + 1)) (seq 0 k) /\
     wakes_from_delay_until (lock_wait w) xLastWakeTime tr =
       map (fun j => xLastWakeTime + 1000 * (Z.of_nat j + 1) + w * Z.of_nat j)
           (seq 0 k)) /\
  (forall (k i : nat) (w xLastWakeTime lastHeartbeat : Z),
     0 <= w <= 60000 -> 0 <= xLastWakeTime ->
     xLastWakeTime + 60000 * Z.of_nat k < two32 ->
     let tr := fst (run one_kHz all_well WatchdogTask k i
                        (WatchdogLoop xLastWakeTime lastHeartbeat)) in
     map scheduled (filter is_delay_until tr) =
       map (fun j => xLastWakeTime + 60000 * (Z.of_nat j + 1)) (seq 0 k) /\
     wakes_from_delay_until (lock_wait w) xLastWakeTime tr =
       map (fun j => xLastWakeTime + 60000 * (Z.of_nat j + 1)) (seq 0 k)).
Proof.
  split; [|split; [|split; [|split]]].
  - intros k i lw mc Hlw. cbn zeta.
    destruct (delay_until_schedule PublishTask (pdMS_TO_TICKS 1000) PublishLoop
                (fun i lw x => publish_cycle i lw x) k i lw mc Hlw) as [c [Hr Hd]].
    split; [exists c; exact Hr | exact Hd].
  - intros k i lw hb Hlw. cbn zeta.
    destruct (delay_until_schedule WatchdogTask (pdMS_TO_TICKS 60000) WatchdogLoop
                (fun i lw x => watchdog_cycle i lw x) k i lw hb Hlw) as [c [Hr Hd]].
    split; [exists c; exact Hr | exact Hd].
  - intros k i. apply receive_schedule.
  - intros k i w lw mc Hw Hlw Hk.
    destruct (publisher_falls_behind w Hw k i lw mc lw) as [Hs Hwake]; try lia.
    split; [exact Hs|]. cbn zeta in Hwake. rewrite Hwake.
    apply map_ext. intros j. lia.
  - intros k i w lw hb Hw Hlw Hk.
    destruct (watchdog_keeps_up w Hw k i lw hb lw) as [Hs Hwake]; try lia.
    split; [exact Hs | exact Hwake].
Qed.

End Cycles.

Lemma wake_times_of_periodic_tasks_witness :
  (let r := run one_kHz all_well PublishTask 3 0 (PublishLoop 4294967000 0) in
   (exists c, snd r = Returned (PublishLoop (u32 (4294967000 + 3 * 1000)) c)) /\
   filter is_delay_until (fst r) =
     map (fun j => EDo (vTaskDelayUntil (u32 (4294967000 + Z.of_nat j * 1000)) 1000))
         (seq 0 3)) /\
  (let tr := fst (run one_kHz all_well PublishTask 4 0 (PublishLoop 0 0)) in
   map scheduled (filter is_delay_until tr) = [1000; 2000; 3000; 4000] /\
   wakes_from_delay_until (lock_wait 300) 0 tr = [1000; 2300; 3600; 4900]).
Proof.
  split.
  - apply (proj1 (wake_times_of_periodic_tasks one_kHz all_well) 3%nat 0%nat
             4294967000 0).
    unfold two32. lia.
  - apply (proj1 (proj2 (proj2 (proj2
             (wake_times_of_periodic_tasks one_kHz all_well))))
             4%nat 0%nat 300 0 0).
    + lia.
    + lia.
    + reflexivity.
Defined.

(** C8 as stated fails for the ReceivePoller: when one acquisition of the
    mutex takes its full 500 ms, the next wake-up is 600 ticks after the
    previous one instead of 100. *)
Lemma receive_poller_drifts :
  let tr := fst (run one_kHz mutex_busy_once ReceiveTask 2 0 ReceiveLoop) in
  let wakes := wake_times 0 0 tr (fun i => if Nat.eqb i 6 then 500 else 0) in
  wakes = [100; 700] /\
  ~ (Z.abs (nth 1 wakes 0 - (nth 0 wakes 0 + 1 * one_kHz 100)) <= 1).
Proof.
  vm_compute. split; [reflexivity|]. intros H. apply H. reflexivity.
Qed.

Section OneCycle.
Variable pdMS_TO_TICKS : Z -> Z.
Variable o : Oracle.

Ltac no_such_call H :=
  cbn in H; repeat (destruct H as [H | H]; [discriminate H|]); contradiction.

(** C6, as the code has it.  A Publisher cycle that obtains the mutex
    writes, while holding it, the five lines of the publish sub-protocol
    straight to the modem, each followed by a delay of 200 ms, and then
    releases the mutex; it makes no call of the executor, so no answer of
    the modem is read. *)
Theorem publisher_cycle_writes_five_lines (i : nat) (xLastWakeTime messageCount : Z) :
  let r := exec o i (code pdMS_TO_TICKS PublishTask
                          (PublishLoop xLastWakeTime messageCount)) in
  In (EB (xSemaphoreTake (pdMS_TO_TICKS 10000)) true) (fst r) ->
  exists now,
    let count := u32 (messageCount + 1) in
    let msg := status_message count now in
    fst r =
      [ EDo (vTaskDelayUntil xLastWakeTime (pdMS_TO_TICKS 1000));
        EB get_mqttConnected true;
        EN millis now;
        EB (xSemaphoreTake (pdMS_TO_TICKS 10000)) true;
        EDo (Serial_println ("Publishing: " ++ msg)) ] ++
      publish_calls pdMS_TO_TICKS test_topic_pub msg ++
      [ EDo xSemaphoreGive ] /\
    snd r = Returned (PublishLoop (u32 (xLastWakeTime + pdMS_TO_TICKS 1000)) count) /\
    filter is_executor_call (fst r) = [].
Proof.
  cbn zeta. exec_walk; intros H.
  - eexists. split; [reflexivity|]. split; reflexivity.
  - no_such_call H.
  - no_such_call H.
Qed.

(** C7, as the code has it.  When the mutex is not obtained in a cycle,
    the Publisher and the Watchdog use the UART not at all, print their
    report of the miss and go back to the head of their loop; the
    ReceivePoller uses the UART not at all and goes back to the head of
    its loop as well, but prints nothing. *)
Theorem missed_mutex_skips_the_cycle (i : nat) :
  (forall xLastWakeTime messageCount : Z,
     let r := exec o i (code pdMS_TO_TICKS PublishTask
                             (PublishLoop xLastWakeTime messageCount)) in
     In (EB (xSemaphoreTake (pdMS_TO_TICKS 10000)) false) (fst r) ->
     existsb is_transport (fst r) = false /\
     filter is_report (fst r) =
       [EDo (Serial_println "Failed to acquire mutex for publish!")] /\
     exists c, snd r =
       Returned (PublishLoop (u32 (xLastWakeTime + pdMS_TO_TICKS 1000)) c)) /\
  (forall xLastWakeTime lastHeartbeat : Z,
     let r := exec o i (code pdMS_TO_TICKS WatchdogTask
                             (WatchdogLoop xLastWakeTime lastHeartbeat)) in
     In (EB (xSemaphoreTake (pdMS_TO_TICKS 5000)) false) (fst r) ->
     existsb is_transport (fst r) = false /\
     filter is_report (fst r) =
       [EDo (Serial_println "Watchdog: Failed to acquire mutex!")] /\
     exists h, snd r =
       Returned (WatchdogLoop (u32 (xLastWakeTime + pdMS_TO_TICKS 60000)) h)) /\
  (let r := exec o i (code pdMS_TO_TICKS ReceiveTask ReceiveLoop) in
   In (EB (xSemaphoreTake (pdMS_TO_TICKS 500)) false) (fst r) ->
   existsb is_transport (fst r) = false /\
   filter is_report (fst r) = [] /\
   snd r = Returned ReceiveLoop).
Proof.
  split; [|split].
  - intros lw mc. cbn zeta. exec_walk; intros H.
    + no_such_call H.
    + repeat split. eexists. reflexivity.
    + no_such_call H.
  - intros lw hb. cbn zeta. exec_walk; intros H;
      first [ no_such_call H | repeat split; eexists; reflexivity ].
  - cbn zeta. exec_walk; intros H.
    + no_such_call H.
    + repeat split.
    + no_such_call H.
Qed.

End OneCycle.

Lemma publisher_cycle_writes_five_lines_witness :
  exists now,
    let count := u32 (41 + 1) in
    let msg := status_message count now in
    fst (exec all_well 0 (code one_kHz PublishTask (PublishLoop 7000 41))) =
      [ EDo (vTaskDelayUntil 7000 (one_kHz 1000));
        EB get_mqttConnected true;
        EN millis now;
        EB (xSemaphoreTake (one_kHz 10000)) true;
        EDo (Serial_println ("Publishing: " ++ msg)) ] ++
      publish_calls one_kHz test_topic_pub msg ++
      [ EDo xSemaphoreGive ] /\
    snd (exec all_well 0 (code one_kHz PublishTask (PublishLoop 7000 41))) =
      Returned (PublishLoop (u32 (7000 + one_kHz 1000)) count) /\
    filter is_executor_call
      (fst (exec all_well 0 (code one_kHz PublishTask (PublishLoop 7000 41)))) = [].
Proof.
  apply (publisher_cycle_writes_five_lines one_kHz all_well 0 7000 41).
  vm_compute. do 3 right. left. reflexivity.
Defined.

(** C6 as stated fails: a Publisher cycle that holds the mutex makes no
    call of the executor, not four or five. *)
Lemma publisher_cycle_makes_no_executor_call :
  let tr := fst (exec all_well 0 (code one_kHz PublishTask (PublishLoop 7000 41))) in
  existsb (fun e => match e with
                    | EB (xSemaphoreTake _) true => true
                    | _ => false
                    end) tr = true /\
  ~ (4 <= List.length (filter is_executor_call tr) <= 5)%nat.
Proof.
  vm_compute. split; [reflexivity|]. intros [H _].
  repeat (apply le_S_n in H). inversion H.
Qed.

Lemma missed_mutex_skips_the_cycle_witness :
  existsb is_transport
    (fst (exec mutex_busy 0 (code one_kHz PublishTask (PublishLoop 7000 41)))) = false /\
  filter is_report
    (fst (exec mutex_busy 0 (code one_kHz PublishTask (PublishLoop 7000 41)))) =
    [EDo (Serial_println "Failed to acquire mutex for publish!")] /\
  exists c,
    snd (exec mutex_busy 0 (code one_kHz PublishTask (PublishLoop 7000 41))) =
    Returned (PublishLoop (u32 (7000 + one_kHz 1000)) c).
Proof.
  apply (proj1 (missed_mutex_skips_the_cycle one_kHz mutex_busy 0) 7000 41).
  vm_compute. do 3 right. left. reflexivity.
Defined.

(** C7 as stated fails for the ReceivePoller: a cycle in which it does not
    obtain the mutex prints no report. *)
Lemma receive_poller_misses_silently :
  let tr := fst (exec mutex_busy 0 (code one_kHz ReceiveTask ReceiveLoop)) in
  tr = [ EB get_mqttConnected true; EB (xSemaphoreTake 500) false;
         EDo (vTaskDelay 100) ] /\
  existsb is_report tr = false.
Proof. vm_compute. split; reflexivity. Qed.

(** *** Properties of the system *)

Lemma writes_assigned (tr : list Ev) (v : BringUp) :
  writes (observe BringUpMonitor v tr) = writes v ++ assigned tr.
Proof.
  revert v. induction tr as [|e tr IH]; intros v; cbn [observe fold_left assigned].
  - now rewrite app_nil_r.
  - change (fold_left (m_step BringUpMonitor) tr (m_step BringUpMonitor v e))
      with (observe BringUpMonitor (m_step BringUpMonitor v e) tr).
    rewrite IH. cbn [m_step BringUpMonitor]. rewrite writes_step.
    rewrite <- app_assoc.
    destruct e as [c|q b|q s|q z]; try reflexivity.
    destruct c; reflexivity.
Qed.

Section Properties.
Variable pdMS_TO_TICKS : Z -> Z.

Section Interleaved.
Variable sched : nat -> TaskId.
Variable env : nat -> Input.

Local Notation "'sys'" := (run_system pdMS_TO_TICKS sched env).

(** No periodic task ever assigns the flag. *)
Lemma periodic_never_write (n : nat) :
  existsb (by_periodic is_flag_write) (trace (sys n)) = false.
Proof.
  induction n as [|n IH]; [reflexivity|].
  destruct (trace_step pdMS_TO_TICKS sched env n) as [Hs | [e [k [Hs [Hfit Htr]]]]].
  - rewrite Hs. exact IH.
  - rewrite Htr, existsb_app, IH. cbn. rewrite orb_false_r.
    unfold by_periodic; cbn.
    destruct (TaskId_eqb (sched n) InitTask) eqn:E; [reflexivity|].
    apply TaskId_eqb_neq in E. cbn.
    destruct (is_flag_write e) eqn:He; [|reflexivity].
    pose proof (gate_always pdMS_TO_TICKS sched env (S n) _ E) as [_ Hw].
    rewrite (view_snoc _ _ _ _ _ _ _ _ Htr), TaskId_eqb_refl in Hw.
    destruct e as [c|q b|q s|q z]; try discriminate.
    destruct c; discriminate.
Qed.

(** C2, as the code has it.  When a periodic task uses the UART, the
    Initializer has, at an earlier step, set the flag; at that step the
    bring-up was complete (module probed, SIM ready, network registered,
    MQTT client requested, connect and subscribe sent, the mutex released
    four times), no periodic task had used the UART, and the "online"
    notice had not been published yet: the flag is set first and the
    notice is published after it. *)
Theorem periodic_transport_follows_bringup (n : nat) (t : TaskId) (e : Ev) :
  trace (sys (S n)) = trace (sys n) ++ [(t, e)] ->
  t <> InitTask ->
  is_transport e = true ->
  exists j, (j < n)%nat /\
    trace (sys (S j)) =
      trace (sys j) ++ [(InitTask, EDo (set_mqttConnected true))] /\
    bringup_complete (view BringUpMonitor InitTask (sys j)) = true /\
    existsb (by_periodic is_transport) (trace (sys j)) = false /\
    published (view BringUpMonitor InitTask (sys j)) = false.
Proof.
  intros Htr Ht He.
  pose proof (gate_always pdMS_TO_TICKS sched env (S n) _ Ht) as [Hearly _].
  rewrite (view_snoc _ _ _ _ _ _ _ _ Htr), TaskId_eqb_refl in Hearly.
  pose proof (seen_flag pdMS_TO_TICKS sched env n _ (transport_seen _ _ He Hearly))
    as Hflag.
  destruct (flag_origin pdMS_TO_TICKS sched env n Hflag) as [j [Hj [Hlow Hhigh]]].
  destruct (flag_rise pdMS_TO_TICKS sched env j Hlow Hhigh) as [Hw Hc].
  exists j. repeat split; try assumption.
  - now apply no_transport_before_flag.
  - pose proof (bringup_always pdMS_TO_TICKS sched env j) as [_ [_ [_ Hpub]]].
    destruct Hpub as [Hpub | Hpub]; [exact Hpub|].
    rewrite (flag_is_written pdMS_TO_TICKS sched env j), Hpub in Hlow.
    discriminate.
Qed.

(** C3, as the code has it.  The flag starts false.  No periodic task
    ever assigns it.  The Initializer assigns it at most once: either
    never, or once [false] (on a failure, while it is false), or once
    [true], and then only when the bring-up is complete.  The flag is
    true exactly when [true] has been assigned, and once true it stays
    true. *)
Theorem flag_is_assigned_at_most_once (n : nat) :
  mqttConnected boot = false /\
  existsb (by_periodic is_flag_write) (trace (sys n)) = false /\
  (let by_init := assigned (calls_of InitTask (trace (sys n))) in
   (by_init = [] \/ by_init = [false] \/
    (by_init = [true] /\
     bringup_complete (view BringUpMonitor InitTask (sys n)) = true)) /\
   mqttConnected (sys n) = existsb (fun b => b) by_init) /\
  implb (mqttConnected (sys n)) (mqttConnected (sys (S n))) = true.
Proof.
  split; [reflexivity|]. split; [apply periodic_never_write|]. split.
  - cbn zeta.
    pose proof (bringup_always pdMS_TO_TICKS sched env n) as [_ [_ [Hw _]]].
    pose proof (flag_is_written pdMS_TO_TICKS sched env n) as Hf.
    unfold view in Hw, Hf at 1. rewrite writes_assigned in Hw, Hf.
    cbn [m_init BringUpMonitor writes app] in Hw, Hf.
    split; [exact Hw | exact Hf].
  - destruct (mqttConnected (sys n)) eqn:E; [|reflexivity].
    cbn. now apply flag_stays.
Qed.


(** No task at rest holds the mutex. *)
Lemma rest_releases (n : nat) (t : TaskId) :
  at_rest (tasks (sys n) t) && holds (sys n) t = false.
Proof.
  destruct (at_rest (tasks (sys n) t)) eqn:E; [|reflexivity].
  cbn. now apply rest_free.
Qed.

End Interleaved.

(** C1.  In every task, on every path from a loop head (or the start of
    the task) through any number of passes to a loop head or to the
    task's deletion, the mutex is never taken while held nor given while
    not held, every successful take has its give, and the path ends with
    the mutex released.  In the interleaved system, a task that stands at
    a loop head or has been deleted never holds the mutex, so a failed
    acquisition or a failed bring-up leaves it free for the others. *)
Theorem every_take_is_given_back :
  (forall (o : Oracle) (t : TaskId) (cycles i : nat) (l : Local),
     let v := observe LockMonitor (m_init LockMonitor)
                (fst (run pdMS_TO_TICKS o t cycles i l)) in
     misuse v = false /\ held v = false /\ taken v = given v) /\
  (forall (sched : nat -> TaskId) (env : nat -> Input) (n : nat) (t : TaskId),
     let w := run_system pdMS_TO_TICKS sched env n in
     at_rest (tasks w t) && holds w t = false).
Proof.
  split.
  - intros o t cycles i l. cbn zeta.
    assert (H0 : lock_rest l (m_init LockMonitor)).
    { unfold lock_rest, lock_ok, lock_free. cbn. auto. }
    destruct (run_sound LockMonitor lock_ok lock_free pdMS_TO_TICKS t lock_rest
                (code_lock pdMS_TO_TICKS t) o cycles i l _ H0) as [Hend [Hm Ht]].
    unfold ends_well in Hend.
    assert (Hh : held (observe LockMonitor (m_init LockMonitor)
                         (fst (run pdMS_TO_TICKS o t cycles i l))) = false).
    { destruct (snd (run pdMS_TO_TICKS o t cycles i l)); [apply Hend | exact Hend]. }
    rewrite Hh in Ht. rewrite Nat.add_0_r in Ht. auto.
  - intros sched env n t. apply rest_releases.
Qed.


End Properties.

(** *** Particular runs *)

Lemma periodic_transport_follows_bringup_witness :
  exists j, (j < 121)%nat /\
    trace (run_system one_kHz init_then_receive friendly (S j)) =
      trace (run_system one_kHz init_then_receive friendly j) ++
      [(InitTask, EDo (set_mqttConnected true))] /\
    bringup_complete
      (view BringUpMonitor InitTask
         (run_system one_kHz init_then_receive friendly j)) = true /\
    existsb (by_periodic is_transport)
      (trace (run_system one_kHz init_then_receive friendly j)) = false /\
    published
      (view BringUpMonitor InitTask
         (run_system one_kHz init_then_receive friendly j)) = false.
Proof.
  apply (periodic_transport_follows_bringup one_kHz init_then_receive friendly
           121 ReceiveTask (EDo checkIncomingMessages)).
  - vm_compute. reflexivity.
  - discriminate.
  - reflexivity.
Defined.


(** C2 as stated fails: in the run of the Initializer in which everything
    works, the flag is set by call 99, before any line of the "online"
    notice is written to the modem (calls 103 to 111); the notice does not
    come before the flag. *)
Lemma flag_is_set_before_the_online_notice :
  let tr := fst (exec all_well 0 (vInitTask one_kHz)) in
  nth_error tr 99 = Some (EDo (set_mqttConnected true)) /\
  nth_error tr 111 = Some (EDo (SIM7600_println "AT+CMQTTPUB=0,1,60")) /\
  published (observe BringUpMonitor (m_init BringUpMonitor) (firstn 99 tr)) = false.
Proof. vm_compute. repeat split; reflexivity. Qed.

(** C3 as stated fails: when the GPIO expander does not answer, the one
    assignment to the flag in the life of the Initializer is of [false];
    there is no transition from false to true. *)
Lemma failed_bringup_assigns_false :
  let r := exec expander_down 0 (vInitTask one_kHz) in
  snd r = Deleted /\ assigned (fst r) = [false].
Proof. vm_compute. split; reflexivity. Qed.


(** *** The conduct of the tasks *)

Ltac conduct_tac :=
  unfold conduct_rest, conduct_ok, may_end; cbn; repeat split; auto.

Section ConductOfTasks.
Variable pdMS_TO_TICKS : Z -> Z.
Local Opaque found.

Lemma configure_pins_conduct (n : nat) (i : Z) :
  neutral ConductMonitor (configure_pins n i).
Proof.
  revert i. induction n as [|n IH]; intros i; cbn; auto.
  split; [intros []; reflexivity|].
  split; [intros []; reflexivity|]. apply IH.
Qed.

(** The registration loop runs inside a critical section. *)
Lemma wait_registration_conduct (t : TaskId) (Q : bool -> Conduct -> Prop) :
  conduct_ok t (mkConduct true false false true) ->
  forall (n : nat) (i : Z),
    (forall b, Q b (mkConduct true false false true)) ->
    wp ConductMonitor (conduct_ok t) (may_end t) (wait_registration n i) Q
       (mkConduct true false false true).
Proof.
  set (v := mkConduct true false false true).
  intros Hok. induction n as [|n IH]; intros i HQ.
  - cbn. split; [exact Hok | apply HQ].
  - cbn [wait_registration]. unfold AT, askS, println, call. cbn [bind].
    apply wp_AskS; [exact Hok|]. intros s.
    change (m_step ConductMonitor v (ES (sendATCommand "AT+CREG?" 1000) s)) with v.
    destruct (found s ",1" || found s ",5").
    + cbn [bind]. apply wp_Do; [exact Hok|]. apply wp_Ret; [exact Hok | apply HQ].
    + cbn [bind]. apply wp_Do; [exact Hok|]. apply wp_Do; [exact Hok|].
      apply IH. exact HQ.
Qed.

Ltac conduct_loop :=
  first [ apply wp_neutral;
          [apply configure_pins_conduct | conduct_tac | intros []; cbv beta]
        | apply wait_registration_conduct;
          [conduct_tac | intros [|]; cbv beta; wp_state] ].

Lemma code_conduct (t : TaskId) (l : Local) (v : Conduct) :
  conduct_rest t l v ->
  wp ConductMonitor (conduct_ok t) (may_end t) (code pdMS_TO_TICKS t l)
     (conduct_rest t) v.
Proof.
  intros H. destruct v as [h u r o].
  unfold conduct_rest, conduct_ok in H. cbn in H.
  destruct H as [[Hu [Hr Ho]] [Hh Hl]]. subst h u r.
  destruct t.
  - unfold_code. wp_walk conduct_tac conduct_loop.
  - destruct l; try discriminate; unfold_code; wp_walk conduct_tac conduct_loop.
  - destruct l; try discriminate; unfold_code; wp_walk conduct_tac conduct_loop.
  - subst o. destruct l; try discriminate; unfold_code; wp_walk conduct_tac conduct_loop.
Qed.

End ConductOfTasks.

Lemma holding_held (tr : list Ev) :
  forall (c : Conduct) (v : LockView),
    holding c = held v ->
    holding (observe ConductMonitor c tr) = held (observe LockMonitor v tr).
Proof.
  induction tr as [|e tr IH]; intros c v H; [exact H|].
  cbn [observe fold_left]. apply IH.
  destruct c as [h u r o]. cbn in H. subst h.
  destruct e as [x|q b|q s|q z]; cbn; try reflexivity.
  - destruct x; cbn; try reflexivity. now destruct (held v).
  - destruct q; cbn; try reflexivity. destruct b; [|reflexivity].
    now destruct (held v).
Qed.

Lemma unguarded_step (c : Conduct) (e : Ev) :
  unguarded (conduct_step c e) = false ->
  uses_uart e = true -> holding c = true.
Proof.
  destruct c as [h u r o]. cbn. intros H He. rewrite He in H.
  destruct h; [reflexivity | discriminate].
Qed.

Lemma raised_observe (tr : list Ev) :
  forall c : Conduct,
    raised (observe ConductMonitor c tr) = existsb drives_high tr || raised c.
Proof.
  induction tr as [|e tr IH]; intros c; [reflexivity|].
  cbn [observe fold_left existsb].
  change (fold_left (m_step ConductMonitor) tr (m_step ConductMonitor c e))
    with (observe ConductMonitor (m_step ConductMonitor c e) tr).
  rewrite IH. destruct c as [h u r o]. cbn.
  destruct (drives_high e); cbn.
  - now rewrite orb_true_r.
  - reflexivity.
Qed.

Lemma on_uart_observe (tr : list Ev) :
  forall c : Conduct,
    on_uart (observe ConductMonitor c tr) = existsb is_transport tr || on_uart c.
Proof.
  induction tr as [|e tr IH]; intros c; [reflexivity|].
  cbn [observe fold_left existsb].
  change (fold_left (m_step ConductMonitor) tr (m_step ConductMonitor c e))
    with (observe ConductMonitor (m_step ConductMonitor c e) tr).
  rewrite IH. destruct c as [h u r o]. cbn.
  destruct (is_transport e); cbn.
  - now rewrite orb_true_r.
  - reflexivity.
Qed.

Lemma existsb_by_task (f : Ev -> bool) (tr : list (TaskId * Ev)) :
  (forall t, existsb f (calls_of t tr) = false) ->
  existsb (fun te => f (snd te)) tr = false.
Proof.
  induction tr as [|[t e] tr IH]; intros H; [reflexivity|].
  cbn [existsb snd]. apply orb_false_iff. split.
  - specialize (H t). cbn in H. rewrite TaskId_eqb_refl in H. cbn in H.
    now apply orb_false_iff in H.
  - apply IH. intros t'. specialize (H t'). cbn in H.
    destruct (TaskId_eqb t t'); [|exact H].
    cbn in H. now apply orb_false_iff in H.
Qed.

Section ConductOfSystem.
Variable pdMS_TO_TICKS : Z -> Z.
Variable sched : nat -> TaskId.
Variable env : nat -> Input.

Local Notation "'sys'" := (run_system pdMS_TO_TICKS sched env).

Lemma conduct_always (n : nat) (t : TaskId) :
  wp ConductMonitor (conduct_ok t) (may_end t) (tasks (sys n) t) (conduct_rest t)
     (view ConductMonitor t (sys n)).
Proof.
  apply system_sound.
  - intros l m. apply code_conduct.
  - destruct t; conduct_tac.
Qed.

(** X6. In every interleaving of the four tasks, whatever the modem, the
    clock and the hardware answer: a task that reads from or writes to
    the modem UART ([sendATCommand], [SIM7600.println],
    [checkIncomingMessages]) holds the mutex when it does. *)
Theorem uart_is_used_under_the_mutex (n : nat) (t : TaskId) (e : Ev) :
  trace (sys (S n)) = trace (sys n) ++ [(t, e)] ->
  uses_uart e = true ->
  xSIM7600Mutex (sys n) = Some t.
Proof.
  intros Htr He.
  pose proof (wp_inv _ _ _ _ _ _ (conduct_always (S n) t)) as [Hu _].
  rewrite (view_snoc _ _ _ _ _ _ _ _ Htr), TaskId_eqb_refl in Hu.
  pose proof (unguarded_step _ _ Hu He) as Hh.
  unfold view in Hh.
  rewrite (holding_held _ (m_init ConductMonitor) (m_init LockMonitor) eq_refl) in Hh.
  change (held (view LockMonitor t (sys n)) = true) in Hh.
  rewrite <- holds_held in Hh. unfold holds in Hh.
  destruct (xSIM7600Mutex (sys n)) as [h|]; [|discriminate].
  apply TaskId_eqb_eq in Hh. now subst.
Qed.

(** X7. No task ever drives an output of the GPIO expander HIGH: the
    outputs stay as [initMCP23017] leaves them. *)
Theorem outputs_are_never_driven_high (n : nat) :
  existsb (fun te => drives_high (snd te)) (trace (sys n)) = false.
Proof.
  apply existsb_by_task. intros t.
  pose proof (wp_inv _ _ _ _ _ _ (conduct_always n t)) as [_ [Hr _]].
  unfold view in Hr. rewrite raised_observe in Hr.
  now apply orb_false_iff in Hr.
Qed.

(** X8. The Watchdog never opens, reads or writes the modem UART, though
    it takes the mutex that guards it. *)
Theorem watchdog_never_uses_the_uart (n : nat) :
  existsb is_transport (calls_of WatchdogTask (trace (sys n))) = false.
Proof.
  pose proof (wp_inv _ _ _ _ _ _ (conduct_always n WatchdogTask)) as [_ [_ Ho]].
  unfold view in Ho. rewrite on_uart_observe in Ho.
  now apply orb_false_iff in Ho.
Qed.

(** X9. The Publisher, the ReceivePoller and the Watchdog never end:
    none of them is ever deleted, and whenever one stands at a loop head
    it is a loop head of its own code. *)
Theorem periodic_tasks_never_end (n : nat) (t : TaskId) :
  t <> InitTask ->
  ~ tasks (sys n) t = vTaskDelete /\
  (forall l, tasks (sys n) t = Ret l -> belongs t l = true).
Proof.
  intros Ht. pose proof (conduct_always n t) as H. split.
  - intros E. rewrite E in H. cbn in H. destruct H as [_ H].
    destruct t; try exact H. congruence.
  - intros l E. rewrite E in H. cbn in H. apply H.
Qed.

(** X10. The task that holds the mutex is never blocked: whenever it is
    given the processor it makes its next call; it is not waiting for the
    mutex, not at a loop head behind it, and not deleted. *)
Theorem holder_is_never_blocked (n : nat) (t : TaskId) (x : Input) :
  xSIM7600Mutex (sys n) = Some t ->
  exists e, trace (step pdMS_TO_TICKS (sys n) t x) = trace (sys n) ++ [(t, e)].
Proof.
  intros Hm.
  assert (Hh : held (view LockMonitor t (sys n)) = true).
  { rewrite <- holds_held. unfold holds. rewrite Hm. apply TaskId_eqb_refl. }
  pose proof (lock_always pdMS_TO_TICKS sched env n t) as H.
  apply (wp_resume LockMonitor lock_ok lock_free pdMS_TO_TICKS t lock_rest
           (code_lock pdMS_TO_TICKS t)) in H.
  unfold step.
  destruct (resume pdMS_TO_TICKS t (tasks (sys n) t)) as [l| |c k|q k|q k|q k];
    cbn in H.
  - destruct H as [_ [_ Hf]]. unfold lock_free in Hf. congruence.
  - destruct H as [_ Hf]. unfold lock_free in Hf. congruence.
  - exists (EDo c). destruct c; reflexivity.
  - destruct q.
    + destruct H as [_ H]. specialize (H true).
      apply wp_inv in H. destruct H as [Hmis _]. cbn in Hmis.
      rewrite Hh in Hmis. discriminate.
    + eexists. reflexivity.
    + eexists. reflexivity.
    + eexists. reflexivity.
  - eexists. reflexivity.
  - eexists. reflexivity.
Qed.

(** X11. Once the Initializer has set the flag it reads no answer of the
    modem any more: it makes no call of the executor after that. *)
Theorem initializer_reads_no_answer_after_the_flag (n : nat) :
  late_transport (view BringUpMonitor InitTask (sys n)) = false.
Proof.
  pose proof (bringup_always pdMS_TO_TICKS sched env n) as [_ [H _]]. exact H.
Qed.

End ConductOfSystem.

Lemma uart_is_used_under_the_mutex_witness :
  xSIM7600Mutex (run_system one_kHz init_then_receive friendly 121) =
  Some ReceiveTask.
Proof.
  apply (uart_is_used_under_the_mutex one_kHz init_then_receive friendly
           121 ReceiveTask (EDo checkIncomingMessages)).
  - vm_compute. reflexivity.
  - reflexivity.
Defined.

Lemma periodic_tasks_never_end_witness :
  ~ tasks (run_system one_kHz round_robin dead_hardware 40) WatchdogTask =
    vTaskDelete /\
  (forall l,
     tasks (run_system one_kHz round_robin dead_hardware 40) WatchdogTask = Ret l ->
     belongs WatchdogTask l = true).
Proof.
  apply (periodic_tasks_never_end one_kHz round_robin dead_hardware 40 WatchdogTask).
  discriminate.
Defined.

Lemma holder_is_never_blocked_witness :
  exists e,
    trace (step one_kHz (run_system one_kHz init_then_receive friendly 121)
             ReceiveTask (friendly 121)) =
    trace (run_system one_kHz init_then_receive friendly 121) ++ [(ReceiveTask, e)].
Proof.
  apply (holder_is_never_blocked one_kHz init_then_receive friendly 121
           ReceiveTask (friendly 121)).
  vm_compute. reflexivity.
Defined.

(** *** When the bring-up succeeds *)

Ltac verdict_tac :=
  unfold verdict_end; cbn; try exact I;
  try (intros; split; congruence).

Section VerdictOfInitializer.
Variable pdMS_TO_TICKS : Z -> Z.
Local Opaque found.

Lemma configure_pins_verdict (n : nat) (i : Z) :
  neutral VerdictMonitor (configure_pins n i).
Proof.
  revert i. induction n as [|n IH]; intros i; cbn; auto.
  split; [intros []; reflexivity|].
  split; [intros []; reflexivity|]. apply IH.
Qed.

Lemma wait_registration_verdict (Q : bool -> Verdict -> Prop) :
  forall (n : nat) (i : Z) (p : BringUp) (r : bool),
    writes p = [] ->
    (forall b, Q b (mkVerdict (with_registered p (b || registered p)) r)) ->
    wp VerdictMonitor (fun _ => True) verdict_end (wait_registration n i) Q
       (mkVerdict p r).
Proof.
  induction n as [|n IH]; intros i p r Hw HQ.
  - cbn. split; [exact I|].
    specialize (HQ false). cbn in HQ. now rewrite with_registered_same in HQ.
  - cbn [wait_registration]. unfold AT, askS, println, call.
    cbn [bind]. apply wp_AskS; [exact I|]. intros s.
    assert (Hstep : m_step VerdictMonitor (mkVerdict p r)
                      (ES (sendATCommand "AT+CREG?" 1000) s) =
                    mkVerdict
                      (with_registered p ((found s ",1" || found s ",5") || registered p))
                      r).
    { unfold with_registered. cbn. rewrite Hw. reflexivity. }
    rewrite Hstep. clear Hstep.
    destruct (found s ",1" || found s ",5") eqn:Hc.
    + cbn [orb]. cbn [bind].
      apply wp_Do; [exact I|].
      apply wp_Ret; [exact I|].
      apply (HQ true).
    + cbn [orb]. rewrite with_registered_same. cbn [bind].
      apply wp_Do; [exact I|].
      apply wp_Do; [exact I|].
      cbn [m_step VerdictMonitor verdict_step bringup_step reached refused is_refusal].
      apply IH; assumption.
Qed.

Ltac verdict_loop :=
  first [ apply wp_neutral;
          [apply configure_pins_verdict | exact I | intros []; cbv beta]
        | apply wait_registration_verdict;
          [reflexivity | intros [|]; cbv beta; wp_state] ].

Lemma init_verdict :
  wp VerdictMonitor (fun _ => True) verdict_end (vInitTask pdMS_TO_TICKS)
     (fun _ _ => False) (m_init VerdictMonitor).
Proof.
  unfold_code. wp_walk verdict_tac verdict_loop.
Qed.

End VerdictOfInitializer.

Lemma verdict_observe (tr : list Ev) :
  forall (p : BringUp) (r : bool),
    observe VerdictMonitor (mkVerdict p r) tr =
    mkVerdict (observe BringUpMonitor p tr) (existsb is_refusal tr || r).
Proof.
  induction tr as [|e tr IH]; intros p r; [reflexivity|].
  cbn [observe fold_left existsb].
  change (fold_left (m_step VerdictMonitor) tr (m_step VerdictMonitor (mkVerdict p r) e))
    with (observe VerdictMonitor (m_step VerdictMonitor (mkVerdict p r) e) tr).
  cbn [m_step VerdictMonitor verdict_step]. rewrite IH.
  f_equal. destruct (is_refusal e); cbn.
  - now rewrite orb_true_r.
  - reflexivity.
Qed.

Section SuccessOfInitializer.
Variable pdMS_TO_TICKS : Z -> Z.

(** X12. When nothing refuses (the expander answers, the mutex is obtained
    each time) and the modem answers the probe, reports the SIM ready and
    a registration, the Initializer sets the flag to [true] and publishes
    the notice, whatever the modem answers to anything else. *)
Theorem bringup_succeeds_when_the_modem_is_reachable (o : Oracle) (i : nat) :
  let r := exec o i (vInitTask pdMS_TO_TICKS) in
  let v := observe BringUpMonitor (m_init BringUpMonitor) (fst r) in
  existsb is_refusal (fst r) = false ->
  probed v = true -> sim_ready v = true -> registered v = true ->
  assigned (fst r) = [true] /\ published v = true.
Proof.
  cbn zeta. intros Href Hp Hs Hr.
  destruct (exec_sound VerdictMonitor (fun _ => True) verdict_end o
              (vInitTask pdMS_TO_TICKS) (fun _ _ => False) i _
              (init_verdict pdMS_TO_TICKS)) as [Hend _].
  unfold ends_well in Hend.
  destruct (snd (exec o i (vInitTask pdMS_TO_TICKS))); [contradiction|].
  change (m_init VerdictMonitor) with (mkVerdict (m_init BringUpMonitor) false) in Hend.
  rewrite verdict_observe in Hend. unfold verdict_end in Hend.
  cbn [reached refused] in Hend. rewrite Href in Hend.
  destruct (Hend eq_refl Hp Hs Hr) as [Hw Hpub].
  split; [|exact Hpub].
  rewrite writes_assigned in Hw. exact Hw.
Qed.

End SuccessOfInitializer.

Lemma bringup_succeeds_when_the_modem_is_reachable_witness :
  assigned (fst (exec all_well 0 (vInitTask one_kHz))) = [true] /\
  published (observe BringUpMonitor (m_init BringUpMonitor)
               (fst (exec all_well 0 (vInitTask one_kHz)))) = true.
Proof.
  apply (bringup_succeeds_when_the_modem_is_reachable one_kHz all_well 0);
    vm_compute; reflexivity.
Defined.

(** *** [setupNetwork] *)

Ltac network_tac :=
  unfold network_end; cbn; try exact I;
  try (repeat split; intros; first [reflexivity | congruence | lia]).

Section NetworkSetup.
Variable pdMS_TO_TICKS : Z -> Z.
Local Opaque found.

(** The registration loop: [n] polls left, [k] made. *)
Lemma wait_registration_network (Q : bool -> Network -> Prop) :
  forall (n : nat) (i : Z) (k : nat),
    (forall (b : bool) (k' : nat),
       (k <= k' <= k + n)%nat -> (b = false -> k' = (k + n)%nat) ->
       Q b (mkNetwork true k' b false false)) ->
    wp NetworkMonitor (fun _ => True) (fun _ => False) (wait_registration n i) Q
       (mkNetwork true k false false false).
Proof.
  induction n as [|n IH]; intros i k HQ.
  - cbn. split; [exact I|]. apply HQ; lia.
  - cbn [wait_registration]. unfold AT, askS, println, call.
    cbn [bind]. apply wp_AskS; [exact I|]. intros s.
    cbn [m_step NetworkMonitor network_step String.eqb Ascii.eqb Bool.eqb
         pin_ready creg_polls creg_ok apn_set auth_set].
    destruct (found s ",1" || found s ",5") eqn:Hc.
    + cbn [orb]. cbn [bind].
      apply wp_Do; [exact I|].
      apply wp_Ret; [exact I|].
      apply HQ; [lia | discriminate].
    + cbn [orb]. cbn [bind].
      apply wp_Do; [exact I|].
      apply wp_Do; [exact I|].
      cbn [m_step NetworkMonitor network_step].
      apply IH. intros b k' Hk Hb. apply HQ; [lia|].
      intros E. rewrite (Hb E). lia.
Qed.

Ltac network_loop :=
  apply wait_registration_network;
  intros [|] ?k ?Hk ?Hb; cbv beta; wp_state.

Lemma setupNetwork_network :
  wp NetworkMonitor (fun _ => True) (fun _ => False) (setupNetwork pdMS_TO_TICKS)
     network_end (m_init NetworkMonitor).
Proof.
  unfold_code. wp_walk network_tac network_loop.
Qed.

(** X13. [setupNetwork] always returns.  It returns [true] exactly when the
    SIM reported READY and one of at most 20 registration polls was
    answered with [,1] or [,5]; the APN and its authentication are set
    exactly in that case; a registration that never comes costs exactly
    20 polls, and without a SIM no poll is made. *)
Theorem setupNetwork_registers_within_20_polls (o : Oracle) (i : nat) :
  let r := exec o i (setupNetwork pdMS_TO_TICKS) in
  let v := observe NetworkMonitor (m_init NetworkMonitor) (fst r) in
  exists result,
    snd r = Returned result /\
    result = pin_ready v && creg_ok v /\
    apn_set v = result /\ auth_set v = result /\
    (creg_polls v <= 20)%nat /\
    (pin_ready v = true -> creg_ok v = false -> creg_polls v = 20%nat) /\
    (pin_ready v = false -> creg_polls v = 0%nat).
Proof.
  cbn zeta.
  destruct (exec_sound NetworkMonitor (fun _ => True) (fun _ => False) o
              (setupNetwork pdMS_TO_TICKS) network_end i _
              setupNetwork_network) as [Hend _].
  unfold ends_well in Hend.
  destruct (snd (exec o i (setupNetwork pdMS_TO_TICKS))) as [result|].
  - exists result. split; [reflexivity | exact Hend].
  - contradiction.
Qed.

End NetworkSetup.

Lemma setupNetwork_registers_within_20_polls_witness :
  creg_polls (observe NetworkMonitor (m_init NetworkMonitor)
                (fst (exec searching 0 (setupNetwork one_kHz)))) = 20%nat.
Proof.
  destruct (setupNetwork_registers_within_20_polls one_kHz searching 0)
    as [result [_ [_ [_ [_ [_ [H _]]]]]]].
  apply H; vm_compute; reflexivity.
Defined.

(** *** Functions of the firmware *)

Section FunctionsOfFirmware.
Variable pdMS_TO_TICKS : Z -> Z.
Variable o : Oracle.

Local Opaque found.

Ltac by_answers :=
  repeat (cbn -[String.append connect_command subscribe_command quoted
                mqtt_client_id dec];
          match goal with
          | |- context [found ?r ?p] => destruct (found r p)
          end);
  cbn -[String.append connect_command subscribe_command quoted
        mqtt_client_id dec].

(** X14. [setupMQTT] and [connectMQTT] cannot fail: whatever the modem
    answers, each sends all its commands (stop, release, start, acquire;
    connect, subscribe), in this order, and returns [true]. *)
Theorem mqtt_setup_and_connect_never_fail (i : nat) :
  (let r := exec o i (setupMQTT pdMS_TO_TICKS) in
   snd r = Returned true /\
   commands (fst r) =
     [ "AT+CMQTTSTOP"; "AT+CMQTTREL=0"; "AT+CMQTTSTART";
       ("AT+CMQTTACCQ=0," ++ quoted mqtt_client_id)%string ]) /\
  (let r := exec o i (connectMQTT pdMS_TO_TICKS) in
   snd r = Returned true /\
   commands (fst r) = [ connect_command; subscribe_command ]).
Proof.
  split; cbn zeta.
  - unfold setupMQTT, println, AT, sleep, call, askS. cbn [bind].
    by_answers; split; reflexivity.
  - unfold connectMQTT, println, AT, sleep, call, askS. cbn [bind].
    by_answers; split; reflexivity.
Qed.

Lemma configure_pins_exec (n : nat) :
  forall (i : Z) (j : nat),
    exec o j (configure_pins n i) = (pins_low n i, Returned tt).
Proof.
  induction n as [|n IH]; intros i j; [reflexivity|].
  cbn [configure_pins]. unfold call. cbn [bind exec].
  rewrite IH. reflexivity.
Qed.

(** X15. [initMCP23017] asks the expander first.  If it answers, each of
    the pins 0 to 15 is made an output and driven LOW, once and in
    ascending order, and the result is [true]; if it does not, no pin is
    touched and the result is [false]. *)
Theorem initMCP23017_drives_all_outputs_low (i : nat) :
  let r := exec o i initMCP23017 in
  let answered := ans_bool o (S i) mcp_begin_I2C in
  snd r = Returned answered /\
  filter is_pin_call (fst r) = (if answered then pins_low 16 0 else []) /\
  nth_error (fst r) 1 = Some (EB mcp_begin_I2C answered).
Proof.
  cbn zeta. unfold initMCP23017, println, call, askB. cbn [bind].
  cbn [exec]. destruct (ans_bool o (S i) mcp_begin_I2C); cbn; repeat split.
Qed.

(** X16. The message counter of the Publisher counts the cycles in which
    the flag is read [true], not the messages published: it advances by
    one (modulo 2^32) also in a cycle that misses the mutex and publishes
    nothing, and stays as it is in a cycle that reads the flag [false]. *)
Theorem message_counter_counts_cycles (i : nat) (xLastWakeTime messageCount : Z) :
  let r := exec o i (code pdMS_TO_TICKS PublishTask
                          (PublishLoop xLastWakeTime messageCount)) in
  let next := u32 (xLastWakeTime + pdMS_TO_TICKS 1000) in
  (In (EB get_mqttConnected false) (fst r) ->
   snd r = Returned (PublishLoop next messageCount)) /\
  (In (EB get_mqttConnected true) (fst r) ->
   snd r = Returned (PublishLoop next (u32 (messageCount + 1)))) /\
  (In (EB (xSemaphoreTake (pdMS_TO_TICKS 10000)) false) (fst r) ->
   snd r = Returned (PublishLoop next (u32 (messageCount + 1))) /\
   existsb is_transport (fst r) = false).
Proof.
  cbn zeta.
  exec_walk; (split; [|split]); intros H;
    first [ cbn in H; repeat (destruct H as [H | H]; [discriminate H|]);
            contradiction
          | repeat split ].
Qed.

(** One cycle of the Publisher, by what it read from the flag. *)
Lemma publish_cycle_counter (i : nat) (lw mc : Z) :
  let r := exec o i (code pdMS_TO_TICKS PublishTask (PublishLoop lw mc)) in
  snd r =
    Returned (PublishLoop (u32 (lw + pdMS_TO_TICKS 1000))
                          (if existsb reads_false (fst r) then mc
                           else u32 (mc + 1))).
Proof.
  cbn zeta. exec_walk; reflexivity.
Qed.

Lemma u32_succ (mc : Z) (k : nat) :
  u32 (u32 (mc + 1) + Z.of_nat k) = u32 (mc + Z.of_nat (S k)).
Proof.
  unfold u32. rewrite Zplus_mod_idemp_l. f_equal. lia.
Qed.

(** X24. Over any number of cycles in which the Publisher reads the flag
    [true], the number in its message advances by one per cycle, modulo
    2^32, whether or not the mutex was obtained: after [k] cycles the
    counter is the initial one plus [k]. *)
Theorem message_numbers_follow_the_cycles :
  forall (k i : nat) (xLastWakeTime messageCount : Z),
    0 <= messageCount < two32 ->
    let r := run pdMS_TO_TICKS o PublishTask k i
                 (PublishLoop xLastWakeTime messageCount) in
    existsb reads_false (fst r) = false ->
    exists wake,
      snd r = Returned (PublishLoop wake (u32 (messageCount + Z.of_nat k))).
Proof.
  induction k as [|k IH]; intros i lw mc Hmc; cbn zeta.
  - intros _. exists lw. cbn. now rewrite Z.add_0_r, u32_small.
  - cbn [run].
    pose proof (publish_cycle_counter i lw mc) as Hc. cbn zeta in Hc.
    destruct (exec o i (code pdMS_TO_TICKS PublishTask (PublishLoop lw mc)))
      as [tr r]. cbn [fst snd] in Hc. subst r.
    specialize (IH (i + List.length tr)%nat (u32 (lw + pdMS_TO_TICKS 1000))
                   (if existsb reads_false tr then mc else u32 (mc + 1))).
    destruct (run pdMS_TO_TICKS o PublishTask k (i + List.length tr)
                (PublishLoop (u32 (lw + pdMS_TO_TICKS 1000))
                   (if existsb reads_false tr then mc else u32 (mc + 1))))
      as [tr' r']. cbn [fst snd] in *.
    rewrite existsb_app. intros H. apply orb_false_iff in H.
    destruct H as [Htr Htr']. rewrite Htr in IH.
    destruct (IH (u32_range _) Htr') as [wake Hr].
    exists wake. rewrite Hr. now rewrite u32_succ.
Qed.

End FunctionsOfFirmware.

Lemma message_numbers_follow_the_cycles_witness :
  exists wake,
    snd (run one_kHz mutex_busy PublishTask 3 0 (PublishLoop 7000 4294967294)) =
    Returned (PublishLoop wake (u32 (4294967294 + Z.of_nat 3))).
Proof.
  apply (message_numbers_follow_the_cycles one_kHz mutex_busy 3 0 7000 4294967294).
  - unfold two32. lia.
  - vm_compute. reflexivity.
Defined.

Lemma message_counter_counts_cycles_witness :
  snd (exec mutex_busy 0 (code one_kHz PublishTask (PublishLoop 7000 41))) =
    Returned (PublishLoop (u32 (7000 + one_kHz 1000)) (u32 (41 + 1))) /\
  existsb is_transport
    (fst (exec mutex_busy 0 (code one_kHz PublishTask (PublishLoop 7000 41)))) = false.
Proof.
  apply (proj2 (proj2 (message_counter_counts_cycles one_kHz mutex_busy 0 7000 41))).
  vm_compute. do 3 right. left. reflexivity.
Defined.

(** *** The order of the commands *)

Ltac order_tac :=
  unfold order_rest, order_ok; cbn;
  first [ reflexivity | split; [reflexivity | lia] | exact I ].

Section OrderOfTasks.
Variable pdMS_TO_TICKS : Z -> Z.
Local Opaque found.

Lemma configure_pins_order (n : nat) (i : Z) :
  neutral OrderMonitor (configure_pins n i).
Proof.
  revert i. induction n as [|n IH]; intros i; cbn; auto.
  split; [intros []; reflexivity|].
  split; [intros []; reflexivity|]. apply IH.
Qed.

(** The registration loop after its first poll. *)
Lemma wait_registration_polling (Q : bool -> Order -> Prop) :
  forall (n : nat) (i : Z) (k : nat),
    (k + n <= 20)%nat ->
    (forall (b : bool) (k' : nat),
       (k <= k' <= k + n)%nat -> (b = false -> k' = (k + n)%nat) ->
       Q b (mkOrder ["AT"; "ATE0"; "ATI"; "AT+CPIN?"; "AT+CREG?"] k')) ->
    wp OrderMonitor (order_ok InitTask) (fun _ => True) (wait_registration n i) Q
       (mkOrder ["AT"; "ATE0"; "ATI"; "AT+CPIN?"; "AT+CREG?"] k).
Proof.
  induction n as [|n IH]; intros i k Hk HQ.
  - cbn. split; [split; [reflexivity | lia]|]. apply HQ; lia.
  - cbn [wait_registration]. unfold AT, askS, println, call.
    cbn [bind]. apply wp_AskS; [split; [reflexivity | cbn; lia]|]. intros s.
    change (m_step OrderMonitor
              (mkOrder ["AT"; "ATE0"; "ATI"; "AT+CPIN?"; "AT+CREG?"] k)
              (ES (sendATCommand "AT+CREG?" 1000) s))
      with (mkOrder ["AT"; "ATE0"; "ATI"; "AT+CPIN?"; "AT+CREG?"] (S k)).
    assert (Hok : order_ok InitTask
                    (mkOrder ["AT"; "ATE0"; "ATI"; "AT+CPIN?"; "AT+CREG?"] (S k))).
    { split; [reflexivity | cbn; lia]. }
    destruct (found s ",1" || found s ",5").
    + cbn [bind]. apply wp_Do; [exact Hok|]. apply wp_Ret; [exact Hok|].
      apply HQ; [lia | discriminate].
    + cbn [bind]. apply wp_Do; [exact Hok|]. apply wp_Do; [exact Hok|].
      apply IH; [lia|]. intros b k' Hk' Hb. apply HQ; [lia|].
      intros E. rewrite (Hb E). lia.
Qed.

(** The registration loop of [setupNetwork], from its start. *)
Lemma wait_registration_order (Q : bool -> Order -> Prop) :
  forall (n : nat) (i : Z),
    (n <= 20)%nat ->
    (forall (b : bool) (k' : nat),
       (k' <= n)%nat -> (b = true -> 1 <= k')%nat ->
       (b = false -> k' = n) ->
       Q b (mkOrder (if (0 <? k')%nat
                     then ["AT"; "ATE0"; "ATI"; "AT+CPIN?"; "AT+CREG?"]
                     else ["AT"; "ATE0"; "ATI"; "AT+CPIN?"]) k')) ->
    wp OrderMonitor (order_ok InitTask) (fun _ => True) (wait_registration n i) Q
       (mkOrder ["AT"; "ATE0"; "ATI"; "AT+CPIN?"] 0).
Proof.
  intros n i Hn HQ.
  assert (H0 : order_ok InitTask (mkOrder ["AT"; "ATE0"; "ATI"; "AT+CPIN?"] 0)).
  { split; [reflexivity | cbn; lia]. }
  destruct n as [|n].
  - cbn. split; [exact H0|]. apply (HQ false 0%nat); [lia | discriminate | reflexivity].
  - cbn [wait_registration]. unfold AT, askS, println, call.
    cbn [bind]. apply wp_AskS; [exact H0|]. intros s.
    change (m_step OrderMonitor (mkOrder ["AT"; "ATE0"; "ATI"; "AT+CPIN?"] 0)
              (ES (sendATCommand "AT+CREG?" 1000) s))
      with (mkOrder ["AT"; "ATE0"; "ATI"; "AT+CPIN?"; "AT+CREG?"] 1).
    assert (Hok : order_ok InitTask
                    (mkOrder ["AT"; "ATE0"; "ATI"; "AT+CPIN?"; "AT+CREG?"] 1)).
    { split; [reflexivity | cbn; lia]. }
    destruct (found s ",1" || found s ",5").
    + cbn [bind]. apply wp_Do; [exact Hok|]. apply wp_Ret; [exact Hok|].
      apply (HQ true 1%nat); [lia | lia | discriminate].
    + cbn [bind]. apply wp_Do; [exact Hok|]. apply wp_Do; [exact Hok|].
      apply wait_registration_polling; [lia|].
      intros b k' Hk' Hb.
      specialize (HQ b k'). destruct k' as [|k']; [lia|].
      apply HQ; [lia | lia |]. intros E. rewrite (Hb E). lia.
Qed.

Ltac order_loop :=
  first [ apply wp_neutral;
          [apply configure_pins_order | order_tac | intros []; cbv beta]
        | apply wait_registration_order;
          [lia
          | intros [|] [|?k] ?Hk ?Hreg ?Hnot; cbv beta;
            try (exfalso; first [specialize (Hreg eq_refl) | specialize (Hnot eq_refl)];
                 lia);
            wp_state] ].

Lemma code_order (t : TaskId) (l : Local) (v : Order) :
  order_rest t l v ->
  wp OrderMonitor (order_ok t) (fun _ => True) (code pdMS_TO_TICKS t l)
     (order_rest t) v.
Proof.
  unfold order_rest. intros ->.
  destruct t.
  - unfold_code. wp_walk order_tac order_loop.
  - destruct l; unfold_code; wp_walk order_tac order_loop.
  - destruct l; unfold_code; wp_walk order_tac order_loop.
  - destruct l; unfold_code; wp_walk order_tac order_loop.
Qed.

End OrderOfTasks.

Lemma order_observe (tr : list Ev) :
  forall (cs : list string) (n : nat),
    observe OrderMonitor (mkOrder cs n) tr =
    mkOrder (fold_left push (commands tr) cs) (n + polls_in (commands tr)).
Proof.
  induction tr as [|e tr IH]; intros cs n.
  - cbn. now rewrite Nat.add_0_r.
  - cbn [observe fold_left].
    change (fold_left (m_step OrderMonitor) tr (m_step OrderMonitor (mkOrder cs n) e))
      with (observe OrderMonitor (m_step OrderMonitor (mkOrder cs n) e) tr).
    destruct e as [c|q b|q s|q z]; cbn [m_step OrderMonitor order_step commands];
      try apply IH.
    destruct q as [command timeout]. rewrite IH. cbn [fold_left].
    f_equal. unfold polls_in. cbn [filter].
    destruct (String.eqb "AT+CREG?" command); cbn [List.length]; lia.
Qed.

Lemma push_not_nil (cs : list string) (c : string) : push cs c <> [].
Proof.
  unfold push.
  destruct (String.eqb c "AT+CREG?" && String.eqb (last cs EmptyString) "AT+CREG?")
    eqn:E.
  - intros ->. cbn in E. now rewrite andb_false_r in E.
  - now destruct cs.
Qed.

Lemma fold_push_not_nil (cs : list string) :
  forall s, s <> [] -> fold_left push cs s <> [].
Proof.
  induction cs as [|c cs IH]; intros s Hs; [exact Hs|].
  cbn. apply IH. apply push_not_nil.
Qed.

Lemma squeeze_nil (cs : list string) : squeeze cs = [] -> cs = [].
Proof.
  unfold squeeze. destruct cs as [|c cs]; [reflexivity|].
  cbn [fold_left]. intros H. exfalso.
  exact (fold_push_not_nil cs (push [] c) (push_not_nil [] c) H).
Qed.

Section OrderOfSystem.
Variable pdMS_TO_TICKS : Z -> Z.

Lemma order_always (sched : nat -> TaskId) (env : nat -> Input) (n : nat)
      (t : TaskId) :
  order_ok t (view OrderMonitor t (run_system pdMS_TO_TICKS sched env n)).
Proof.
  apply (system_inv OrderMonitor (order_ok t) (fun _ => True) pdMS_TO_TICKS t
           (order_rest t)).
  - intros l m. apply code_order.
  - reflexivity.
Qed.

(** X25. The Initializer hands its commands to the executor in one fixed
    order.  At every moment of every interleaving, and in every run of
    [vInitTask] by itself, the commands issued so far are, with each run
    of registration polls counted as one, a beginning of the bring-up
    sequence: probe, echo off, module info, SIM, registration, signal,
    APN, authentication, stop, release, start, acquire, connect,
    subscribe; and there are at most 20 registration polls. *)
Theorem bring_up_commands_keep_their_order :
  (forall (sched : nat -> TaskId) (env : nat -> Input) (n : nat),
     let cs := commands (calls_of InitTask
                           (trace (run_system pdMS_TO_TICKS sched env n))) in
     prefixb (squeeze cs) bring_up_sequence = true /\ (polls_in cs <= 20)%nat) /\
  (forall (o : Oracle) (i : nat),
     let cs := commands (fst (exec o i (vInitTask pdMS_TO_TICKS))) in
     prefixb (squeeze cs) bring_up_sequence = true /\ (polls_in cs <= 20)%nat).
Proof.
  split.
  - intros sched env n. cbn zeta.
    pose proof (order_always sched env n InitTask) as H.
    unfold view in H.
    change (m_init OrderMonitor) with (mkOrder [] 0) in H.
    rewrite order_observe in H. exact H.
  - intros o i. cbn zeta.
    assert (H0 : order_rest InitTask Entry (m_init OrderMonitor)) by reflexivity.
    destruct (exec_sound OrderMonitor (order_ok InitTask) (fun _ => True) o
                (code pdMS_TO_TICKS InitTask Entry) (order_rest InitTask) i _
                (code_order pdMS_TO_TICKS InitTask Entry _ H0)) as [_ H].
    change (m_init OrderMonitor) with (mkOrder [] 0) in H.
    cbn [code] in H. rewrite order_observe in H. exact H.
Qed.

(** X26. Only the Initializer ever calls the executor: at every moment
    of every interleaving the Publisher, the ReceivePoller and the
    Watchdog have handed no command to [sendATCommand]. *)
Theorem only_the_initializer_calls_the_executor
  (sched : nat -> TaskId) (env : nat -> Input) (n : nat) (t : TaskId) :
  t <> InitTask ->
  commands (calls_of t (trace (run_system pdMS_TO_TICKS sched env n))) = [].
Proof.
  intros Ht.
  pose proof (order_always sched env n t) as H.
  unfold view in H.
  change (m_init OrderMonitor) with (mkOrder [] 0) in H.
  rewrite order_observe in H.
  apply squeeze_nil.
  destruct t; [congruence | exact H..].
Qed.

End OrderOfSystem.

Lemma only_the_initializer_calls_the_executor_witness :
  commands (calls_of PublishTask
              (trace (run_system one_kHz round_robin dead_hardware 40))) = [].
Proof.
  apply (only_the_initializer_calls_the_executor one_kHz round_robin
           dead_hardware 40 PublishTask).
  discriminate.
Defined.

End FirmwareFacts.

Module BootFacts.
Import Firmware Boot.
Local Open Scope list_scope.
Local Open Scope Z_scope.

Lemma optional_fields (g : Grants) (t : TaskId) (failure : string) (b : Booted) :
  requests (optional g t failure b) = requests b ++ [create t] /\
  running (optional g t failure b) =
    running b ++ (if task_granted g t then [t] else []) /\
  ending (optional g t failure b) = ending b.
Proof.
  unfold optional. destruct (task_granted g t); cbn [requests running ending].
  - repeat split.
  - rewrite app_nil_r. repeat split.
Qed.

Lemma setup_returning (g : Grants) :
  mutex_granted g = true -> task_granted g InitTask = true ->
  requests (setup g) =
    [ xSemaphoreCreateMutex; xQueueCreate 10 8; create InitTask;
      create PublishTask; create ReceiveTask; create WatchdogTask ] /\
  running (setup g) =
    InitTask :: filter (task_granted g) [PublishTask; ReceiveTask; WatchdogTask] /\
  ending (setup g) = Returns.
Proof.
  intros Hm Hi. unfold setup. rewrite Hm, Hi. cbn [negb].
  cbv zeta. cbn [requests running ending].
  repeat match goal with
         | |- context [optional g ?t ?f ?b] =>
             let H := fresh in
             pose proof (optional_fields g t f b) as H;
             destruct H as [-> [-> ->]]
         end.
  cbn [requests running ending app filter].
  split; [reflexivity|]. split; [|reflexivity].
  destruct (task_granted g PublishTask), (task_granted g ReceiveTask),
           (task_granted g WatchdogTask); reflexivity.
Qed.

Lemma setup_halting (g : Grants) :
  mutex_granted g && task_granted g InitTask = false ->
  requests (setup g) =
    (if mutex_granted g
     then [xSemaphoreCreateMutex; xQueueCreate 10 8; create InitTask]
     else [xSemaphoreCreateMutex]) /\
  running (setup g) = [] /\
  ending (setup g) = Halts.
Proof.
  intros H. unfold setup.
  destruct (mutex_granted g); cbn [negb andb] in *.
  - rewrite H. cbn [negb]. cbv zeta. cbn [requests running ending]. repeat split.
  - cbv zeta. cbn [requests running ending]. repeat split.
Qed.

(** X17. [setup] returns exactly when the mutex and the Initializer could
    be created; otherwise it halts, and no task runs.  No task is created
    before the mutex exists.  When it returns, the tasks that run are the
    Initializer and those of the three others FreeRTOS granted, created
    in the order Initializer, Publisher, ReceivePoller, Watchdog, all on
    core 1, and the Initializer has the highest priority of them. *)
Theorem setup_needs_the_mutex_and_the_initializer (g : Grants) :
  let b := setup g in
  (ending b = Returns <->
   mutex_granted g = true /\ task_granted g InitTask = true) /\
  (mutex_granted g = false -> existsb is_task_request (requests b) = false) /\
  running b =
    (if mutex_granted g && task_granted g InitTask
     then InitTask ::
          filter (task_granted g) [PublishTask; ReceiveTask; WatchdogTask]
     else []) /\
  (forall t, In t (running b) -> In (create t) (requests b)) /\
  (forall t, In t (running b) -> t <> InitTask -> priority t < priority InitTask).
Proof.
  cbn zeta.
  destruct (mutex_granted g && task_granted g InitTask) eqn:E.
  - apply andb_true_iff in E. destruct E as [Hm Hi].
    destruct (setup_returning g Hm Hi) as [Hq [Hr He]].
    rewrite Hq, Hr, He, Hm, Hi.
    split; [split; auto|]. split; [discriminate|]. split; [reflexivity|].
    split.
    + intros t [Ht | Ht]; [subst t; cbn [In]; auto|].
      apply filter_In in Ht. destruct Ht as [Ht _].
      destruct t; cbn [In]; auto 10.
    + intros t _ Ht. destruct t; [congruence | reflexivity..].
  - destruct (setup_halting g E) as [Hq [Hr He]].
    rewrite Hq, Hr, He.
    split.
    { split; [discriminate|]. intros [Hm Hi]. rewrite Hm, Hi in E. discriminate. }
    split.
    { intros Hm. rewrite Hm. reflexivity. }
    split; [reflexivity|].
    split; intros t [].
Qed.

Lemma setup_needs_the_mutex_and_the_initializer_witness :
  existsb is_task_request (requests (setup no_heap)) = false.
Proof.
  apply (proj1 (proj2 (setup_needs_the_mutex_and_the_initializer no_heap))).
  reflexivity.
Defined.

End BootFacts.

Module SmsFacts.
Import Str Sms.
Local Open Scope list_scope.
Local Open Scope Z_scope.

Ltac sms_walk :=
  repeat (cbn -[dec String.append];
          match goal with
          | |- context [found ?r ?p] => destruct (found r p) eqn:?
          end);
  cbn -[dec String.append].

Section SmsProgram.
Variable o : Oracle.
Local Opaque found.

(** X18. [sendSMS] writes the text of the message to the modem only after
    both settings were answered with OK and the recipient with the
    prompt; an answer that lacks what is expected ends the dialogue there,
    with nothing further written. *)
Theorem sendSMS_writes_the_text_after_the_prompt
  (i : nat) (number message : string) :
  let tr := fst (exec o i (sendSMS number message)) in
  match heard tr with
  | [resp1] =>
      found resp1 "OK" = false /\
      to_modem tr = firstn 1 (dialogue number message)
  | [resp1; resp2] =>
      found resp1 "OK" = true /\ found resp2 "OK" = false /\
      to_modem tr = firstn 2 (dialogue number message)
  | [resp1; resp2; resp3] =>
      found resp1 "OK" = true /\ found resp2 "OK" = true /\
      found resp3 ">" = false /\
      to_modem tr = firstn 5 (dialogue number message)
  | [resp1; resp2; resp3; resp4] =>
      found resp1 "OK" = true /\ found resp2 "OK" = true /\
      found resp3 ">" = true /\
      to_modem tr = dialogue number message
  | _ => False
  end.
Proof.
  cbn zeta. unfold sendSMS, println, call, ask. cbn [bind].
  sms_walk; repeat split; auto.
Qed.

(** X19. [sendSMS] ends with one line that tells how far it came, and
    it reports success only when the whole dialogue was written to the
    modem and the last answer contains OK or +CMGS. *)
Theorem sendSMS_reports_success_only_after_sending
  (i : nat) (number message : string) :
  let tr := fst (exec o i (sendSMS number message)) in
  last (console tr) EmptyString =
    match heard tr with
    | [_] => "ERROR: Failed to set text mode"
    | [_; _] => "ERROR: Failed to set character set"
    | [_; _; _] => "ERROR: Did not receive '>' prompt"
    | [_; _; _; resp4] => verdict resp4
    | _ => EmptyString
    end /\
  (In "SUCCESS: SMS sent successfully!" (console tr) ->
   to_modem tr = dialogue number message /\
   exists resp1 resp2 resp3 resp4,
     heard tr = [resp1; resp2; resp3; resp4] /\
     found resp4 "OK" || found resp4 "+CMGS" = true).
Proof.
  cbn zeta. unfold sendSMS, verdict, println, call, ask. cbn [bind].
  sms_walk; (split; [first [reflexivity | congruence]|]); intros H;
    first [ exfalso; congruence
          | cbn in H;
            repeat (destruct H as [H | H]; [discriminate H|]); contradiction
          | split; [reflexivity|];
            do 4 eexists; split; [reflexivity|];
            repeat match goal with
                   | E : found _ _ = _ |- _ => rewrite E
                   end;
            reflexivity ].
Qed.

(** X20. [initDOModules] returns what the expander answered.  When it
    answered, every output 0 to 15 is LOW at the end; output 0 alone has
    been HIGH in between, once, for the test.  When it did not answer, no
    output was written.  The modem is not touched. *)
Theorem initDOModules_leaves_all_outputs_low (i : nat) :
  let r := exec o i initDOModules in
  let answer := ans_bool o (S i) in
  snd r = answer /\
  (forall pin, 0 <= pin < 16 ->
     levels (fst r) (fun _ => None) pin = if answer then Some false else None) /\
  driven_high (fst r) = (if answer then [0] else []) /\
  to_modem (fst r) = [].
Proof.
  cbn zeta. unfold initDOModules, println, call. cbn [bind exec].
  destruct (ans_bool o (S i)); cbn; repeat split.
  intros pin Hpin.
  assert (H : pin = 0 \/ pin = 1 \/ pin = 2 \/ pin = 3 \/ pin = 4 \/ pin = 5 \/
              pin = 6 \/ pin = 7 \/ pin = 8 \/ pin = 9 \/ pin = 10 \/ pin = 11 \/
              pin = 12 \/ pin = 13 \/ pin = 14 \/ pin = 15) by lia.
  repeat (destruct H as [H | H]; [subst pin; reflexivity|]).
  subst pin; reflexivity.
Qed.

(** X21. The search for the baud rate of the module tries 115200, 9600,
    57600 and 19200 in this order, the first on the UART as it is and each
    of the others after closing the UART and opening it at that rate; it
    stops at the first probe whose answer contains OK or AT, and says
    whether there was one.  All that goes to the modem is the line AT of
    each probe. *)
Theorem probe_tries_the_rates_in_order (i : nat) :
  let r := exec o i (probe baudRates) in
  let n := List.length (probes (fst r)) in
  (1 <= n <= 4)%nat /\
  opened (fst r) = firstn (n - 1) (tl baudRates) /\
  forallb (fun a => negb (answered a)) (removelast (probes (fst r))) = true /\
  snd r = answered (last (probes (fst r)) EmptyString) /\
  (snd r = false -> n = 4%nat) /\
  to_modem (fst r) = repeat (SIM7600_println "AT") n.
Proof.
  cbn zeta. unfold answered, baudRates, probe, println, call, ask. cbn [bind].
  sms_walk; repeat split; auto; try lia; try congruence.
Qed.

End SmsProgram.

Lemma sendSMS_reports_success_only_after_sending_witness :
  to_modem (fst (exec obliging 0 (sendSMS "+254729399246" "Hello"))) =
    dialogue "+254729399246" "Hello" /\
  exists resp1 resp2 resp3 resp4,
    heard (fst (exec obliging 0 (sendSMS "+254729399246" "Hello"))) =
      [resp1; resp2; resp3; resp4] /\
    found resp4 "OK" || found resp4 "+CMGS" = true.
Proof.
  apply (proj2 (sendSMS_reports_success_only_after_sending obliging 0
                  "+254729399246" "Hello")).
  vm_compute. repeat (first [left; reflexivity | right]).
Defined.

Lemma initDOModules_leaves_all_outputs_low_witness :
  levels (fst (exec silent_modem 0 initDOModules)) (fun _ => None) 9 = Some false.
Proof.
  apply (proj1 (proj2 (initDOModules_leaves_all_outputs_low silent_modem 0)) 9).
  lia.
Defined.

Lemma probe_tries_the_rates_in_order_witness :
  List.length (probes (fst (exec silent 0 (probe baudRates)))) = 4%nat.
Proof.
  apply (proj1 (proj2 (proj2 (proj2 (proj2
           (probe_tries_the_rates_in_order silent 0)))))).
  vm_compute. reflexivity.
Defined.

Lemma exec_bind {A B : Type} (o : Oracle) (p : prog A) (f : A -> prog B) :
  forall i,
    exec o i (bind p f) =
    (let (tr, a) := exec o i p in
     let (tr', b) := exec o (i + List.length tr) (f a) in
     (tr ++ tr', b)).
Proof.
  induction p as [a|c k IH|q k IH|k IH]; intros i; cbn [bind exec].
  - cbn. rewrite Nat.add_0_r. now destruct (exec o i (f a)).
  - rewrite IH. destruct (exec o (S i) k) as [tr a].
    cbn [List.length]. rewrite Nat.add_succ_r. cbn [Nat.add].
    now destruct (exec o (S (i + List.length tr)) (f a)).
  - rewrite IH. destruct (exec o (S i) (k (ans_string o i q))) as [tr a].
    cbn [List.length]. rewrite Nat.add_succ_r. cbn [Nat.add].
    now destruct (exec o (S (i + List.length tr)) (f a)).
  - rewrite IH. destruct (exec o (S i) (k (ans_bool o i))) as [tr a].
    cbn [List.length]. rewrite Nat.add_succ_r. cbn [Nat.add].
    now destruct (exec o (S (i + List.length tr)) (f a)).
Qed.

Lemma assigned_app (a b : list Ev) : assigned (a ++ b) = assigned a ++ assigned b.
Proof.
  induction a as [|e a IH]; [reflexivity|].
  destruct e as [c|q s|x]; cbn; auto. destruct c; cbn; auto. now rewrite IH.
Qed.

Lemma console_app (a b : list Ev) : console (a ++ b) = console a ++ console b.
Proof.
  induction a as [|e a IH]; [reflexivity|].
  destruct e as [c|q s|x]; cbn; auto. destruct c; cbn; auto. now rewrite IH.
Qed.

Lemma probes_app (a b : list Ev) : probes (a ++ b) = probes a ++ probes b.
Proof.
  induction a as [|e a IH]; [reflexivity|].
  destruct e as [c|q s|x]; cbn; auto. destruct q; cbn; auto.
  destruct (String.eqb command "AT"); cbn; auto. now rewrite IH.
Qed.

Lemma to_modem_app (a b : list Ev) : to_modem (a ++ b) = to_modem a ++ to_modem b.
Proof.
  induction a as [|e a IH]; [reflexivity|].
  destruct e as [c|q s|x]; cbn; auto.
  - destruct c; cbn; auto; now rewrite IH.
  - destruct q; cbn; auto. now rewrite IH.
Qed.

Section SmsSetup.
Variable o : Oracle.
Local Opaque found.

Lemma initDOModules_quiet (i : nat) :
  let tr := fst (exec o i initDOModules) in
  assigned tr = [] /\ probes tr = [] /\ to_modem tr = [].
Proof.
  cbn zeta. unfold initDOModules, println, call. cbn [bind exec].
  destruct (ans_bool o (S i)); cbn; repeat split.
Qed.

Lemma sendSMS_quiet (i : nat) (number message : string) :
  let tr := fst (exec o i (sendSMS number message)) in
  assigned tr = [] /\ probes tr = [] /\
  exists m, to_modem tr = firstn m (dialogue number message).
Proof.
  cbn zeta. unfold sendSMS, println, call, ask. cbn [bind].
  sms_walk; (split; [reflexivity|]); (split; [reflexivity|]);
    first [ exists 7%nat; reflexivity | exists 5%nat; reflexivity
          | exists 2%nat; reflexivity | exists 1%nat; reflexivity ].
Qed.

Lemma probe_quiet (i : nat) :
  let r := exec o i (probe baudRates) in
  assigned (fst r) = [] /\
  to_modem (fst r) =
    repeat (SIM7600_println "AT") (List.length (probes (fst r))) /\
  snd r = existsb answered (probes (fst r)) /\
  (snd r = false -> List.length (probes (fst r)) = 4%nat).
Proof.
  cbn zeta. unfold answered, baudRates, probe, println, call, ask. cbn [bind].
  sms_walk; repeat split; auto; congruence.
Qed.

Ltac find_line :=
  repeat (cbn [In];
          first [ left; reflexivity
                | right
                | apply in_or_app; right ]).

Ltac next_call :=
  rewrite exec_bind;
  match goal with
  | |- context [exec o ?i ?p] =>
      lazymatch p with
      | bind _ _ => fail
      | _ => idtac
      end
  end.

(** X22. [setup] always ends with [smsSent] set, assigned once.  When a
    probe was answered it prints that the SMS was sent, whatever came of
    [sendSMS], which returns nothing; what went to the modem is then the
    probes, the three commands ATE0, AT+CREG? and AT+CSQ, and the
    dialogue of [sendSMS] as far as it came.  When no probe was answered,
    no SMS is tried: the line AT of the four probes is all that goes to
    the modem. *)
Theorem setup_always_ends_in_bridge_mode :
  let tr := fst (exec o 0 setup) in
  assigned tr = [true] /\
  (existsb answered (probes tr) = true ->
   In "=== SMS Sent! ===" (console tr) /\
   exists m,
     to_modem tr =
       repeat (SIM7600_println "AT") (List.length (probes tr)) ++
       [ SIM7600_println "ATE0"; SIM7600_println "AT+CREG?";
         SIM7600_println "AT+CSQ" ] ++
       firstn m (dialogue "+254729399246" "Hello from ESP32-S3 and SIM7600!")) /\
  (existsb answered (probes tr) = false ->
   to_modem tr = repeat (SIM7600_println "AT") 4 /\
   List.length (probes tr) = 4%nat).
Proof.
  cbn zeta. remember (fst (exec o 0 setup)) as tr eqn:Htr.
  unfold setup in Htr. unfold call at 1 in Htr. cbn [bind exec] in Htr.
  rewrite exec_bind in Htr.
  pose proof (initDOModules_quiet 1) as [Ha1 [Hp1 Hm1]].
  destruct (exec o 1 initDOModules) as [tr1 ok]. cbn [fst] in *.
  unfold println at 1 2 3 4 5, call at 1 2 3 4 5 6 7 8 in Htr.
  cbn [bind exec] in Htr.
  rewrite exec_bind in Htr.
  match type of Htr with
  | context [exec o ?i (probe baudRates)] =>
      pose proof (probe_quiet i) as [Ha2 [Hm2 [Hr2 Hn2]]];
      destruct (exec o i (probe baudRates)) as [tr2 responding]
  end.
  cbn [fst snd] in *.
  destruct responding; cbn [negb] in Htr.
  - unfold println, call, ask in Htr. cbn [bind exec] in Htr.
    rewrite exec_bind in Htr.
    match type of Htr with
    | context [exec o ?i (sendSMS ?n ?m)] =>
        pose proof (sendSMS_quiet i n m) as [Ha3 [Hp3 [m3 Hm3]]];
        destruct (exec o i (sendSMS n m)) as [tr3 u]
    end.
    cbn [fst snd] in *. cbn [exec fst snd app] in Htr. subst tr.
    repeat (rewrite ?assigned_app, ?probes_app, ?console_app, ?to_modem_app;
            cbn [assigned probes console to_modem String.eqb Ascii.eqb Bool.eqb app]).
    rewrite Ha1, Ha2, Ha3, Hp1, Hp3, Hm1, Hm2, Hm3. cbn [app].
    rewrite app_nil_r, <- Hr2.
    split; [reflexivity|]. split; [|discriminate].
    intros _. split; [find_line|].
    exists m3. now rewrite ?app_nil_r.
  - unfold println, call in Htr. cbn [bind exec fst snd app] in Htr. subst tr.
    repeat (rewrite ?assigned_app, ?probes_app, ?console_app, ?to_modem_app;
            cbn [assigned probes console to_modem String.eqb Ascii.eqb Bool.eqb app]).
    rewrite Ha1, Ha2, Hp1, Hm1, Hm2. cbn [app].
    rewrite ?app_nil_r, <- Hr2.
    split; [reflexivity|]. split; [discriminate|].
    intros _. rewrite (Hn2 eq_refl). split; reflexivity.
Qed.

End SmsSetup.

Lemma setup_always_ends_in_bridge_mode_witness :
  In "ERROR: Failed to set text mode" (console (fst (exec echo_only 0 setup))) /\
  In "=== SMS Sent! ===" (console (fst (exec echo_only 0 setup))).
Proof.
  split.
  - vm_compute. repeat (first [left; reflexivity | right]).
  - apply (proj1 (proj2 (setup_always_ends_in_bridge_mode echo_only))).
    vm_compute. reflexivity.
Defined.

Section WaitingLoop.
Import Executor.

Lemma collect_ends (timeout t0 eps : Z) :
  0 <= timeout -> 0 <= eps -> timeout + eps < two32 ->
  forall (env : list Poll) (acc : string) (n : nat) (t : Z),
    t0 <= t <= t0 + timeout ->
    paced eps t env ->
    reaches t0 timeout env ->
    exists k : nat,
      (S k <= List.length env)%nat /\
      collect (u32 t0) timeout acc n env =
        Some ((acc ++ received k env)%string, (n + S k)%nat, reading (S k) env) /\
      (forall j, (1 <= j <= k)%nat -> reading j env < t0 + timeout) /\
      t0 + timeout <= reading (S k) env <= t0 + timeout + eps.
Proof.
  intros Hto Heps Hfit env.
  assert (Hu : u32 timeout = timeout).
  { apply FirmwareFacts.u32_small. lia. }
  induction env as [|p env IH]; intros acc n t Ht Hpaced Hreach.
  - destruct Hreach as [p [[] _]].
  - cbn [paced] in Hpaced. destruct Hpaced as [Hp Hrest].
    cbn [collect]. unfold millis.
    rewrite ExecutorFacts.elapsed_exact by lia. rewrite Hu.
    destruct (at_ms p - t0 <? timeout) eqn:Hin.
    + apply Z.ltb_lt in Hin.
      destruct (IH (acc ++ rx p)%string (S n) (at_ms p))
        as [k [Hk [Hc [Hbefore Hl]]]].
      * lia.
      * exact Hrest.
      * destruct Hreach as [q [[Hq | Hq] Hdead]].
        -- subst q. lia.
        -- exists q. split; assumption.
      * exists (S k). cbn [List.length].
        rewrite ExecutorFacts.reading_next by lia.
        split; [lia|]. split; [|split; [|exact Hl]].
        -- rewrite Hc. rewrite ExecutorFacts.received_more.
           replace (n + S (S k))%nat with (S n + S k)%nat by lia. reflexivity.
        -- intros j Hj. destruct j as [|j]; [lia|]. destruct j as [|j].
           ++ change (reading 1 (p :: env)) with (at_ms p). lia.
           ++ rewrite ExecutorFacts.reading_next by lia. apply Hbefore. lia.
    + apply Z.ltb_ge in Hin.
      exists 0%nat. cbn [List.length].
      change (reading 1 (p :: env)) with (at_ms p).
      split; [lia|]. split; [|split; [intros j Hj; lia | lia]].
      unfold received. cbn. rewrite ExecutorFacts.append_empty_r.
      replace (n + 1)%nat with (S n) by lia. reflexivity.
Qed.

(** X23. The [sendATCommand] of the SMS program never returns early: it
    reads until the first reading of the clock at which the deadline has
    passed, also when OK has long arrived, and leaves in [response] every
    byte received in the iterations before, all of which began before the
    deadline. *)
Theorem sms_sendATCommand_waits_for_the_deadline
  (command : string) (timeout t0 eps : Z) (env : list Poll) :
  0 <= timeout -> 0 <= eps -> timeout + eps < two32 ->
  paced eps t0 env ->
  reaches t0 timeout env ->
  exists k : nat,
    (S k <= List.length env)%nat /\
    sendATCommand_loop command timeout t0 env =
      Some (received k env, S k, reading (S k) env) /\
    (forall j, (1 <= j <= k)%nat -> reading j env < t0 + timeout) /\
    t0 + timeout <= reading (S k) env <= t0 + timeout + eps.
Proof.
  intros Hto Heps Hfit Hpaced Hreach.
  destruct (collect_ends timeout t0 eps Hto Heps Hfit env EmptyString 0%nat t0)
    as [k H]; try assumption; try lia.
  exists k. exact H.
Qed.

End WaitingLoop.

Lemma sms_sendATCommand_waits_for_the_deadline_witness :
  exists k : nat,
    (S k <= List.length
              [ Executor.mkPoll 1001 "OK"; Executor.mkPoll 2500 EmptyString;
                Executor.mkPoll 3000 EmptyString ])%nat /\
    sendATCommand_loop "AT" 2000 1000
      [ Executor.mkPoll 1001 "OK"; Executor.mkPoll 2500 EmptyString;
        Executor.mkPoll 3000 EmptyString ] =
      Some (Executor.received k
              [ Executor.mkPoll 1001 "OK"; Executor.mkPoll 2500 EmptyString;
                Executor.mkPoll 3000 EmptyString ], S k,
            Executor.reading (S k)
              [ Executor.mkPoll 1001 "OK"; Executor.mkPoll 2500 EmptyString;
                Executor.mkPoll 3000 EmptyString ]) /\
    (forall j, (1 <= j <= k)%nat ->
       Executor.reading j
         [ Executor.mkPoll 1001 "OK"; Executor.mkPoll 2500 EmptyString;
           Executor.mkPoll 3000 EmptyString ] < 1000 + 2000) /\
    1000 + 2000 <=
      Executor.reading (S k)
        [ Executor.mkPoll 1001 "OK"; Executor.mkPoll 2500 EmptyString;
          Executor.mkPoll 3000 EmptyString ] <= 1000 + 2000 + 1500.
Proof.
  apply (sms_sendATCommand_waits_for_the_deadline "AT" 2000 1000 1500).
  - lia.
  - lia.
  - reflexivity.
  - cbn. lia.
  - exists (Executor.mkPoll 3000 EmptyString). split; [cbn; tauto | cbn; lia].
Defined.

End SmsFacts.
